(** * Sales analytics dashboard: the forecasting pipeline

    A shallow embedding of [src/ml/forecasting.py] (class [SalesForecaster])
    and of the orchestrators of [src/analytics/forecasting.py].

    Conventions of the model.
    - A timestamp is a day number ([Z], days since 1970-01-01): every date the
      pipeline sees is a SQL [DATE(...)] value or a date generated from one,
      and [pd.Timedelta(days=30)] is the integer 30.  [NaT] is [None].
    - A float64 is a primitive binary64 [float]; element-wise arithmetic and
      comparisons are the IEEE ones ([NaN] compares false with everything).
    - The reductions of pandas ([mean], [std], [sum], [min], [max],
      [quantile]) and its string parsers are the fields of the class
      [Pandas]: the model fixes on which values they are called, not how
      they round.  Prophet and the database driver are the classes
      [ProphetLib] and [Database].
    - A [DataFrame] built by the forecaster is a list of named, typed columns;
      a frame as it comes out of [cursor.fetchall()] is a list of rows of
      Python objects.  Frames that are shared between a caller and a method
      live in a store and are passed by address.
    - Calls to the logger are not part of the model; a [try ... except: log;
      raise] block is the identity on the exception it re-raises. *)

From Stdlib Require Import ZArith List Floats Uint63 Permutation Sorted Lia.
From stdpp Require Import base option list gmap strings.

Set Warnings "-inexact-float".

(** ** Exceptions and results *)

Inductive Exn :=
| ValueError (msg : string)
| KeyError (key : string)
| IndexError (msg : string)
| TypeError (msg : string)
| NameError (name : string)
| LibraryError (msg : string).

Inductive Result (A : Type) :=
| Ok (a : A)
| Raise (e : Exn).
Arguments Ok {A} a.
Arguments Raise {A} e.

#[global] Instance result_ret : MRet Result := @Ok.
#[global] Instance result_bind : MBind Result :=
  λ A B f m, match m with Ok a => f a | Raise e => Raise e end.

Definition is_ok {A} (r : Result A) : bool :=
  match r with Ok _ => true | Raise _ => false end.

(** ** Cells, raw frames and typed frames *)

(** A Python object in a cell of a frame built from database rows: [None], a
    string, a [datetime.date], or a number ([int], [float] or [Decimal],
    identified with the float64 that [pd.to_numeric] gives it). *)
Inductive Obj :=
| ONone
| OStr (s : string)
| ODate (d : Z)
| ONum (x : float).

(** [pd.DataFrame(data, columns=[...])]: rows of objects under column names. *)
Record RawFrame := { columns : list string; data : list (list Obj) }.

Fixpoint index_of (c : string) (cs : list string) : option nat :=
  match cs with
  | [] => None
  | c' :: cs' => if String.eqb c c' then Some 0 else S <$> index_of c cs'
  end.

(** [df[c]] on a raw frame. *)
Definition raw_getcol (df : RawFrame) (c : string) : Result (list Obj) :=
  match index_of c (columns df) with
  | Some i => Ok (map (λ row, nth i row ONone) (data df))
  | None => Raise (KeyError c)
  end.

Definition raw_len (df : RawFrame) : nat := length (data df).

(** [df.iloc[:k]] and [df.iloc[k:]]. *)
Definition raw_iloc_to (k : nat) (df : RawFrame) : RawFrame :=
  {| columns := columns df; data := firstn k (data df) |}.
Definition raw_iloc_from (k : nat) (df : RawFrame) : RawFrame :=
  {| columns := columns df; data := skipn k (data df) |}.

Inductive Column :=
| TimeCol (l : list (option Z))
| FloatCol (l : list float)
| IntCol (l : list Z).

Definition Frame := list (string * Column).

Definition col_len (c : Column) : nat :=
  match c with
  | TimeCol l => length l
  | FloatCol l => length l
  | IntCol l => length l
  end.

Definition len (df : Frame) : nat :=
  match df with
  | [] => 0
  | (_, c) :: _ => col_len c
  end.

Fixpoint assoc (name : string) (df : Frame) : option Column :=
  match df with
  | [] => None
  | (n, c) :: df' => if String.eqb name n then Some c else assoc name df'
  end.

Definition has_col (name : string) (df : Frame) : bool :=
  match assoc name df with Some _ => true | None => false end.

Definition getcol (df : Frame) (name : string) : Result Column :=
  match assoc name df with
  | Some c => Ok c
  | None => Raise (KeyError name)
  end.

(** [float(z)]; exact below 2^53 in absolute value, which covers the flags,
    day numbers and counts converted here. *)
Definition Z_to_float (z : Z) : float :=
  if (z <? 0)%Z then PrimFloat.opp (PrimFloat.of_uint63 (Uint63.of_Z (- z)))
  else PrimFloat.of_uint63 (Uint63.of_Z z).

Definition get_float (df : Frame) (name : string) : Result (list float) :=
  c ← getcol df name;
  match c with
  | FloatCol l => Ok l
  | IntCol l => Ok (map Z_to_float l)
  | TimeCol _ => Raise (TypeError "datetime64 column used as a number")
  end.

Definition get_time (df : Frame) (name : string) : Result (list (option Z)) :=
  c ← getcol df name;
  match c with
  | TimeCol l => Ok l
  | _ => Raise (TypeError "column is not datetime64")
  end.

(** [df[name] = c]: replaces the column in place, or appends it. *)
Fixpoint setcol (name : string) (c : Column) (df : Frame) : Frame :=
  match df with
  | [] => [(name, c)]
  | (n, c') :: df' =>
      if String.eqb name n then (n, c) :: df' else (n, c') :: setcol name c df'
  end.

Definition del_col (name : string) (df : Frame) : Frame :=
  List.filter (λ nc, negb (String.eqb name (fst nc))) df.

(** [df.drop(names, axis=1)]: a new frame; [KeyError] on an unknown name. *)
Fixpoint drop_columns (names : list string) (df : Frame) : Result Frame :=
  match names with
  | [] => Ok df
  | n :: names' =>
      if has_col n df then drop_columns names' (del_col n df)
      else Raise (KeyError n)
  end.

(** Boolean-mask indexing [s[mask]]. *)
Fixpoint mask_select {A} (mask : list bool) (l : list A) : list A :=
  match mask, l with
  | b :: mask', x :: l' =>
      if b then x :: mask_select mask' l' else mask_select mask' l'
  | _, _ => []
  end.

Definition col_mask (mask : list bool) (c : Column) : Column :=
  match c with
  | TimeCol l => TimeCol (mask_select mask l)
  | FloatCol l => FloatCol (mask_select mask l)
  | IntCol l => IntCol (mask_select mask l)
  end.

(** [df[mask]]. *)
Definition filter_rows (mask : list bool) (df : Frame) : Frame :=
  map (λ nc, (fst nc, col_mask mask (snd nc))) df.

Definition notna_col (c : Column) : list bool :=
  match c with
  | TimeCol l => map (λ t, match t with Some _ => true | None => false end) l
  | FloatCol l => map (λ x, negb (PrimFloat.is_nan x)) l
  | IntCol l => map (λ _, true) l
  end.

Fixpoint zip_andb (a b : list bool) : list bool :=
  match a, b with
  | x :: a', y :: b' => (x && y) :: zip_andb a' b'
  | _, _ => []
  end.

(** [df.dropna()]: keeps the rows with no missing value in any column. *)
Definition dropna (df : Frame) : Frame :=
  filter_rows
    (fold_right (λ nc acc, zip_andb (notna_col (snd nc)) acc)
       (repeat true (len df)) df)
    df.

(** Positional selection [s.take(idx)]; indices out of range select nothing. *)
Definition take_rows {A} (idx : list nat) (l : list A) : list A :=
  flat_map (λ i, match nth_error l i with Some x => [x] | None => [] end) idx.

Definition col_take (idx : list nat) (c : Column) : Column :=
  match c with
  | TimeCol l => TimeCol (take_rows idx l)
  | FloatCol l => FloatCol (take_rows idx l)
  | IntCol l => IntCol (take_rows idx l)
  end.

(** Order of two keys of a sorting column, missing values last. *)
Definition time_leb (a b : option Z) : bool :=
  match a, b with
  | Some x, Some y => (x <=? y)%Z
  | _, None => true
  | None, Some _ => false
  end.

Definition float_key_leb (a b : float) : bool :=
  PrimFloat.is_nan b || PrimFloat.leb a b.

Section Argsort.
Context {A : Type} (leb : A -> A -> bool).

Fixpoint insert_key (x : A * nat) (l : list (A * nat)) : list (A * nat) :=
    match l with
    | [] => [x]
    | y :: l' => if leb (fst x) (fst y) then x :: l else y :: insert_key x l'
    end.

Definition sort_keys (l : list (A * nat)) : list (A * nat) :=
    fold_right insert_key [] l.

  (** The positions of [keys] in ascending order of key (ties keep their
      input order). *)
Definition argsort (keys : list A) : list nat :=
    map snd (sort_keys (combine keys (seq 0 (length keys)))).
End Argsort.

Definition col_argsort (c : Column) : list nat :=
  match c with
  | TimeCol l => argsort time_leb l
  | FloatCol l => argsort float_key_leb l
  | IntCol l => argsort Z.leb l
  end.

(** The rows of [df] at the positions [idx], in that order. *)
Definition filter_rows_idx (idx : list nat) (df : Frame) : Frame :=
  map (λ nc, (fst nc, col_take idx (snd nc))) df.

(** [df.sort_values(by)].  Rows with equal keys keep their input order
    (pandas promises no order among ties; the frames sorted here hold one
    row per date). *)
Definition sort_values (df : Frame) (by_ : string) : Result Frame :=
  c ← getcol df by_;
  Ok (filter_rows_idx (col_argsort c) df).

(** ** The pandas kernels the pipeline calls *)

Class Pandas := {
  (** [Series.mean()], [Series.std()] (sample standard deviation, ddof=1),
      [Series.sum()], [Series.min()], [Series.max()] on a float column *)
  mean : list float -> float;
  std : list float -> float;
  (** [Series.rolling(window=w, center=True).mean()] and [.std()] of the
      series [s] at a position [i] whose window is full: what the sliding
      accumulator of pandas holds there.  It is fed and drained value by
      value along the series, so its floats are not those of [mean] and
      [std] on the window taken alone. *)
  rolling_mean : nat -> list float -> nat -> float;
  rolling_std : nat -> list float -> nat -> float;
  total : list float -> float;
  minimum : list float -> float;
  maximum : list float -> float;
  (** [Series.quantile(q)] *)
  quantile : list float -> float -> float;
  (** the number a string denotes for [pd.to_numeric] and [float(...)] *)
  parse_float : string -> option float;
  (** [pd.to_datetime] on a string: the date it denotes, NaT (the empty
      string, [NaT], [nan] and their like) or the error raised *)
  parse_date : string -> Result (option Z);
  (** [pd.to_datetime] on a number (an epoch offset) *)
  datetime_of_number : float -> Result (option Z)
}.

Section SeriesBuilder.
Context `{Pandas}.

  (** [pd.to_datetime(s)], errors='raise'. *)
Definition datetime_of_obj (o : Obj) : Result (option Z) :=
    match o with
    | ONone => Ok None
    | ODate d => Ok (Some d)
    | OStr s => parse_date s
    | ONum x => datetime_of_number x
    end.

Fixpoint to_datetime (s : list Obj) : Result (list (option Z)) :=
    match s with
    | [] => Ok []
    | o :: s' =>
        t ← datetime_of_obj o;
        ts ← to_datetime s';
        Ok (t :: ts)
    end.

  (** [pd.to_numeric(s, errors='coerce')]: what is not a number becomes NaN. *)
Definition numeric_of_obj (o : Obj) : float :=
    match o with
    | ONum x => x
    | OStr s => match parse_float s with Some x => x | None => PrimFloat.nan end
    | ONone => PrimFloat.nan
    | ODate _ => PrimFloat.nan
    end.

Definition to_numeric (s : list Obj) : list float := map numeric_of_obj s.

  (** [s.rolling(window=w, center=True).agg()]: NaN where the window of a
      position is not full (min_periods is the window size), the value of
      the accumulator [roll] elsewhere. *)
Definition rolling_center (w : nat) (roll : nat -> list float -> nat -> float)
      (s : list float) : list float :=
    let off := (w - 1) / 2 in
    map (λ i,
           if (w <=? i + off + 1) && (i + off <? length s) then roll w s i
           else PrimFloat.nan)
        (seq 0 (length s)).

  (** [s.fillna(v)]. *)
Definition fillna (v : float) (s : list float) : list float :=
    map (λ x, if PrimFloat.is_nan x then v else x) s.

Fixpoint zip_with_float (f : float -> float -> float) (a b : list float) : list float :=
    match a, b with
    | x :: a', y :: b' => f x y :: zip_with_float f a' b'
    | _, _ => []
    end.

Fixpoint zip_gt (a b : list float) : list bool :=
    match a, b with
    | x :: a', y :: b' => PrimFloat.ltb y x :: zip_gt a' b'
    | _, _ => []
    end.

Definition bool_to_int (b : bool) : Z := if b then 1%Z else 0%Z.

  (** Lines 66-84 of [prepare_data]: the spike flags.  The two [fillna(...,
      inplace=True)] calls act on the column of the frame (pandas without
      copy-on-write). *)
Definition detect_spike_flags (prophet_df : Frame) : Result Frame :=
    y ← get_float prophet_df "y";
    let prophet_df := setcol "rolling_mean" (FloatCol (rolling_center 7 rolling_mean y)) prophet_df in
    y ← get_float prophet_df "y";
    let prophet_df := setcol "rolling_std" (FloatCol (rolling_center 7 rolling_std y)) prophet_df in
    rm ← get_float prophet_df "rolling_mean";
    y ← get_float prophet_df "y";
    let prophet_df := setcol "rolling_mean" (FloatCol (fillna (mean y) rm)) prophet_df in
    rs ← get_float prophet_df "rolling_std";
    y ← get_float prophet_df "y";
    let prophet_df := setcol "rolling_std" (FloatCol (fillna (std y) rs)) prophet_df in
    rm ← get_float prophet_df "rolling_mean";
    rs ← get_float prophet_df "rolling_std";
    let threshold := zip_with_float (λ m s, PrimFloat.add m (PrimFloat.mul 2 s)) rm rs in
    y ← get_float prophet_df "y";
    let prophet_df := setcol "is_spike" (IntCol (map bool_to_int (zip_gt y threshold))) prophet_df in
    drop_columns ["rolling_mean"; "rolling_std"] prophet_df.

  (** Lines 87-95 of [prepare_data]: the 3 x IQR filter. *)
Definition remove_iqr_outliers (prophet_df : Frame) : Result Frame :=
    y ← get_float prophet_df "y";
    let Q1 := quantile y 0.25 in
    y ← get_float prophet_df "y";
    let Q3 := quantile y 0.75 in
    let IQR := PrimFloat.sub Q3 Q1 in
    let lower_bound := PrimFloat.sub Q1 (PrimFloat.mul 3 IQR) in
    let upper_bound := PrimFloat.add Q3 (PrimFloat.mul 3 IQR) in
    y ← get_float prophet_df "y";
    Ok (filter_rows
          (map (λ v, PrimFloat.leb lower_bound v && PrimFloat.leb v upper_bound) y)
          prophet_df).

Definition prepare_data (df : RawFrame) (date_col value_col : string)
      (remove_outliers detect_spikes : bool) : Result Frame :=
    dates ← raw_getcol df date_col;
    ds ← to_datetime dates;
    values ← raw_getcol df value_col;
    let prophet_df : Frame := [("ds", TimeCol ds); ("y", FloatCol (to_numeric values))] in
    let prophet_df := dropna prophet_df in
    prophet_df ←
      (if detect_spikes && (30 <? len prophet_df) then detect_spike_flags prophet_df
       else Ok prophet_df);
    prophet_df ←
      (if remove_outliers && (30 <? len prophet_df) then remove_iqr_outliers prophet_df
       else Ok prophet_df);
    sort_values prophet_df "ds".

End SeriesBuilder.

(** ** Prophet, as far as the forecaster drives it *)

(** The attributes of a [Prophet] object that the calls of [train] set.
    [history] is the training frame, kept by [fit]. *)
Record Prophet := {
  seasonality_mode : string;
  changepoint_prior_scale : float;
  seasonality_prior_scale : float;
  daily_seasonality : bool;
  weekly_seasonality : bool;
  yearly_seasonality : bool;
  interval_width : float;
  country_holidays : option string;
  seasonalities : list (string * float * Z);
  extra_regressors : list (string * float * string);
  history : option Frame
}.

(** A row of the frame [Prophet.predict] returns; [components] are its other
    columns (seasonal terms, their bounds, ...). *)
Record FRow := {
  ds : Z;
  yhat : float;
  yhat_lower : float;
  yhat_upper : float;
  trend : float;
  components : list (string * float)
}.

Class ProphetLib := {
  (** whether [add_country_holidays(country_name)] accepts the name *)
  holidays_known : string -> bool;
  (** [fit(df)] on a configured model: it returns or raises *)
  prophet_fit : Prophet -> Frame -> Result unit;
  (** [make_future_dataframe(periods, freq)] on a fitted model *)
  make_future_dataframe : Prophet -> Z -> string -> Result Frame;
  (** [predict(future)] on a fitted model *)
  prophet_predict : Prophet -> Frame -> Result (list FRow)
}.

(** ** The database *)

Inductive Query :=
| QDailyRevenue (start_date end_date : option string)
| QProduct (product_code : string)
| QCountry (country : string).

(** [get_connection()], [cursor.execute(query)], [cursor.fetchall()]: the rows
    of the query, one per distinct [DATE(invoice_date)] of the slice, ordered
    by date (the queries [GROUP BY DATE(invoice_date) ORDER BY date]), or the
    exception the driver raises. *)
Class Database := { fetchall : Query -> Result (list (list Obj)) }.

(** ** The forecaster object, the store of frames and the monad *)

Inductive SVal :=
| SFloat (x : float)
| SStr (s : string)
| SDict (d : gmap string float).

Abbreviation Summary := (gmap string SVal).

Record SalesForecaster := {
  model : option Prophet;
  forecast_df : option (list FRow);
  trained : bool;
  spike_patterns : option (gmap Z float)
}.

(** [SalesForecaster.__init__]; [spike_patterns] is not an attribute yet. *)
Definition init : SalesForecaster :=
  {| model := None; forecast_df := None; trained := false; spike_patterns := None |}.

(** What the pipeline asked of its collaborators, oldest call first. *)
Inductive Event :=
| EvQuery (q : Query)
| EvFit (m : Prophet) (df : Frame)
| EvFuture (periods : Z) (freq : string)
| EvPredict (future : Frame).

Definition loc := nat.

Record World := {
  self : SalesForecaster;
  store : list Frame;
  calls : list Event
}.

Definition M (A : Type) : Type := World -> Result A * World.

#[global] Instance M_ret : MRet M := λ A a w, (Ok a, w).
#[global] Instance M_bind : MBind M :=
  λ A B f m w, match m w with (Ok a, w') => f a w' | (Raise e, w') => (Raise e, w') end.

Definition raise {A} (e : Exn) : M A := λ w, (Raise e, w).
Definition lift {A} (r : Result A) : M A := λ w, (r, w).

(** [try: body except Exception: handler]. *)
Definition try_except {A} (body : M A) (handler : Exn -> M A) : M A :=
  λ w, match body w with (Ok a, w') => (Ok a, w') | (Raise e, w') => handler e w' end.

Definition get_self : M SalesForecaster := λ w, (Ok (self w), w).
Definition put_self (s : SalesForecaster) : M unit :=
  λ w, (Ok (), {| self := s; store := store w; calls := calls w |}).
Definition emit (e : Event) : M unit :=
  λ w, (Ok (), {| self := self w; store := store w; calls := calls w ++ [e] |}).

(** A new frame object. *)
Definition alloc (df : Frame) : M loc :=
  λ w, (Ok (length (store w)),
        {| self := self w; store := store w ++ [df]; calls := calls w |}).
Definition load (l : loc) : M Frame :=
  λ w, match store w !! l with
       | Some df => (Ok df, w)
       | None => (Raise (NameError "frame"), w)
       end.
(** In-place update of the frame object at [l]. *)
Definition update (l : loc) (df : Frame) : M unit :=
  λ w, (Ok (), {| self := self w; store := <[l := df]> (store w); calls := calls w |}).

Definition set_model (m : Prophet) : M unit :=
  s ← get_self;
  put_self {| model := Some m; forecast_df := forecast_df s; trained := trained s;
              spike_patterns := spike_patterns s |}.
Definition set_forecast_df (fc : list FRow) : M unit :=
  s ← get_self;
  put_self {| model := model s; forecast_df := Some fc; trained := trained s;
              spike_patterns := spike_patterns s |}.
Definition set_trained (b : bool) : M unit :=
  s ← get_self;
  put_self {| model := model s; forecast_df := forecast_df s; trained := b;
              spike_patterns := spike_patterns s |}.
Definition set_spike_patterns (p : gmap Z float) : M unit :=
  s ← get_self;
  put_self {| model := model s; forecast_df := forecast_df s; trained := trained s;
              spike_patterns := Some p |}.

(** [self.model], an [AttributeError] on [None]. *)
Definition get_model : M Prophet :=
  s ← get_self;
  match model s with
  | Some m => mret m
  | None => raise (TypeError "'NoneType' object has no attribute")
  end.

(** ** [SalesForecaster]: train and predict *)

(** [Timestamp.dayofweek], Monday = 0 (day 0, 1970-01-01, was a Thursday). *)
Definition dayofweek (d : Z) : Z := ((d + 3) mod 7)%Z.

Definition is_some {A} (o : option A) : bool :=
  match o with Some _ => true | None => false end.

(** [s.dt.dayofweek]: an integer column, or a float column with NaN at the
    missing dates when there are any. *)
Definition dt_dayofweek (s : list (option Z)) : Column :=
  if forallb is_some s then
    IntCol (map (λ t, match t with Some d => dayofweek d | None => 0%Z end) s)
  else
    FloatCol (map (λ t, match t with
                        | Some d => Z_to_float (dayofweek d)
                        | None => PrimFloat.nan
                        end) s).

(** The group keys of a day-of-week column; a row with a missing key belongs
    to no group. *)
Definition dow_keys (c : Column) : list (option Z) :=
  match c with
  | IntCol l => map Some l
  | FloatCol l =>
      map (λ x, List.find (λ k, PrimFloat.eqb (Z_to_float k) x) [0; 1; 2; 3; 4; 5; 6]%Z) l
  | TimeCol l => l
  end.

Definition groups (keys : list (option Z)) (vals : list float) : gmap Z (list float) :=
  fold_right
    (λ kv acc,
       match fst kv with
       | Some k => <[k := snd kv :: default [] (acc !! k)]> acc
       | None => acc
       end)
    ∅ (combine keys vals).

Section Forecaster.
Context `{Pandas} `{ProphetLib}.

  (** [df.groupby(key)[col].mean().to_dict()]. *)
Definition groupby_mean (df : Frame) (key col : string) : Result (gmap Z float) :=
    k ← getcol df key;
    v ← get_float df col;
    Ok (mean <$> groups (dow_keys k) v).

  (** [Prophet(seasonality_mode=..., ..., interval_width=0.95)]. *)
Definition new_prophet (mode : string) (cps sps : float) : Prophet :=
    {| seasonality_mode := mode;
       changepoint_prior_scale := cps;
       seasonality_prior_scale := sps;
       daily_seasonality := false;
       weekly_seasonality := true;
       yearly_seasonality := true;
       interval_width := 0.95;
       country_holidays := None;
       seasonalities := [];
       extra_regressors := [];
       history := None |}.

Definition with_holidays (c : string) (m : Prophet) : Prophet :=
    {| seasonality_mode := seasonality_mode m;
       changepoint_prior_scale := changepoint_prior_scale m;
       seasonality_prior_scale := seasonality_prior_scale m;
       daily_seasonality := daily_seasonality m;
       weekly_seasonality := weekly_seasonality m;
       yearly_seasonality := yearly_seasonality m;
       interval_width := interval_width m;
       country_holidays := Some c;
       seasonalities := seasonalities m;
       extra_regressors := extra_regressors m;
       history := history m |}.

Definition with_seasonality (name : string) (period : float) (order : Z)
      (m : Prophet) : Prophet :=
    {| seasonality_mode := seasonality_mode m;
       changepoint_prior_scale := changepoint_prior_scale m;
       seasonality_prior_scale := seasonality_prior_scale m;
       daily_seasonality := daily_seasonality m;
       weekly_seasonality := weekly_seasonality m;
       yearly_seasonality := yearly_seasonality m;
       interval_width := interval_width m;
       country_holidays := country_holidays m;
       seasonalities := seasonalities m ++ [(name, period, order)];
       extra_regressors := extra_regressors m;
       history := history m |}.

Definition with_regressor (name : string) (prior_scale : float) (mode : string)
      (m : Prophet) : Prophet :=
    {| seasonality_mode := seasonality_mode m;
       changepoint_prior_scale := changepoint_prior_scale m;
       seasonality_prior_scale := seasonality_prior_scale m;
       daily_seasonality := daily_seasonality m;
       weekly_seasonality := weekly_seasonality m;
       yearly_seasonality := yearly_seasonality m;
       interval_width := interval_width m;
       country_holidays := country_holidays m;
       seasonalities := seasonalities m;
       extra_regressors := extra_regressors m ++ [(name, prior_scale, mode)];
       history := history m |}.

Definition with_history (df : Frame) (m : Prophet) : Prophet :=
    {| seasonality_mode := seasonality_mode m;
       changepoint_prior_scale := changepoint_prior_scale m;
       seasonality_prior_scale := seasonality_prior_scale m;
       daily_seasonality := daily_seasonality m;
       weekly_seasonality := weekly_seasonality m;
       yearly_seasonality := yearly_seasonality m;
       interval_width := interval_width m;
       country_holidays := country_holidays m;
       seasonalities := seasonalities m;
       extra_regressors := extra_regressors m;
       history := Some df |}.

  (** [self.model.add_country_holidays(country_name=c)]. *)
Definition model_add_country_holidays (c : string) : M unit :=
    m ← get_model;
    if holidays_known c then set_model (with_holidays c m)
    else raise (LibraryError "Holidays in this country are not currently supported").

Definition model_add_seasonality (name : string) (period : float) (order : Z) : M unit :=
    m ← get_model;
    set_model (with_seasonality name period order m).

Definition model_add_regressor (name : string) (prior_scale : float) (mode : string) : M unit :=
    m ← get_model;
    set_model (with_regressor name prior_scale mode m).

  (** [self.model.fit(df)]. *)
Definition model_fit (df : Frame) : M unit :=
    m ← get_model;
    _ ← emit (EvFit m df);
    _ ← lift (prophet_fit m df);
    set_model (with_history df m).

Definition train (df : loc) (seasonality_mode : string)
      (changepoint_prior_scale seasonality_prior_scale : float)
      (add_country_holidays : string) : M unit :=
    _ ← set_model (new_prophet seasonality_mode changepoint_prior_scale seasonality_prior_scale);
    _ ← (if negb (String.eqb add_country_holidays "") then
           try_except (model_add_country_holidays add_country_holidays) (λ _, mret ())
         else mret ());
    _ ← model_add_seasonality "monthly" 30.5 5;
    d ← load df;
    df ← (if has_col "is_spike" d then
            _ ← model_add_regressor "is_spike" 0.5 "additive";
            d ← load df;
            t ← lift (get_time d "ds");
            (* df['dow'] = ...: the frame the caller passed gets the column *)
            _ ← update df (setcol "dow" (dt_dayofweek t) d);
            d ← load df;
            spike_by_dow ← lift (groupby_mean d "dow" "is_spike");
            _ ← set_spike_patterns spike_by_dow;
            d ← load df;
            (* df = df.drop('dow', axis=1): a new frame, bound to the local name *)
            d' ← lift (drop_columns ["dow"] d);
            alloc d'
          else mret df);
    d ← load df;
    _ ← model_fit d;
    set_trained true.

Definition has_regressor (name : string) (m : Prophet) : bool :=
    existsb (λ r, String.eqb name (fst (fst r))) (extra_regressors m).

  (** [future['dow'].map(self.spike_patterns).fillna(0)]. *)
Definition map_patterns (pats : gmap Z float) (keys : list (option Z)) : list float :=
    fillna 0
      (map (λ k, match k with
                 | Some k => default PrimFloat.nan (pats !! k)
                 | None => PrimFloat.nan
                 end) keys).

Definition predict (periods : Z) (freq : string) : M (list FRow) :=
    s ← get_self;
    if negb (trained s) then
      raise (ValueError "Model must be trained before making predictions")
    else
      m ← get_model;
      _ ← emit (EvFuture periods freq);
      future ← lift (make_future_dataframe m periods freq);
      future ←
        (if has_regressor "is_spike" m then
           future ←
             (match spike_patterns s with
              | Some pats =>
                  t ← lift (get_time future "ds");
                  let future := setcol "dow" (dt_dayofweek t) future in
                  dow ← lift (getcol future "dow");
                  mret (setcol "is_spike" (FloatCol (map_patterns pats (dow_keys dow))) future)
              | None =>
                  mret (setcol "is_spike" (IntCol (repeat 0%Z (len future))) future)
              end);
           (* future.drop('dow', axis=1, errors='ignore') *)
           mret (del_col "dow" future)
         else mret future);
      _ ← emit (EvPredict future);
      fc ← lift (prophet_predict m future);
      _ ← set_forecast_df fc;
      mret fc.

  (** ** [SalesForecaster]: summary, forecast table, accuracy *)

  (** [s.iloc[-1]] and [s.iloc[0]]. *)
Definition iloc_last {A} (l : list A) : Result A :=
    match last l with
    | Some x => Ok x
    | None => Raise (IndexError "single positional indexer is out-of-bounds")
    end.

Definition iloc_first {A} (l : list A) : Result A :=
    match l with
    | x :: _ => Ok x
    | [] => Raise (IndexError "single positional indexer is out-of-bounds")
    end.

  (** The rows the summary is taken over:
      [forecast_df[forecast_df['ds'] > forecast_df['ds'].iloc[-1] - pd.Timedelta(days=30)]]. *)
Definition summary_window (fc : list FRow) : Result (list FRow) :=
    l ← iloc_last fc;
    Ok (List.filter (λ r, (ds l - 30 <? ds r)%Z) fc).

Definition get_forecast_summary (s : SalesForecaster) : Result Summary :=
    match forecast_df s with
    | None => Raise (ValueError "No forecast available. Run predict() first.")
    | Some fc =>
        future_df ← summary_window fc;
        let avg_predicted_value := mean (map yhat future_df) in
        let total_predicted_value := total (map yhat future_df) in
        let min_predicted_value := minimum (map yhat future_df) in
        let max_predicted_value := maximum (map yhat future_df) in
        let avg_uncertainty :=
          mean (map (λ r, PrimFloat.sub (yhat_upper r) (yhat_lower r)) future_df) in
        trend_last ← iloc_last (map trend future_df);
        trend_first ← iloc_first (map trend future_df);
        let trend_direction :=
          if PrimFloat.ltb trend_first trend_last then "increasing" else "decreasing" in
        Ok (<["trend_direction" := SStr trend_direction]>
            (<["avg_uncertainty" := SFloat avg_uncertainty]>
            (<["max_predicted_value" := SFloat max_predicted_value]>
            (<["min_predicted_value" := SFloat min_predicted_value]>
            (<["total_predicted_value" := SFloat total_predicted_value]>
            (<["avg_predicted_value" := SFloat avg_predicted_value]> ∅))))))
    end.

  (** A row of the frame [get_forecast_dataframe] returns (columns [date],
      [predicted], [lower_bound], [upper_bound], [trend]). *)
Record OutRow := {
    date : Z;
    predicted : float;
    lower_bound : float;
    upper_bound : float;
    out_trend : float
  }.

Definition out_row (r : FRow) : OutRow :=
    {| date := ds r; predicted := yhat r; lower_bound := yhat_lower r;
       upper_bound := yhat_upper r; out_trend := trend r |}.

Definition get_forecast_dataframe (s : SalesForecaster) (future_only : bool)
      : Result (list OutRow) :=
    match forecast_df s with
    | None => Raise (ValueError "No forecast available. Run predict() first.")
    | Some df =>
        df ←
          (if future_only then
             last_historical_date ←
               (if 30 <? length df then
                  match nth_error (map ds df) (length df - 31) with
                  | Some d => Ok d
                  | None => Raise (IndexError "single positional indexer is out-of-bounds")
                  end
                else iloc_first (map ds df));
             Ok (List.filter (λ r, (last_historical_date <? ds r)%Z) df)
           else Ok df);
        Ok (map out_row df)
    end.

  (** [pd.merge(left, right, on=key, how='inner')] on a date key: the pairs of
      rows with equal keys, in the order of the left frame. *)
Definition merge_inner {A B} (lkey : A -> option Z) (rkey : B -> Z)
      (left : list A) (right : list B) : list (A * B) :=
    flat_map
      (λ a, match lkey a with
            | Some k => map (pair a) (List.filter (λ b, (rkey b =? k)%Z) right)
            | None => []
            end)
      left.

Definition calculate_accuracy (s : SalesForecaster) (actual_df : Frame)
      : Result (gmap string float) :=
    match forecast_df s with
    | None => Raise (ValueError "No forecast available")
    | Some fc =>
        k ← get_time actual_df "ds";
        let merged_rows := merge_inner fst ds (combine k (seq 0 (length k))) fc in
        let merged := filter_rows_idx (map (λ p, snd (fst p)) merged_rows) in
        y ← get_float (merged actual_df) "y";
        let yhat := map (λ p, yhat (snd p)) merged_rows in
        let err := zip_with_float PrimFloat.sub y yhat in
        let mae := mean (map PrimFloat.abs err) in
        let rmse := PrimFloat.sqrt (mean (map (λ e, PrimFloat.mul e e) err)) in
        let mape :=
          PrimFloat.mul
            (mean (map PrimFloat.abs (zip_with_float PrimFloat.div err y))) 100 in
        Ok (<["accuracy_percent" := PrimFloat.sub 100 mape]>
            (<["mape" := mape]> (<["rmse" := rmse]> (<["mae" := mae]> ∅))))
    end.

End Forecaster.

(** ** The orchestrators of [src/analytics/forecasting.py] *)

Section Orchestrators.
Context `{Pandas} `{ProphetLib} `{Database}.

  (** [forecaster = SalesForecaster()]. *)
Definition new_forecaster : M unit := put_self init.

Definition query (q : Query) : M (list (list Obj)) :=
    _ ← emit (EvQuery q);
    lift (fetchall q).

Definition get_daily_revenue (start_date end_date : option string) : M RawFrame :=
    data ← query (QDailyRevenue start_date end_date);
    mret {| columns := ["date"; "revenue"]; data := data |}.

  (** [s.max()] on a datetime column: NaT on an empty one. *)
Definition time_max (s : list (option Z)) : option Z :=
    fold_right
      (λ t acc, match t, acc with
                | Some a, Some b => Some (Z.max a b)
                | Some a, None => Some a
                | None, _ => acc
                end)
      None s.

  (** [forecast_df[forecast_df['ds'] > last_date]]. *)
Definition after (last_date : option Z) (fc : list FRow) : list FRow :=
    List.filter (λ r, match last_date with
                      | Some d => (d <? ds r)%Z
                      | None => false
                      end) fc.

Definition last_date_of (prophet_df : loc) : M (option Z) :=
    d ← load prophet_df;
    t ← lift (get_time d "ds");
    mret (time_max t).

  (** The value is [None] where the Python function falls off its end. *)
Definition get_revenue_forecast (periods : Z) (freq : string)
      (include_history : bool) (seasonality_mode : string) (use_ensemble : bool)
      : M (option (list FRow * Summary)) :=
    revenue_df ← get_daily_revenue None None;
    (* if len(revenue_df) < 30: a warning is logged, nothing else *)
    let use_ensemble := if use_ensemble then false else use_ensemble in
    if negb use_ensemble then
      _ ← new_forecaster;
      p ← lift (prepare_data revenue_df "date" "revenue" false false);
      prophet_df ← alloc p;
      _ ← train prophet_df "additive" 0.18 12.0 "UK";
      forecast_df ← predict periods freq;
      s ← get_self;
      summary ← lift (get_forecast_summary s);
      actual ← load prophet_df;
      s ← get_self;
      accuracy_metrics ← lift (calculate_accuracy s actual);
      let summary := <["accuracy_metrics" := SDict accuracy_metrics]> summary in
      forecast_df ←
        (if negb include_history then
           last_date ← last_date_of prophet_df;
           mret (after last_date forecast_df)
         else mret forecast_df);
      mret (Some (forecast_df, summary))
    else mret None.

Definition insufficient : list FRow * Summary :=
    ([], <["error" := SStr "Insufficient historical data"]> ∅).

  (** The body shared, line for line, by [get_product_forecast] and
      [get_country_forecast] once the query and the value column are fixed. *)
Definition slice_forecast (q : Query) (value_col : string) (periods : Z)
      (freq : string) : M (list FRow * Summary) :=
    data ← query q;
    let df := {| columns := ["date"; value_col]; data := data |} in
    if raw_len df <? 30 then mret insufficient
    else
      _ ← new_forecaster;
      p ← lift (prepare_data df "date" value_col true true);
      prophet_df ← alloc p;
      _ ← train prophet_df "multiplicative" 0.08 8.0 "UK";
      forecast_df ← predict periods freq;
      s ← get_self;
      summary ← lift (get_forecast_summary s);
      last_date ← last_date_of prophet_df;
      mret (after last_date forecast_df, summary).

Definition get_product_forecast (product_code : string) (periods : Z)
      (freq : string) : M (list FRow * Summary) :=
    slice_forecast (QProduct product_code) "quantity" periods freq.

Definition get_country_forecast (country : string) (periods : Z)
      (freq : string) : M (list FRow * Summary) :=
    slice_forecast (QCountry country) "revenue" periods freq.

  (** [astype(float)] on a cell of an object column: [None] becomes NaN. *)
Definition float_of_obj (o : Obj) : Result float :=
    match o with
    | ONum x => Ok x
    | OStr s =>
        match parse_float s with
        | Some x => Ok x
        | None => Raise (ValueError "could not convert string to float")
        end
    | ONone => Ok PrimFloat.nan
    | ODate _ => Raise (TypeError "float() argument must be a string or a real number")
    end.

Fixpoint astype_float (s : list Obj) : Result (list float) :=
    match s with
    | [] => Ok []
    | o :: s' =>
        x ← float_of_obj o;
        xs ← astype_float s';
        Ok (x :: xs)
    end.

Record CmpRow := {
    cmp_date : Z;
    actual_revenue : float;
    predicted_revenue : float;
    difference : float;
    difference_pct : float
  }.

Definition get_forecast_comparison (use_ensemble : bool) : M (list CmpRow) :=
    revenue_df ← get_daily_revenue None None;
    if raw_len revenue_df <? 60 then mret []
    else
      let split_point := raw_len revenue_df - 30 in
      let train_df := raw_iloc_to split_point revenue_df in
      let test_df := raw_iloc_from split_point revenue_df in
      let use_ensemble := if use_ensemble then false else use_ensemble in
      forecast_future ←
        (if negb use_ensemble then
           _ ← new_forecaster;
           p ← lift (prepare_data train_df "date" "revenue" false false);
           prophet_train ← alloc p;
           _ ← train prophet_train "multiplicative" 0.30 5.0 "UK";
           forecast_df ← predict 30 "D";
           last_train_date ← last_date_of prophet_train;
           mret (Some (after last_train_date forecast_df))
         else mret None);
      test_dates ← lift (raw_getcol test_df "date");
      test_dates ← lift (to_datetime test_dates);
      test_revenue ← lift (raw_getcol test_df "revenue");
      match forecast_future with
      | None => raise (NameError "forecast_future")
      | Some forecast_future =>
          let comparison :=
            merge_inner fst ds (combine test_dates test_revenue) forecast_future in
          revenue ← lift (astype_float (map (λ p, snd (fst p)) comparison));
          mret (map (λ p,
                       let '(d, rev, f) := p in
                       let difference := PrimFloat.sub rev (yhat f) in
                       {| cmp_date := default 0%Z d;
                          actual_revenue := rev;
                          predicted_revenue := yhat f;
                          difference := difference;
                          difference_pct :=
                            PrimFloat.mul (PrimFloat.div difference rev) 100 |})
                    (combine (combine (map (λ p, fst (fst p)) comparison) revenue)
                             (map snd comparison)))
      end.

End Orchestrators.

(** ** Executable instances, to run the model on concrete tables *)

Module Naive.

Definition fsum (l : list float) : float := fold_left PrimFloat.add l 0%float.

Definition flen (l : list float) : float := Z_to_float (Z.of_nat (length l)).

Definition fmean (l : list float) : float := PrimFloat.div (fsum l) (flen l).

Definition fstd (l : list float) : float :=
    let m := fmean l in
    PrimFloat.sqrt
      (PrimFloat.div
         (fsum (map (λ x, PrimFloat.mul (PrimFloat.sub x m) (PrimFloat.sub x m)) l))
         (PrimFloat.sub (flen l) 1)).

Definition fmin (l : list float) : float :=
    match l with
    | [] => PrimFloat.nan
    | x :: l' => fold_left (λ a b, if PrimFloat.ltb b a then b else a) l' x
    end.

Definition fmax (l : list float) : float :=
    match l with
    | [] => PrimFloat.nan
    | x :: l' => fold_left (λ a b, if PrimFloat.ltb a b then b else a) l' x
    end.

Fixpoint insert_float (x : float) (l : list float) : list float :=
    match l with
    | [] => [x]
    | y :: l' => if PrimFloat.leb x y then x :: l else y :: insert_float x l'
    end.

Definition sort_float (l : list float) : list float := fold_right insert_float [] l.

  (** Linear interpolation between the two order statistics around
      [q * (n - 1)]. *)
Definition fquantile (l : list float) (q : float) : float :=
    let a := sort_float l in
    let pos := PrimFloat.mul q (PrimFloat.sub (flen l) 1) in
    let lo :=
      fold_left (λ acc k, if PrimFloat.leb (Z_to_float (Z.of_nat k)) pos then k else acc)
                (seq 0 (length a)) 0 in
    match nth_error a lo, nth_error a (S lo) with
    | Some x, Some y =>
        PrimFloat.add x
          (PrimFloat.mul (PrimFloat.sub pos (Z_to_float (Z.of_nat lo))) (PrimFloat.sub y x))
    | Some x, None => x
    | None, _ => PrimFloat.nan
    end.

Definition digit_of (c : Ascii.ascii) : option Z :=
    let n := Z.of_nat (Ascii.nat_of_ascii c) in
    if (48 <=? n)%Z && (n <=? 57)%Z then Some (n - 48)%Z else None.

Fixpoint parse_digits (acc : Z) (s : string) : option Z :=
    match s with
    | EmptyString => Some acc
    | String c s' =>
        match digit_of c with
        | Some d => parse_digits (10 * acc + d)%Z s'
        | None => None
        end
    end.

  (** Unsigned decimal integers only; every other string is not a number. *)
Definition parse_unsigned (s : string) : option float :=
    match s with
    | EmptyString => None
    | _ => Z_to_float <$> parse_digits 0 s
    end.

  (** The statistic of the window of position [i], window by window (pandas
      accumulates instead). *)
Definition window_stat (agg : list float -> float) (w : nat) (s : list float)
      (i : nat) : float :=
    let win := firstn w (skipn (i + (w - 1) / 2 + 1 - w) s) in
    if forallb (λ x, negb (PrimFloat.is_nan x)) win then agg win else PrimFloat.nan.

  (** The strings [pd.to_datetime] reads as NaT. *)
Definition nat_strings : list string :=
    [""; "NaT"; "nat"; "NAT"; "nan"; "NaN"; "NAN"].

Definition pandas : Pandas := {|
    mean := fmean;
    std := fstd;
    rolling_mean := window_stat fmean;
    rolling_std := window_stat fstd;
    total := fsum;
    minimum := fmin;
    maximum := fmax;
    quantile := fquantile;
    parse_float := parse_unsigned;
    parse_date := λ s,
      if existsb (String.eqb s) nat_strings then Ok None
      else Raise (LibraryError "DateParseError");
    datetime_of_number := λ x,
      if PrimFloat.is_nan x then Ok None
      else Raise (LibraryError "Out of bounds nanosecond timestamp")
  |}.

Definition count_notna (df : Frame) : nat :=
    match assoc "y" df with
    | Some c => length (List.filter (λ b : bool, b) (notna_col c))
    | None => 0
    end.

Definition step_of (freq : string) : Z :=
    if String.eqb freq "W" then 7%Z else if String.eqb freq "M" then 30%Z else 1%Z.

  (** A stand-in for Prophet: it needs two rows to fit, extends the history
      by [periods] steps, and predicts the historical mean with a trend that
      rises by one per row. *)
Definition prophet : ProphetLib := {|
    holidays_known := λ c, String.eqb c "UK" || String.eqb c "US";
    prophet_fit := λ m df,
      if count_notna df <? 2 then Raise (ValueError "Dataframe has less than 2 non-NaN rows.")
      else Ok ();
    make_future_dataframe := λ m periods freq,
      match history m with
      | None => Raise (LibraryError "Model has not been fit.")
      | Some h =>
          t ← get_time h "ds";
          let last_date := default 0%Z (time_max t) in
          Ok [("ds", TimeCol (t ++ map (λ i, Some (last_date + step_of freq * Z.of_nat i)%Z)
                                     (seq 1 (Z.to_nat periods))))]
      end;
    prophet_predict := λ m future,
      match history m with
      | None => Raise (LibraryError "Model has not been fit.")
      | Some h =>
          y ← get_float h "y";
          t ← get_time future "ds";
          let mu := fmean y in
          Ok (map (λ it,
                     let tr := PrimFloat.add mu (Z_to_float (Z.of_nat (fst it))) in
                     {| ds := default 0%Z (snd it); yhat := tr;
                        yhat_lower := PrimFloat.sub tr 1; yhat_upper := PrimFloat.add tr 1;
                        trend := tr; components := [] |})
                  (combine (seq 0 (length t)) t))
      end
  |}.

  (** [n] consecutive days from day 0, the value rising by 2 a day from 100. *)
Definition daily_rows (n : nat) : list (list Obj) :=
    map (λ i, [ODate (Z.of_nat i); ONum (Z_to_float (100 + 2 * Z.of_nat i))]) (seq 0 n).

  (** A database whose every slice is [rows]. *)
Definition database (rows : list (list Obj)) : Database :=
    {| fetchall := λ _, Ok rows |}.

Definition world0 : World := {| self := init; store := []; calls := [] |}.

End Naive.


(** ** [quick_forecast] *)

Section QuickForecast.
Context `{Pandas} `{ProphetLib}.

  (** [quick_forecast] of [src/ml/forecasting.py]: a new forecaster,
      [prepare_data] and [train] with their defaults, [predict] with the
      default frequency, the future-only table and the summary. *)
Definition quick_forecast (df : RawFrame) (date_col value_col : string) (periods : Z)
      : M (list OutRow * Summary) :=
    _ ← new_forecaster;
    p ← lift (prepare_data df date_col value_col true true);
    prophet_df ← alloc p;
    _ ← train prophet_df "multiplicative" 0.08 8.0 "UK";
    _ ← predict periods "D";
    s ← get_self;
    forecast_df ← lift (get_forecast_dataframe s true);
    s ← get_self;
    summary ← lift (get_forecast_summary s);
    mret (forecast_df, summary).
End QuickForecast.


(** * Vocabulary of the statements *)

(** ** Stages of [prepare_data] *)

(** A frame with the columns [ds] and [y]. *)
Definition series (t : list (option Z)) (y : list float) : Frame :=
  [("ds", TimeCol t); ("y", FloatCol y)].

(** A frame with the columns [ds], [y] and [is_spike]. *)
Definition flagged (t : list (option Z)) (y : list float) (flags : list Z) : Frame :=
  [("ds", TimeCol t); ("y", FloatCol y); ("is_spike", IntCol flags)].

(** A row that [dropna] keeps: it has a date and its value is not NaN. *)
Definition valid_row (r : option Z * float) : bool :=
  is_some (fst r) && negb (PrimFloat.is_nan (snd r)).

Definition not_nan (v : float) : Prop := PrimFloat.is_nan v = false.

(** In the spec's words: the window of position [i] lies inside a series of
    [n] points, so its rolling statistics are defined. *)
Definition interior (n i : nat) : bool := (3 <=? i) && (i + 3 <? n).

(** In the spec's words: a rolling statistic, filled with the statistic of
    the whole series where the rolling one is undefined. *)
Definition local_or_global (roll : list float -> nat -> float) (agg : list float -> float)
    (y : list float) (i : nat) : float :=
  if interior (length y) i then
    let v := roll y i in
    if PrimFloat.is_nan v then agg y else v
  else agg y.

Section StageVocabulary.
Context `{Pandas}.

(** Lines 57-63 of [prepare_data]: the two coerced columns, without the rows
    that miss a date or a value. *)
Definition cleaned (df : RawFrame) (date_col value_col : string) : Result Frame :=
  dates ← raw_getcol df date_col;
  ds ← to_datetime dates;
  values ← raw_getcol df value_col;
  Ok (dropna [("ds", TimeCol ds); ("y", FloatCol (to_numeric values))]).

(** The rows [cleaned] keeps, as (date, value) pairs in input order. *)
Definition kept_rows (t : list (option Z)) (values : list Obj) : list (option Z * float) :=
  List.filter valid_row (combine t (to_numeric values)).

(** A row of a prepared frame stems from an input row whose value entry
    denotes a number. *)
Definition stems_from (t0 : list (option Z)) (values : list Obj)
    (p : option Z * float) : Prop :=
  exists i o,
    nth_error t0 i = Some (fst p) /\ nth_error values i = Some o /\
    numeric_of_obj o = snd p /\ PrimFloat.is_nan (snd p) = false.

(** The flags line 77 computes from a value column. *)
Definition spike_flags (y : list float) : list Z :=
  map bool_to_int
    (zip_gt y
       (zip_with_float (λ m s, PrimFloat.add m (PrimFloat.mul 2 s))
          (fillna (mean y) (rolling_center 7 rolling_mean y))
          (fillna (std y) (rolling_center 7 rolling_std y)))).

(** In the spec's words: rolling mean plus two rolling standard deviations. *)
Definition spike_threshold (y : list float) (i : nat) : float :=
  PrimFloat.add (local_or_global (rolling_mean 7) mean y i)
    (PrimFloat.mul 2 (local_or_global (rolling_std 7) std y i)).

(** The mask line 95 computes from a value column. *)
Definition within_bounds (y : list float) (v : float) : bool :=
  let Q1 := quantile y 0.25 in
  let Q3 := quantile y 0.75 in
  let IQR := PrimFloat.sub Q3 Q1 in
  PrimFloat.leb (PrimFloat.sub Q1 (PrimFloat.mul 3 IQR)) v
  && PrimFloat.leb v (PrimFloat.add Q3 (PrimFloat.mul 3 IQR)).

End StageVocabulary.

(** ** Forecast tables *)

(** The dates of a forecast table ascend strictly. *)
Definition dates_increasing (fc : list FRow) : bool :=
  forallb (λ p, (ds (fst p) <? ds (snd p))%Z) (combine fc (tail fc)).

Definition before (a b : FRow) : Prop := (ds a < ds b)%Z.

(** ** Worlds *)

Definition untrained (w : World) : Prop := trained (self w) = false.

Definition no_forecast (w : World) : Prop := forecast_df (self w) = None.

(** The frame object at [l] is [d]. *)
Definition holds (l : loc) (d : Frame) (w : World) : Prop := store w !! l = Some d.

(** The calls made so far start with [prefix]. *)
Definition calls_from (prefix : list Event) (w : World) : Prop :=
  exists rest, calls w = prefix ++ rest.

(** The world after [self.model = m]. *)
Definition with_model (m : Prophet) (w : World) : World :=
  {| self := {| model := Some m; forecast_df := forecast_df (self w);
                trained := trained (self w); spike_patterns := spike_patterns (self w) |};
     store := store w; calls := calls w |}.

(** The world after the query [q] and nothing else. *)
Definition asked (q : Query) (w : World) : World :=
  {| self := self w; store := store w; calls := calls w ++ [EvQuery q] |}.

(** A forecaster just constructed, in any store and after any calls. *)
Definition fresh (frames : list Frame) (evs : list Event) : World :=
  {| self := init; store := frames; calls := evs |}.

Definition is_fit (e : Event) : bool :=
  match e with EvFit _ _ => true | _ => false end.

(** ** Invariants of monadic code *)

(** [m] keeps [P], whether it returns or raises. *)
Definition inv {A} (P : World -> Prop) (m : M A) : Prop :=
  forall w, P w -> P (snd (m w)).

(** [m] keeps [P] when it raises. *)
Definition inv_fail {A} (P : World -> Prop) (m : M A) : Prop :=
  forall w, P w -> is_ok (fst (m w)) = false -> P (snd (m w)).

Section CallVocabulary.
Context `{Pandas} `{ProphetLib}.

(** The model [train] has configured when it reaches the frame. *)
Definition configured (mode : string) (cps sps : float) (hol : string) : Prophet :=
  with_seasonality "monthly" 30.5 5
    (if negb (String.eqb hol "") && holidays_known hol
     then with_holidays hol (new_prophet mode cps sps)
     else new_prophet mode cps sps).

(** ** Sequences of method calls on one forecaster *)

Inductive Call :=
| CallTrain (df : loc) (seasonality_mode : string)
    (changepoint_prior_scale seasonality_prior_scale : float) (add_country_holidays : string)
| CallPredict (periods : Z) (freq : string)
| CallSummary
| CallFrame (future_only : bool)
| CallAccuracy (actual_df : loc).

(** One call from a client, with whether it returned ([true]) or raised. *)
Definition call (c : Call) (w : World) : bool * World :=
  match c with
  | CallTrain df mode cps sps hol =>
      let r := train df mode cps sps hol w in (is_ok (fst r), snd r)
  | CallPredict periods freq =>
      let r := predict periods freq w in (is_ok (fst r), snd r)
  | CallSummary => (is_ok (get_forecast_summary (self w)), w)
  | CallFrame future_only => (is_ok (get_forecast_dataframe (self w) future_only), w)
  | CallAccuracy actual_df =>
      match store w !! actual_df with
      | Some d => (is_ok (calculate_accuracy (self w) d), w)
      | None => (false, w)
      end
  end.

(** The calls of [cs] in order; the log says which of them returned. *)
Fixpoint run (cs : list Call) (w : World) : list (Call * bool) * World :=
  match cs with
  | [] => ([], w)
  | c :: cs' =>
      let r := call c w in
      let r' := run cs' (snd r) in
      ((c, fst r) :: fst r', snd r')
  end.

Definition completed_train (cb : Call * bool) : bool :=
  match fst cb with CallTrain _ _ _ _ _ => snd cb | _ => false end.

Definition completed_predict (cb : Call * bool) : bool :=
  match fst cb with CallPredict _ _ => snd cb | _ => false end.

(** What a caller of [get_product_forecast] does with its frame: prepare,
    keep the frame under a name, train on it, look at the frame again.  The
    value is the frame before and after [train]. *)
Definition prepare_then_train (df : RawFrame) (value_col : string) : M (Frame * Frame) :=
  p ← lift (prepare_data df "date" value_col true true);
  prophet_df ← alloc p;
  _ ← train prophet_df "multiplicative" 0.08 8.0 "UK";
  left_behind ← load prophet_df;
  mret (p, left_behind).

End CallVocabulary.

(** Closes [inv P m] for an [m] that leaves the world as it is; [same] is
    the lemma that says so. *)
Ltac inv_same_with same :=
  apply same; intros ?;
  repeat match goal with
         | |- context [match ?x with _ => _ end] => destruct x
         end; reflexivity.

(** One step through a computation, leaving the state changes as goals;
    [bind], [try] and [same] are the rules for sequencing, handlers and
    computations that leave the world as it is. *)
Ltac inv_step_with bind try same :=
  match goal with
  | |- inv _ (mbind _ _) => apply bind; [|intros ?]
  | |- inv _ (try_except _ _) => apply try; [|intros ?]
  | |- inv _ (if ?b then _ else _) => destruct b
  | |- inv _ (match ?x with _ => _ end) => destruct x
  | |- inv _ (mret _) => inv_same_with same
  | |- inv _ (raise _) => inv_same_with same
  | |- inv _ (lift _) => inv_same_with same
  | |- inv _ get_self => inv_same_with same
  | |- inv _ get_model => unfold get_model
  | |- inv _ (load _) => unfold load; inv_same_with same
  | |- inv _ (model_add_country_holidays _) => unfold model_add_country_holidays
  | |- inv _ (model_add_seasonality _ _ _) => unfold model_add_seasonality
  | |- inv _ (model_add_regressor _ _ _) => unfold model_add_regressor
  | |- inv _ (model_fit _) => unfold model_fit
  | |- inv _ (last_date_of _) => unfold last_date_of
  end.


(** ** More vocabulary: order, rows, weekdays *)

(** The keys of a list of (key, position) pairs ascend. *)
Definition keys_ascend {A} (leb : A -> A -> bool) (l : list (A * nat)) : Prop :=
  StronglySorted (λ a b, leb (fst a) (fst b) = true) l.

(** The dates of a column ascend, missing dates last. *)
Definition dates_ascend (t : list (option Z)) : Prop :=
  StronglySorted (λ a b, time_leb a b = true) t.

Section RowVocabulary.
Context `{Pandas}.

(** The valid rows that [prepare_data] keeps: all of them, or those within
    the bounds when outliers are removed from a series of more than 30. *)
Definition surviving_rows (ro : bool) (rows : list (option Z * float)) : list (option Z * float) :=
  if ro && (30 <? length rows)
  then List.filter (λ r, within_bounds (map snd rows) (snd r)) rows
  else rows.

End RowVocabulary.


(** The value [predict] gives the regressor on a future date: the pattern
    of its weekday, 0 where there is none. *)
Definition spike_outlook (pats : gmap Z float) (d : option Z) : float :=
  match d ≫= (λ z, pats !! dayofweek z) with
  | Some v => if PrimFloat.is_nan v then 0%float else v
  | None => 0%float
  end.


(** ** Sample tables and forecasts *)

Module Sample.

(** Five rows: one value is text that denotes no number, one date is
    missing, one value is a numeric string. *)
Definition mixed_table : RawFrame :=
  {| columns := ["date"; "revenue"];
     data := [[ODate 3; ONum 5]; [ODate 1; OStr "abc"]; [ODate 2; ONum 7];
              [ONone; ONum 1]; [ODate 0; OStr "12"]] |}.

(** Thirty days: twenty-nine ordinary ones and a last day of 100000. *)
Definition thirty_days : RawFrame :=
  {| columns := ["date"; "revenue"];
     data := Naive.daily_rows 29 ++ [[ODate 29; ONum 100000]] |}.

Definition thirty_values : list float :=
  map (λ i, Z_to_float (100 + 2 * Z.of_nat i)) (seq 0 29) ++ [100000%float].

Definition thirty_dates : list (option Z) := map (λ i, Some (Z.of_nat i)) (seq 0 30).

(** Thirty-one days: thirty ordinary ones and a last day of 1000. *)
Definition thirty_one_days : RawFrame :=
  {| columns := ["date"; "revenue"];
     data := Naive.daily_rows 30 ++ [[ODate 30; ONum 1000]] |}.

Definition thirty_one_values : list float :=
  map (λ i, Z_to_float (100 + 2 * Z.of_nat i)) (seq 0 30) ++ [1000%float].

Definition thirty_one_dates : list (option Z) := map (λ i, Some (Z.of_nat i)) (seq 0 31).

(** Twenty-nine ordinary days, as [prepare_data] returns them when neither
    spikes nor outliers are looked for. *)
Definition prepared_29 : Frame :=
  series (map (λ i, Some (Z.of_nat i)) (seq 0 29))
         (map (λ i, Z_to_float (100 + 2 * Z.of_nat i)) (seq 0 29)).

(** A forecast table of [n] consecutive days from day 0, the trend rising by
    one a day from 100. *)
Definition forecast_days (n : nat) : list FRow :=
  map (λ i, let v := Z_to_float (100 + Z.of_nat i) in
            {| ds := Z.of_nat i; yhat := v; yhat_lower := PrimFloat.sub v 1;
               yhat_upper := PrimFloat.add v 1; trend := v; components := [] |})
      (seq 0 n).

(** A forecaster holding the forecast [fc]. *)
Definition forecaster_with (fc : list FRow) : SalesForecaster :=
  {| model := None; forecast_df := Some fc; trained := true; spike_patterns := None |}.

(** Forty fitted days and a horizon of five. *)
Definition forty_plus_five : SalesForecaster := forecaster_with (forecast_days 45).

Definition last_of_45 : FRow :=
  {| ds := 44; yhat := 144; yhat_lower := 143; yhat_upper := 145; trend := 144;
     components := [] |}.

Definition summary_of_45 : Summary :=
  Eval vm_compute in
    match @get_forecast_summary Naive.pandas forty_plus_five with
    | Ok s => s
    | Raise _ => ∅
    end.

End Sample.


(** ** More sample frames, worlds and databases *)

Module Setup.

(** [n] consecutive days from day 0 as [prepare_data] returns them when
    neither spikes nor outliers are looked for. *)
Definition prepared (n : nat) : Frame :=
  series (map (λ i, Some (Z.of_nat i)) (seq 0 n))
         (map (λ i, Z_to_float (100 + 2 * Z.of_nat i)) (seq 0 n)).

Definition days (n : nat) : list (option Z) := map (λ i, Some (Z.of_nat i)) (seq 0 n).

(** Forty days as [prepare_data] returns them with its defaults. *)
Definition prepared_40 : Frame :=
  Eval vm_compute in
    match @prepare_data Naive.pandas
            {| columns := ["date"; "quantity"]; data := Naive.daily_rows 40 |}
            "date" "quantity" true true with
    | Ok p => p
    | Raise _ => []
    end.


(** A world whose only frame is [d], before any call. *)
Definition world_with (d : Frame) : World := {| self := init; store := [d]; calls := [] |}.

(** The world after training on 29 prepared days. *)
Definition trained_world : World :=
  snd (@train Naive.pandas Naive.prophet 0 "multiplicative" 0.08 8.0 "UK"
         (world_with (prepared 29))).

(** A database that cannot be reached. *)
Definition unreachable : Database :=
  {| fetchall := λ _, Raise (LibraryError "connection refused") |}.

(** Two rows of the same trend. *)
Definition level_forecast : list FRow :=
  [ {| ds := 0; yhat := 10; yhat_lower := 9; yhat_upper := 11; trend := 5;
       components := [] |};
    {| ds := 1; yhat := 12; yhat_lower := 11; yhat_upper := 13; trend := 5;
       components := [] |} ].

Definition level_summary : Summary :=
  Eval vm_compute in
    match @get_forecast_summary Naive.pandas (Sample.forecaster_with level_forecast) with
    | Ok s => s
    | Raise _ => ∅
    end.

(** Thirty-one days as [prepare_data] returns them when spikes are looked
    for and outliers are kept. *)
Definition prepared_31 : Frame :=
  Eval vm_compute in
    match @prepare_data Naive.pandas Sample.thirty_one_days "date" "revenue" false true with
    | Ok p => p
    | Raise _ => []
    end.

(** The world after training on the 40 days with spike flags. *)
Definition flag_world : World :=
  Eval vm_compute in
    snd (@train Naive.pandas Naive.prophet 0 "multiplicative" 0.08 8.0 "UK"
           (world_with prepared_40)).

Definition flag_model : Prophet :=
  Eval vm_compute in
    match model (self flag_world) with
    | Some m => m
    | None => new_prophet "multiplicative" 0.08 8.0
    end.

Definition flag_patterns : gmap Z float :=
  Eval vm_compute in default ∅ (spike_patterns (self flag_world)).

Definition flag_future : Frame :=
  Eval vm_compute in
    match @make_future_dataframe Naive.prophet flag_model 7 "D" with
    | Ok f => f
    | Raise _ => []
    end.

End Setup.


(** * Facts *)

(** ** Lists, masks and positions *)

Section ListFacts.
Context {A : Type}.

Lemma filter_all (f : A -> bool) (l : list A) :
  Forall (λ x, f x = true) l -> List.filter f l = l.
Proof.
  induction 1 as [|x l Hx _ IH]; simpl; [reflexivity|].
  rewrite Hx, IH. reflexivity.
Qed.

Lemma last_map {B} (f : A -> B) (l : list A) : last (map f l) = f <$> last l.
Proof.
  induction l as [|a l IH]; [reflexivity|].
  destruct l as [|b l]; [reflexivity|]. exact IH.
Qed.

Lemma last_filter_keeps (f : A -> bool) (l : list A) (x : A) :
  last l = Some x -> f x = true -> last (List.filter f l) = Some x.
Proof.
  induction l as [|a l IH]; [discriminate|].
  destruct l as [|b l].
  - intros [= ->] Hf. simpl. rewrite Hf. reflexivity.
  - intros Hl Hf. specialize (IH Hl Hf).
    change (List.filter f (a :: b :: l))
      with (if f a then a :: List.filter f (b :: l) else List.filter f (b :: l)).
    destruct (f a); [|exact IH].
    destruct (List.filter f (b :: l)) as [|c r]; [discriminate|exact IH].
Qed.

Lemma In_firstn (n : nat) (l : list A) (x : A) : In x (firstn n l) -> In x l.
Proof.
  intros Hx. rewrite <- (firstn_skipn n l). apply in_or_app. left. exact Hx.
Qed.

Lemma In_skipn (n : nat) (l : list A) (x : A) : In x (skipn n l) -> In x l.
Proof.
  intros Hx. rewrite <- (firstn_skipn n l). apply in_or_app. right. exact Hx.
Qed.

Lemma combine_fst_snd {B} (l : list (A * B)) : combine (map fst l) (map snd l) = l.
Proof.
  induction l as [|[a b] l IH]; [reflexivity|]. simpl. rewrite IH. reflexivity.
Qed.

Lemma map_snd_combine {B} (a : list A) (b : list B) :
  length a = length b -> map snd (combine a b) = b.
Proof.
  revert b. induction a as [|x a IH]; intros [|y b] Hlen; simpl in *;
    try reflexivity; try discriminate.
  rewrite IH by lia. reflexivity.
Qed.

Lemma nth_error_combine {B} (a : list A) (b : list B) (i : nat) (x : A) (y : B) :
  nth_error (combine a b) i = Some (x, y) ->
  nth_error a i = Some x /\ nth_error b i = Some y.
Proof.
  revert b i. induction a as [|a0 a IH]; intros [|b0 b] [|i] Hi;
    simpl in *; try discriminate.
  - injection Hi as -> ->. split; reflexivity.
  - apply IH, Hi.
Qed.

Lemma mask_select_map_filter (f : A -> bool) (l : list A) :
  mask_select (map f l) l = List.filter f l.
Proof.
  induction l as [|x l IH]; [reflexivity|].
  simpl. rewrite IH. reflexivity.
Qed.

Lemma mask_select_all (l : list A) (n : nat) :
  length l <= n -> mask_select (repeat true n) l = l.
Proof.
  revert n. induction l as [|x l IH]; intros [|n] Hn; simpl in *;
    try reflexivity; try lia.
  rewrite IH by lia. reflexivity.
Qed.

Lemma mask_select_In (mask : list bool) (l : list A) (x : A) :
  In x (mask_select mask l) ->
  exists i, nth_error mask i = Some true /\ nth_error l i = Some x.
Proof.
  revert l. induction mask as [|b mask IH]; intros [|y l]; simpl; try tauto.
  destruct b.
  - intros [->|Hin].
    + exists 0. split; reflexivity.
    + destruct (IH l Hin) as (i & Hm & Hl). exists (S i). split; assumption.
  - intros Hin. destruct (IH l Hin) as (i & Hm & Hl). exists (S i). split; assumption.
Qed.

Lemma mask_select_combine {B} (mask : list bool) (a : list A) (b : list B) :
  length a = length b ->
  combine (mask_select mask a) (mask_select mask b) = mask_select mask (combine a b).
Proof.
  revert a b. induction mask as [|m mask IH]; intros [|x a] [|y b] Hlen;
    simpl in *; try reflexivity; try discriminate.
  injection Hlen as Hlen. destruct m; simpl; rewrite IH by exact Hlen; reflexivity.
Qed.

Lemma mask_select_length {B} (mask : list bool) (a : list A) (b : list B) :
  length a = length b -> length (mask_select mask a) = length (mask_select mask b).
Proof.
  revert a b. induction mask as [|m mask IH]; intros [|x a] [|y b] Hlen;
    simpl in *; try reflexivity; try discriminate.
  injection Hlen as Hlen. destruct m; simpl; rewrite (IH a b Hlen); reflexivity.
Qed.

Lemma mask_select_split {B} (mask : list bool) (a : list A) (b : list B) :
  length a = length b ->
  mask_select mask a = map fst (mask_select mask (combine a b)) /\
  mask_select mask b = map snd (mask_select mask (combine a b)).
Proof.
  revert a b. induction mask as [|x m IHm]; intros [|a0 a] [|b0 b] Hl; simpl in *;
    try (split; reflexivity); try discriminate.
  destruct (IHm a b ltac:(lia)) as [Ha Hb].
  destruct x; simpl; rewrite <- Ha, <- Hb; split; reflexivity.
Qed.

Lemma take_rows_cons (x : A) (l : list A) (idx : list nat) :
  take_rows (map S idx) (x :: l) = take_rows idx l.
Proof.
  unfold take_rows. induction idx as [|i idx IH]; [reflexivity|].
  simpl. rewrite IH. reflexivity.
Qed.

Lemma take_rows_all (l : list A) : take_rows (seq 0 (length l)) l = l.
Proof.
  induction l as [|x l IH]; [reflexivity|].
  cbn [length seq]. rewrite <- seq_shift.
  change (take_rows (0 :: map S (seq 0 (length l))) (x :: l))
    with (x :: take_rows (map S (seq 0 (length l))) (x :: l)).
  rewrite take_rows_cons, IH. reflexivity.
Qed.

(** Taking every position once rearranges the rows and loses none. *)
Lemma take_rows_perm (idx : list nat) (l : list A) :
  Permutation idx (seq 0 (length l)) -> Permutation (take_rows idx l) l.
Proof.
  intros Hp. rewrite <- (take_rows_all l) at 2.
  unfold take_rows. apply Permutation_flat_map, Hp.
Qed.

Lemma take_rows_In (idx : list nat) (l : list A) (x : A) :
  In x (take_rows idx l) -> In x l.
Proof.
  unfold take_rows. rewrite in_flat_map. intros (i & _ & Hx).
  destruct (nth_error l i) as [y|] eqn:Hy; [|destruct Hx].
  destruct Hx as [<-|[]]. eapply nth_error_In, Hy.
Qed.

Lemma take_rows_length {B} (idx : list nat) (a : list A) (b : list B) :
  length a = length b -> length (take_rows idx a) = length (take_rows idx b).
Proof.
  intros Hab. unfold take_rows.
  induction idx as [|i idx IH]; [reflexivity|].
  cbn [flat_map]. rewrite !length_app, IH. f_equal.
  destruct (nth_error a i) eqn:Ha, (nth_error b i) eqn:Hb; try reflexivity.
  - apply nth_error_None in Hb.
    assert (i < length a) by (apply nth_error_Some; rewrite Ha; discriminate). lia.
  - apply nth_error_None in Ha.
    assert (i < length b) by (apply nth_error_Some; rewrite Hb; discriminate). lia.
Qed.

Lemma take_rows_combine {B} (idx : list nat) (a : list A) (b : list B) :
  length a = length b ->
  combine (take_rows idx a) (take_rows idx b) = take_rows idx (combine a b).
Proof.
  intros Hlen. unfold take_rows. induction idx as [|i idx IH]; [reflexivity|].
  cbn [flat_map].
  destruct (nth_error (combine a b) i) as [[x y]|] eqn:Hc.
  - destruct (nth_error_combine a b i x y Hc) as [-> ->]. simpl. rewrite IH. reflexivity.
  - apply nth_error_None in Hc. rewrite length_combine in Hc.
    assert (Ha : nth_error a i = None) by (apply nth_error_None; lia).
    assert (Hb : nth_error b i = None) by (apply nth_error_None; lia).
    rewrite Ha, Hb. simpl. exact IH.
Qed.

End ListFacts.

Section ArgsortFacts.
Context {A : Type} (leb : A -> A -> bool).

Lemma insert_key_perm (x : A * nat) (l : list (A * nat)) :
  Permutation (insert_key leb x l) (x :: l).
Proof.
  induction l as [|y l IH]; simpl; [reflexivity|].
  destruct (leb (fst x) (fst y)); [reflexivity|].
  rewrite IH. apply perm_swap.
Qed.

Lemma sort_keys_perm (l : list (A * nat)) : Permutation (sort_keys leb l) l.
Proof.
  induction l as [|x l IH]; simpl; [reflexivity|].
  rewrite insert_key_perm, IH. reflexivity.
Qed.

(** [argsort] enumerates every position once. *)
Lemma argsort_perm (keys : list A) :
  Permutation (argsort leb keys) (seq 0 (length keys)).
Proof.
  unfold argsort. rewrite sort_keys_perm.
  rewrite map_snd_combine by (rewrite length_seq; reflexivity). reflexivity.
Qed.

End ArgsortFacts.

(** ** Ascending dates *)

Lemma dates_increasing_sorted (fc : list FRow) :
  dates_increasing fc = true -> StronglySorted before fc.
Proof.
  unfold dates_increasing.
  induction fc as [|a fc IH]; [constructor|].
  destruct fc as [|b fc]; [intros _; repeat constructor|].
  cbn [tail combine forallb fst snd]. intros Hb.
  apply andb_prop in Hb as [Hab Hrest].
  specialize (IH Hrest).
  constructor; [exact IH|].
  apply Z.ltb_lt in Hab.
  constructor; [exact Hab|].
  apply StronglySorted_inv in IH as [_ Hall].
  eapply List.Forall_impl; [|exact Hall].
  unfold before. intros c Hc. simpl in Hc. lia.
Qed.

(** On ascending dates, the rows after the date of row [k] are the rows
    behind position [k]. *)
Lemma filter_after_position (fc : list FRow) (k : nat) (x : FRow) :
  StronglySorted before fc -> nth_error fc k = Some x ->
  List.filter (λ r, (ds x <? ds r)%Z) fc = skipn (S k) fc.
Proof.
  intros Hs. revert k. induction Hs as [|a fc Hs IH Hall]; intros k Hk.
  - destruct k; discriminate.
  - destruct k as [|k]; simpl in Hk.
    + injection Hk as ->. simpl. rewrite Z.ltb_irrefl.
      apply filter_all. eapply List.Forall_impl; [|exact Hall].
      intros c Hc. apply Z.ltb_lt, Hc.
    + simpl. assert (Hax : (ds a < ds x)%Z).
      { rewrite List.Forall_forall in Hall. apply Hall. eapply nth_error_In, Hk. }
      replace (ds x <? ds a)%Z with false by (symmetry; apply Z.ltb_ge; lia).
      apply IH, Hk.
Qed.


(** ** The Series Builder *)

Section SeriesFacts.
Context `{Pandas}.

Lemma dropna_series_mask (t : list (option Z)) (y : list float) :
  length t = length y ->
  zip_andb (notna_col (TimeCol t))
     (zip_andb (notna_col (FloatCol y)) (repeat true (length t)))
  = map valid_row (combine t y).
Proof.
  revert y. induction t as [|a t IH]; intros [|b y] Hlen; simpl in *;
    try reflexivity; try discriminate.
  rewrite <- IH by lia. unfold valid_row, is_some. simpl.
  destruct a; rewrite ?andb_true_r; reflexivity.
Qed.

Lemma dropna_series (t : list (option Z)) (y : list float) :
  length t = length y ->
  dropna (series t y) =
    series (map fst (List.filter valid_row (combine t y)))
           (map snd (List.filter valid_row (combine t y))).
Proof.
  intros Hlen. unfold dropna, series, filter_rows.
  cbn [fold_right map fst snd len col_len col_mask].
  rewrite (dropna_series_mask t y Hlen).
  rewrite <- mask_select_map_filter.
  destruct (mask_select_split (map valid_row (combine t y)) t y Hlen) as [-> ->].
  reflexivity.
Qed.

Lemma to_datetime_length (s : list Obj) (t : list (option Z)) :
  to_datetime s = Ok t -> length t = length s.
Proof.
  revert t. induction s as [|o s IH]; intros t; simpl.
  - intros [= <-]. reflexivity.
  - destruct (datetime_of_obj o) as [d|e]; [|discriminate].
    cbn [mbind result_bind].
    destruct (to_datetime s) as [ts|e]; [|discriminate].
    cbn [mbind result_bind]. intros [= <-]. simpl. rewrite (IH ts eq_refl). reflexivity.
Qed.

Lemma raw_getcol_length (df : RawFrame) (c : string) (s : list Obj) :
  raw_getcol df c = Ok s -> length s = length (data df).
Proof.
  unfold raw_getcol. destruct (index_of c (columns df)); [|discriminate].
  intros [= <-]. apply length_map.
Qed.

Lemma cleaned_rows (df : RawFrame) (dc vc : string) dates t values :
  raw_getcol df dc = Ok dates -> to_datetime dates = Ok t ->
  raw_getcol df vc = Ok values ->
  cleaned df dc vc = Ok (series (map fst (kept_rows t values)) (map snd (kept_rows t values))).
Proof.
  intros Hd Ht Hv. unfold cleaned. rewrite Hd. cbn [mbind result_bind].
  rewrite Ht. cbn [mbind result_bind]. rewrite Hv. cbn [mbind result_bind].
  f_equal. apply dropna_series.
  rewrite (to_datetime_length _ _ Ht), (raw_getcol_length _ _ _ Hd).
  unfold to_numeric. rewrite length_map. symmetry. apply (raw_getcol_length _ _ _ Hv).
Qed.

(** A cleaned series has a value for every date, and no NaN among them. *)
Lemma cleaned_series (df : RawFrame) (dc vc : string) t y :
  cleaned df dc vc = Ok (series t y) ->
  length t = length y /\ Forall not_nan y.
Proof.
  intros Hc.
  destruct (raw_getcol df dc) as [dates|e] eqn:Hd;
    [|unfold cleaned in Hc; rewrite Hd in Hc; discriminate].
  destruct (to_datetime dates) as [t0|e] eqn:Ht;
    [|unfold cleaned in Hc; rewrite Hd in Hc; cbn in Hc; rewrite Ht in Hc; discriminate].
  destruct (raw_getcol df vc) as [values|e] eqn:Hv;
    [|unfold cleaned in Hc; rewrite Hd in Hc; cbn in Hc; rewrite Ht in Hc; cbn in Hc;
      rewrite Hv in Hc; discriminate].
  rewrite (cleaned_rows df dc vc dates t0 values Hd Ht Hv) in Hc.
  injection Hc as <- <-.
  split; [rewrite !length_map; reflexivity|].
  apply List.Forall_forall. intros v Hin. apply in_map_iff in Hin as ([d v'] & <- & Hin).
  apply filter_In in Hin as [_ Hvalid]. unfold valid_row in Hvalid.
  apply andb_prop in Hvalid as [_ Hn]. apply negb_true_iff in Hn. exact Hn.
Qed.

(** [prepare_data] is its four stages in a row. *)
Lemma prepare_data_stages (df : RawFrame) (dc vc : string) (ro dsp : bool) :
  prepare_data df dc vc ro dsp =
    (c ← cleaned df dc vc;
     c ← (if dsp && (30 <? len c) then detect_spike_flags c else Ok c);
     c ← (if ro && (30 <? len c) then remove_iqr_outliers c else Ok c);
     sort_values c "ds").
Proof.
  unfold prepare_data, cleaned.
  destruct (raw_getcol df dc) as [dates|e]; [|reflexivity]. cbn [mbind result_bind].
  destruct (to_datetime dates) as [t|e]; [|reflexivity]. cbn [mbind result_bind].
  destruct (raw_getcol df vc) as [values|e]; reflexivity.
Qed.

Lemma detect_spike_flags_series (t : list (option Z)) (y : list float) :
  detect_spike_flags (series t y) = Ok (flagged t y (spike_flags y)).
Proof. reflexivity. Qed.

Lemma remove_iqr_outliers_series (t : list (option Z)) (y : list float) :
  remove_iqr_outliers (series t y) = Ok (filter_rows (map (within_bounds y) y) (series t y)).
Proof. reflexivity. Qed.

Lemma remove_iqr_outliers_flagged (t : list (option Z)) (y : list float) (f : list Z) :
  remove_iqr_outliers (flagged t y f) =
    Ok (filter_rows (map (within_bounds y) y) (flagged t y f)).
Proof. reflexivity. Qed.

(** Without spike detection the prepared frame has no [is_spike] column. *)
Lemma prepare_data_plain (df : RawFrame) (dc vc : string) (p : Frame) :
  prepare_data df dc vc false false = Ok p -> has_col "is_spike" p = false.
Proof.
  unfold prepare_data.
  destruct (raw_getcol df dc) as [dates|e]; [|discriminate]. cbn [mbind result_bind].
  destruct (to_datetime dates) as [t|e]; [|discriminate]. cbn [mbind result_bind].
  destruct (raw_getcol df vc) as [values|e]; [|discriminate]. cbn [mbind result_bind andb].
  intros [= <-]. reflexivity.
Qed.

(** *** Rolling statistics, position by position *)

Lemma nth_error_zip_with_float (f : float -> float -> float) (a b : list float) (i : nat) :
  nth_error (zip_with_float f a b) i =
    match nth_error a i, nth_error b i with
    | Some x, Some y => Some (f x y)
    | _, _ => None
    end.
Proof.
  revert b i. induction a as [|x a IH]; intros [|y b] [|i]; simpl; try reflexivity.
  - destruct (nth_error a i); reflexivity.
  - apply IH.
Qed.

Lemma nth_error_zip_gt (a b : list float) (i : nat) :
  nth_error (zip_gt a b) i =
    match nth_error a i, nth_error b i with
    | Some x, Some y => Some (PrimFloat.ltb y x)
    | _, _ => None
    end.
Proof.
  revert b i. induction a as [|x a IH]; intros [|y b] [|i]; simpl; try reflexivity.
  - destruct (nth_error a i); reflexivity.
  - apply IH.
Qed.

(** The rolling column of the code, read at one position: the value of the
    accumulator, NaN within three positions of either end. *)
Lemma nth_error_rolling (roll : nat -> list float -> nat -> float) (y : list float)
    (i : nat) :
  i < length y ->
  nth_error (rolling_center 7 roll y) i =
    Some (if interior (length y) i then roll 7 y i else PrimFloat.nan).
Proof.
  intros Hi. unfold rolling_center.
  rewrite nth_error_map, nth_error_seq.
  destruct (Nat.ltb_spec i (length y)) as [_|Hge]; [|lia].
  cbn [option_map]. f_equal.
  change ((7 - 1) / 2) with 3. unfold interior.
  replace (7 <=? 0 + i + 3 + 1) with (3 <=? 0 + i)
    by (destruct (Nat.leb_spec 3 (0 + i)), (Nat.leb_spec 7 (0 + i + 3 + 1)); lia || reflexivity).
  reflexivity.
Qed.

Lemma nth_error_filled (roll : nat -> list float -> nat -> float)
    (agg : list float -> float) (y : list float) (i : nat) :
  i < length y ->
  nth_error (fillna (agg y) (rolling_center 7 roll y)) i =
    Some (local_or_global (roll 7) agg y i).
Proof.
  intros Hi. unfold fillna. rewrite nth_error_map, (nth_error_rolling roll y i Hi).
  cbn [option_map]. unfold local_or_global.
  destruct (interior (length y) i); reflexivity.
Qed.

(** The flag of the code at a position is the comparison of the spec. *)
Lemma spike_flags_spec (y : list float) (i : nat) (v : float) :
  nth_error y i = Some v ->
  nth_error (spike_flags y) i =
    Some (if PrimFloat.ltb (spike_threshold y i) v then 1%Z else 0%Z).
Proof.
  intros Hv.
  assert (Hi : i < length y) by (apply nth_error_Some; rewrite Hv; discriminate).
  unfold spike_flags. rewrite nth_error_map, nth_error_zip_gt, Hv.
  rewrite nth_error_zip_with_float.
  rewrite (nth_error_filled rolling_mean mean y i Hi),
    (nth_error_filled rolling_std std y i Hi).
  reflexivity.
Qed.

Lemma spike_flags_length (y : list float) : length (spike_flags y) = length y.
Proof.
  apply Nat.le_antisymm.
  - destruct (Nat.le_gt_cases (length (spike_flags y)) (length y)) as [Hle|Hgt]; [exact Hle|].
    assert (Hn : nth_error y (length y) = None) by (apply nth_error_None; lia).
    assert (Hs : nth_error (spike_flags y) (length y) <> None) by (apply nth_error_Some; lia).
    unfold spike_flags in Hs. rewrite nth_error_map, nth_error_zip_gt, Hn in Hs.
    contradiction.
  - destruct (Nat.le_gt_cases (length y) (length (spike_flags y))) as [Hle|Hgt]; [exact Hle|].
    assert (Hn : nth_error (spike_flags y) (length (spike_flags y)) = None)
      by (apply nth_error_None; lia).
    destruct (nth_error y (length (spike_flags y))) as [v|] eqn:Hv.
    + rewrite (spike_flags_spec y _ v Hv) in Hn. discriminate.
    + apply nth_error_None in Hv. lia.
Qed.

Lemma kept_rows_stem (t0 : list (option Z)) (values : list Obj) (p : option Z * float) :
  In p (kept_rows t0 values) -> stems_from t0 values p.
Proof.
  unfold kept_rows. intros Hin. apply filter_In in Hin as [Hin Hvalid].
  apply In_nth_error in Hin as [i Hi].
  destruct p as [d v].
  destruct (nth_error_combine _ _ _ _ _ Hi) as [Ht Hn].
  unfold to_numeric in Hn. rewrite nth_error_map in Hn.
  destruct (nth_error values i) as [o|] eqn:Ho; [|discriminate].
  injection Hn as Hn. exists i, o. cbn [fst snd].
  unfold valid_row in Hvalid. apply andb_prop in Hvalid as [_ Hnan].
  apply negb_true_iff in Hnan. repeat split; assumption.
Qed.


(** C5 (amended: more than 30 points).  On a cleaned series of more than 30
    points, [prepare_data] with spike detection gives every point a flag;
    the flag of a point is 1 exactly when its value is strictly above the
    centred 7-point rolling mean plus twice the rolling standard deviation,
    as pandas accumulates them, where the rolling values are the global
    mean and standard deviation within three positions of either end (and
    wherever they are NaN).  The flagging removes no point: the output is
    the flagged series with its rows reordered, after the rows outside the
    3 x IQR bounds, flagged or not, have been removed when outliers are
    removed too. *)
Theorem spikes_flagged_above_30_points (df : RawFrame) (dc vc : string)
    (t : list (option Z)) (y : list float) :
  cleaned df dc vc = Ok (series t y) -> 30 < length y ->
  let flags := spike_flags y in
  length flags = length y /\
  (forall i v, nth_error y i = Some v ->
     (nth_error flags i = Some 1%Z <-> PrimFloat.ltb (spike_threshold y i) v = true) /\
     (nth_error flags i = Some 0%Z <-> PrimFloat.ltb (spike_threshold y i) v = false)) /\
  (forall i, i < 3 \/ length y <= i + 3 ->
     spike_threshold y i = PrimFloat.add (mean y) (PrimFloat.mul 2 (std y))) /\
  (forall i, 3 <= i -> i + 3 < length y ->
     PrimFloat.is_nan (rolling_mean 7 y i) = false ->
     PrimFloat.is_nan (rolling_std 7 y i) = false ->
     spike_threshold y i =
       PrimFloat.add (rolling_mean 7 y i) (PrimFloat.mul 2 (rolling_std 7 y i))) /\
  forall ro : bool,
    let stage := if ro then filter_rows (map (within_bounds y) y) (flagged t y flags)
                 else flagged t y flags in
    exists idx,
      Permutation idx (seq 0 (len stage)) /\
      prepare_data df dc vc ro true = Ok (filter_rows_idx idx stage).
Proof.
  intros Hc Hlen flags.
  destruct (cleaned_series df dc vc t y Hc) as (Hty & Hy).
  split; [apply spike_flags_length|]. split; [|split; [|split]].
  - intros i v Hv. unfold flags. rewrite (spike_flags_spec y i v Hv).
    destruct (PrimFloat.ltb (spike_threshold y i) v); split; split;
      intros; congruence.
  - intros i Hi. unfold spike_threshold, local_or_global, interior.
    replace ((3 <=? i) && (i + 3 <? length y)) with false; [reflexivity|].
    symmetry. apply andb_false_iff.
    destruct Hi; [left; apply Nat.leb_gt|right; apply Nat.ltb_ge]; lia.
  - intros i Hlo Hhi Hm Hs. unfold spike_threshold, local_or_global, interior.
    apply Nat.leb_le in Hlo. apply Nat.ltb_lt in Hhi.
    rewrite Hlo, Hhi. cbn [andb]. rewrite Hm, Hs. reflexivity.
  - apply Nat.ltb_lt in Hlen. intros [|] stage; unfold stage.
    + exists (argsort time_leb (mask_select (map (within_bounds y) y) t)). split.
      * change (len (filter_rows (map (within_bounds y) y) (flagged t y flags)))
          with (length (mask_select (map (within_bounds y) y) t)).
        apply argsort_perm.
      * rewrite prepare_data_stages, Hc. cbn [mbind result_bind andb].
        change (len (series t y)) with (length t). rewrite Hty, Hlen.
        rewrite detect_spike_flags_series. cbn [mbind result_bind].
        change (len (flagged t y (spike_flags y))) with (length t).
        rewrite Hty, Hlen, remove_iqr_outliers_flagged. reflexivity.
    + exists (argsort time_leb t). split.
      * change (len (flagged t y flags)) with (length t). apply argsort_perm.
      * rewrite prepare_data_stages, Hc. cbn [mbind result_bind andb].
        change (len (series t y)) with (length t). rewrite Hty, Hlen.
        rewrite detect_spike_flags_series. reflexivity.
Qed.

(** C6 (amended: more than 30 points).  On a cleaned series of more than 30
    points, [prepare_data] with outlier removal keeps the rows whose value
    lies in [Q1 - 3 IQR, Q3 + 3 IQR] and no other: its output is the series
    (with its flags, when spikes are detected too) under that mask, with the
    kept rows reordered, and its values are those of the interval. *)
Theorem outliers_removed_above_30_points (df : RawFrame) (dc vc : string) (dsp : bool)
    (t : list (option Z)) (y : list float) :
  cleaned df dc vc = Ok (series t y) -> 30 < length y ->
  let Q1 := quantile y 0.25 in
  let Q3 := quantile y 0.75 in
  let IQR := PrimFloat.sub Q3 Q1 in
  let keep := λ v, PrimFloat.leb (PrimFloat.sub Q1 (PrimFloat.mul 3 IQR)) v
                   && PrimFloat.leb v (PrimFloat.add Q3 (PrimFloat.mul 3 IQR)) in
  exists stage idx out out_y,
    stage = (if dsp then flagged t y (spike_flags y) else series t y) /\
    prepare_data df dc vc true dsp = Ok out /\
    out = filter_rows_idx idx (filter_rows (map keep y) stage) /\
    Permutation idx (seq 0 (length (List.filter keep y))) /\
    get_float out "y" = Ok out_y /\
    Permutation out_y (List.filter keep y).
Proof.
  intros Hc Hlen Q1 Q3 IQR keep.
  destruct (cleaned_series df dc vc t y Hc) as (Hty & Hy).
  assert (Hkeep : keep = within_bounds y) by reflexivity.
  assert (Hidx : Permutation (argsort time_leb (mask_select (map keep y) t))
                   (seq 0 (length (List.filter keep y)))).
  { rewrite <- mask_select_map_filter.
    rewrite <- (mask_select_length (map keep y) t y Hty). apply argsort_perm. }
  exists (if dsp then flagged t y (spike_flags y) else series t y),
    (argsort time_leb (mask_select (map keep y) t)),
    (filter_rows_idx (argsort time_leb (mask_select (map keep y) t))
       (filter_rows (map keep y)
          (if dsp then flagged t y (spike_flags y) else series t y))),
    (take_rows (argsort time_leb (mask_select (map keep y) t))
       (mask_select (map keep y) y)).
  split; [reflexivity|].
  split.
  { rewrite prepare_data_stages, Hc. cbn [mbind result_bind andb].
    change (len (series t y)) with (length t). rewrite Hty.
    apply Nat.ltb_lt in Hlen. rewrite Hlen.
    destruct dsp.
    - rewrite detect_spike_flags_series. cbn [andb mbind result_bind].
      change (len (flagged t y (spike_flags y))) with (length t).
      rewrite Hty, Hlen, remove_iqr_outliers_flagged. rewrite <- Hkeep. reflexivity.
    - cbn [andb mbind result_bind]. change (len (series t y)) with (length t).
      rewrite Hty, Hlen, remove_iqr_outliers_series. rewrite <- Hkeep. reflexivity. }
  split; [reflexivity|].
  split; [exact Hidx|].
  split; [destruct dsp; reflexivity|].
  rewrite <- mask_select_map_filter.
  apply take_rows_perm. rewrite mask_select_map_filter. exact Hidx.
Qed.

(** C2 (amended).  A value entry that denotes no number raises nothing: on
    every table whose date column parses, [prepare_data] returns a frame,
    and every row of that frame stems from an input row whose value entry
    denotes a number that is not NaN; the other rows are dropped. *)
Theorem non_numeric_rows_are_dropped (df : RawFrame) (dc vc : string) (ro dsp : bool)
    (dates values : list Obj) (t0 : list (option Z)) :
  raw_getcol df dc = Ok dates -> to_datetime dates = Ok t0 ->
  raw_getcol df vc = Ok values ->
  exists out out_t out_y,
    prepare_data df dc vc ro dsp = Ok out /\
    get_time out "ds" = Ok out_t /\ get_float out "y" = Ok out_y /\
    length out_t = length out_y /\
    forall p, In p (combine out_t out_y) -> stems_from t0 values p.
Proof.
  intros Hd Ht Hv.
  pose proof (cleaned_rows df dc vc dates t0 values Hd Ht Hv) as Hc.
  set (t := map fst (kept_rows t0 values)) in *.
  set (y := map snd (kept_rows t0 values)) in *.
  assert (Hty : length t = length y) by (unfold t, y; rewrite !length_map; reflexivity).
  assert (Hrows : forall p, In p (combine t y) -> stems_from t0 values p).
  { unfold t, y. rewrite combine_fst_snd. apply kept_rows_stem. }
  remember (30 <? length t) as big eqn:Hbig.
  set (stage1 := if dsp && big then flagged t y (spike_flags y) else series t y).
  set (t2 := if ro && big then mask_select (map (within_bounds y) y) t else t).
  set (y2 := if ro && big then mask_select (map (within_bounds y) y) y else y).
  assert (Hty2 : length t2 = length y2).
  { unfold t2, y2. destruct (ro && big); [apply mask_select_length|]; exact Hty. }
  assert (Hrows2 : forall p, In p (combine t2 y2) -> In p (combine t y)).
  { unfold t2, y2. destruct (ro && big); [|tauto].
    intros p Hp. rewrite mask_select_combine in Hp by exact Hty.
    apply mask_select_In in Hp as (i & _ & Hi). eapply nth_error_In, Hi. }
  exists (filter_rows_idx (argsort time_leb t2)
            (if ro && big then filter_rows (map (within_bounds y) y) stage1 else stage1)),
    (take_rows (argsort time_leb t2) t2), (take_rows (argsort time_leb t2) y2).
  split.
  { rewrite prepare_data_stages, Hc. cbn [mbind result_bind].
    change (len (series t y)) with (length t). rewrite <- Hbig.
    unfold stage1, t2, y2.
    destruct dsp, ro, big; cbn [andb mbind result_bind];
      rewrite ?detect_spike_flags_series; cbn [mbind result_bind];
      change (len (flagged t y (spike_flags y))) with (length t);
      change (len (series t y)) with (length t); rewrite <- ?Hbig;
      reflexivity. }
  split; [unfold stage1, t2; destruct dsp, ro, big; reflexivity|].
  split; [unfold stage1, y2; destruct dsp, ro, big; reflexivity|].
  split; [apply take_rows_length, Hty2|].
  intros p Hp. apply Hrows, Hrows2.
  rewrite take_rows_combine in Hp by exact Hty2.
  eapply take_rows_In, Hp.
Qed.

End SeriesFacts.


(** ** The Summary Evaluator and the forecast table *)

Section EvaluatorFacts.
Context `{Pandas}.

Lemma summary_window_last (fc : list FRow) (l : FRow) :
  last fc = Some l ->
  summary_window fc = Ok (List.filter (λ r, (ds l - 30 <? ds r)%Z) fc).
Proof. intros Hl. unfold summary_window, iloc_last. rewrite Hl. reflexivity. Qed.

(** A summary that was returned was read off a window with a first and a
    last row. *)
Lemma get_forecast_summary_inv (s : SalesForecaster) (summary : Summary) :
  get_forecast_summary s = Ok summary ->
  exists fc window first final,
    forecast_df s = Some fc /\ summary_window fc = Ok window /\
    head window = Some first /\ last window = Some final /\
    summary !! "trend_direction" =
      Some (SStr (if PrimFloat.ltb (trend first) (trend final)
                  then "increasing" else "decreasing")).
Proof.
  unfold get_forecast_summary.
  destruct (forecast_df s) as [fc|]; [|discriminate].
  destruct (summary_window fc) as [window|e] eqn:Hw; [|discriminate].
  cbn [mbind result_bind]. unfold iloc_last, iloc_first.
  rewrite last_map.
  destruct (last window) as [final|] eqn:Hlast; [|discriminate].
  destruct window as [|first rest]; [discriminate|].
  cbn [fmap option_fmap option_map map mbind result_bind].
  intros [= <-].
  exists fc, (first :: rest), first, final.
  split; [reflexivity|]. split; [exact Hw|]. split; [reflexivity|].
  split; [exact Hlast|]. simplify_map_eq. reflexivity.
Qed.

(** C4.  The summary statistics are taken over the rows dated strictly after
    the last row's date minus 30 days, whichever rows of the table these
    are. *)
Theorem summary_over_trailing_30_days (s : SalesForecaster) (fc : list FRow) (l : FRow) :
  forecast_df s = Some fc -> last fc = Some l ->
  let window := List.filter (λ r, (ds l - 30 <? ds r)%Z) fc in
  (forall r, In r window <-> In r fc /\ (ds r > ds l - 30)%Z) /\
  exists summary,
    get_forecast_summary s = Ok summary /\
    summary !! "avg_predicted_value" = Some (SFloat (mean (map yhat window))) /\
    summary !! "total_predicted_value" = Some (SFloat (total (map yhat window))) /\
    summary !! "min_predicted_value" = Some (SFloat (minimum (map yhat window))) /\
    summary !! "max_predicted_value" = Some (SFloat (maximum (map yhat window))) /\
    summary !! "avg_uncertainty" =
      Some (SFloat (mean (map (λ r, PrimFloat.sub (yhat_upper r) (yhat_lower r)) window))).
Proof.
  intros Hfc Hl window. split.
  - intros r. unfold window. rewrite filter_In, Z.ltb_lt. intuition lia.
  - assert (Hlw : last window = Some l).
    { apply last_filter_keeps; [exact Hl|]. apply Z.ltb_lt. lia. }
    unfold get_forecast_summary. rewrite Hfc.
    rewrite (summary_window_last fc l Hl). fold window.
    cbn [mbind result_bind].
    unfold iloc_last, iloc_first. rewrite last_map, Hlw.
    cbn [fmap option_fmap option_map mbind result_bind].
    destruct window as [|first rest] eqn:Hw; [discriminate|].
    cbn [map mbind result_bind].
    eexists. split; [reflexivity|].
    repeat split; simplify_map_eq; reflexivity.
Qed.

(** C8.  A summary compares the trend of two rows: the last row of the
    table, which is the last row of the window, and the first row of the
    table dated after the last date minus 30 days, which is its first.  It
    says [increasing] exactly when the trend of the former is strictly
    above the trend of the latter, [decreasing] exactly when it is not, and
    never anything else. *)
Theorem trend_direction_two_valued (s : SalesForecaster) (summary : Summary) :
  get_forecast_summary s = Ok summary ->
  exists fc l first,
    forecast_df s = Some fc /\ last fc = Some l /\
    head (List.filter (λ r, (ds l - 30 <? ds r)%Z) fc) = Some first /\
    last (List.filter (λ r, (ds l - 30 <? ds r)%Z) fc) = Some l /\
    (summary !! "trend_direction" = Some (SStr "increasing") <->
       PrimFloat.ltb (trend first) (trend l) = true) /\
    (summary !! "trend_direction" = Some (SStr "decreasing") <->
       PrimFloat.ltb (trend first) (trend l) = false) /\
    (summary !! "trend_direction" = Some (SStr "increasing") \/
     summary !! "trend_direction" = Some (SStr "decreasing")).
Proof.
  intros Hs.
  destruct (get_forecast_summary_inv s summary Hs)
    as (fc & window & first & final & Hfc & Hw & Hh & Hl & Hdir).
  unfold summary_window, iloc_last in Hw.
  destruct (last fc) as [l|] eqn:Hlast; [|discriminate Hw].
  cbn [mbind result_bind] in Hw. injection Hw as <-.
  assert (Hlw : last (List.filter (λ r, (ds l - 30 <? ds r)%Z) fc) = Some l).
  { apply last_filter_keeps; [exact Hlast|]. apply Z.ltb_lt. lia. }
  rewrite Hlw in Hl. injection Hl as <-.
  exists fc, l, first.
  split; [exact Hfc|]. split; [exact Hlast|]. split; [exact Hh|]. split; [exact Hlw|].
  rewrite Hdir.
  destruct (PrimFloat.ltb (trend first) (trend l)).
  - repeat split; try discriminate; auto.
  - repeat split; try discriminate; auto.
Qed.

End EvaluatorFacts.


(** On a table without rows there is no first row to cut at. *)
Lemma future_only_of_empty_table (s : SalesForecaster) :
  forecast_df s = Some [] ->
  get_forecast_dataframe s true =
    Raise (IndexError "single positional indexer is out-of-bounds").
Proof. intros Hfc. unfold get_forecast_dataframe. rewrite Hfc. reflexivity. Qed.


(** ** Computations on the world *)

Lemma bind_ok {A B} (m : M A) (k : A -> M B) (w w1 : World) (a : A) :
  m w = (Ok a, w1) -> (m ≫= k) w = k a w1.
Proof. intros Hm. unfold mbind, M_bind. rewrite Hm. reflexivity. Qed.

Lemma bind_assoc {A B C} (m : M A) (f : A -> M B) (g : B -> M C) (w : World) :
  ((m ≫= f) ≫= g) w = (m ≫= (λ x, f x ≫= g)) w.
Proof. unfold mbind, M_bind. destruct (m w) as [[a|e] w1]; reflexivity. Qed.

Lemma inv_bind {A B} (P : World -> Prop) (m : M A) (k : A -> M B) :
  inv P m -> (forall a, inv P (k a)) -> inv P (m ≫= k).
Proof.
  intros Hm Hk w Hw. unfold mbind, M_bind.
  specialize (Hm w Hw). destruct (m w) as [[a|e] w1]; simpl in *.
  - apply Hk, Hm.
  - exact Hm.
Qed.

Lemma inv_fail_bind {A B} (P : World -> Prop) (m : M A) (k : A -> M B) :
  inv P m -> (forall a, inv_fail P (k a)) -> inv_fail P (m ≫= k).
Proof.
  intros Hm Hk w Hw. unfold mbind, M_bind.
  specialize (Hm w Hw). destruct (m w) as [[a|e] w1]; simpl in *.
  - apply Hk, Hm.
  - intros _. exact Hm.
Qed.

Lemma inv_fail_total {A} (P : World -> Prop) (m : M A) :
  (forall w, is_ok (fst (m w)) = true) -> inv_fail P m.
Proof. intros Ht w _ Hf. rewrite Ht in Hf. discriminate. Qed.

Lemma inv_fail_weaken {A} (P : World -> Prop) (m : M A) : inv P m -> inv_fail P m.
Proof. intros Hm w Hw _. apply Hm, Hw. Qed.

Lemma inv_try_except {A} (P : World -> Prop) (body : M A) (handler : Exn -> M A) :
  inv P body -> (forall e, inv P (handler e)) -> inv P (try_except body handler).
Proof.
  intros Hb Hh w Hw. unfold try_except.
  specialize (Hb w Hw). destruct (body w) as [[a|e] w1]; simpl in *.
  - exact Hb.
  - apply Hh, Hb.
Qed.

Lemma inv_unchanged {A} (P : World -> Prop) (m : M A) :
  (forall w, snd (m w) = w) -> inv P m.
Proof. intros Hs w Hw. rewrite Hs. exact Hw. Qed.

Tactic Notation "inv_step" := inv_step_with @inv_bind @inv_try_except @inv_unchanged.

Lemma alloc_keeps (l : loc) (d d' : Frame) : inv (holds l d) (alloc d').
Proof.
  intros w Hw. unfold holds in *. cbn [alloc snd store].
  apply lookup_app_l_Some, Hw.
Qed.

Lemma emit_extends (prefix : list Event) (e : Event) : inv (calls_from prefix) (emit e).
Proof.
  intros w [rest Hw]. exists (rest ++ [e]). cbn [emit snd calls].
  rewrite Hw, app_assoc. reflexivity.
Qed.

Section ForecasterFacts.
Context `{Pandas} `{ProphetLib}.

(** What [train] keeps when it raises: whatever its steps other than the
    last, [self.trained = True], keep. *)
Lemma train_steps_keep (P : World -> Prop) df mode cps sps hol :
  (forall m, inv P (set_model m)) ->
  (forall p, inv P (set_spike_patterns p)) ->
  (forall e, inv P (emit e)) ->
  (forall l d, inv P (update l d)) ->
  (forall d, inv P (alloc d)) ->
  inv_fail P (train df mode cps sps hol).
Proof.
  intros Hmodel Hpat Hemit Hupd Halloc. unfold train.
  apply inv_fail_bind; [apply Hmodel|intros ?].
  apply inv_fail_bind; [repeat inv_step; apply Hmodel|intros ?].
  apply inv_fail_bind; [repeat inv_step; apply Hmodel|intros ?].
  apply inv_fail_bind; [repeat inv_step|intros d].
  apply inv_fail_bind.
  { destruct (has_col "is_spike" d); repeat inv_step; auto. }
  intros ?.
  apply inv_fail_bind; [repeat inv_step|intros ?].
  apply inv_fail_bind; [repeat inv_step; auto|intros ?].
  apply inv_fail_total. reflexivity.
Qed.

Lemma train_steps_inv (P : World -> Prop) df mode cps sps hol :
  (forall m, inv P (set_model m)) ->
  (forall p, inv P (set_spike_patterns p)) ->
  (forall e, inv P (emit e)) ->
  (forall l d, inv P (update l d)) ->
  (forall d, inv P (alloc d)) ->
  (forall b, inv P (set_trained b)) ->
  inv P (train df mode cps sps hol).
Proof.
  intros Hmodel Hpat Hemit Hupd Halloc Htr. unfold train.
  repeat inv_step; auto.
Qed.

Lemma predict_steps_inv (P : World -> Prop) periods freq :
  (forall e, inv P (emit e)) ->
  (forall fc, inv P (set_forecast_df fc)) ->
  inv P (predict periods freq).
Proof. intros Hemit Hfc. unfold predict. repeat inv_step; auto. Qed.

(** What [predict] keeps when it raises: whatever its steps before
    [self.forecast_df = ...] keep. *)
Lemma predict_steps_keep (P : World -> Prop) periods freq :
  (forall e, inv P (emit e)) ->
  inv_fail P (predict periods freq).
Proof.
  intros Hemit. unfold predict.
  apply inv_fail_bind; [inv_step|intros s].
  destruct (negb (trained s)); [apply inv_fail_weaken; inv_step|].
  apply inv_fail_bind; [repeat inv_step|intros m].
  apply inv_fail_bind; [apply Hemit|intros ?].
  apply inv_fail_bind; [inv_step|intros future].
  apply inv_fail_bind; [repeat inv_step|intros ?].
  apply inv_fail_bind; [apply Hemit|intros ?].
  apply inv_fail_bind; [inv_step|intros ?].
  apply inv_fail_total. reflexivity.
Qed.

(** No completed [train], no trained forecaster. *)
Lemma run_stays_untrained (cs : list Call) (w : World) :
  untrained w -> existsb completed_train (fst (run cs w)) = false ->
  untrained (snd (run cs w)).
Proof.
  revert w. induction cs as [|c cs IH]; intros w Hw Hlog; [exact Hw|].
  cbn [run fst snd existsb] in *.
  apply orb_false_elim in Hlog as [Hc Hlog].
  apply IH; [|exact Hlog].
  destruct c; cbn [call fst snd] in *; try exact Hw.
  - apply train_steps_keep; try (intros; intros ? ?; assumption); [exact Hw|exact Hc].
  - apply predict_steps_inv; try (intros; intros ? ?; assumption). exact Hw.
  - destruct (store w !! actual_df); exact Hw.
Qed.

(** No completed [predict], no forecast. *)
Lemma run_stays_without_forecast (cs : list Call) (w : World) :
  no_forecast w -> existsb completed_predict (fst (run cs w)) = false ->
  no_forecast (snd (run cs w)).
Proof.
  revert w. induction cs as [|c cs IH]; intros w Hw Hlog; [exact Hw|].
  cbn [run fst snd existsb] in *.
  apply orb_false_elim in Hlog as [Hc Hlog].
  apply IH; [|exact Hlog].
  destruct c; cbn [call fst snd] in *; try exact Hw.
  - apply train_steps_inv; try (intros; intros ? ?; assumption). exact Hw.
  - apply predict_steps_keep; try (intros; intros ? ?; assumption); [exact Hw|exact Hc].
  - destruct (store w !! actual_df); exact Hw.
Qed.

(** C7.  On a forecaster none of whose calls to [train] has returned,
    [predict] raises its ValueError and leaves the world as it was (no call
    to Prophet, no change of the forecaster); on one none of whose calls to
    [predict] has returned, [get_forecast_summary] and [calculate_accuracy]
    raise theirs. *)
Theorem invalid_state_errors (frames : list Frame) (evs : list Event) (cs : list Call) :
  let log := fst (run cs (fresh frames evs)) in
  let w := snd (run cs (fresh frames evs)) in
  (existsb completed_train log = false ->
   forall periods freq,
     predict periods freq w =
       (Raise (ValueError "Model must be trained before making predictions"), w)) /\
  (existsb completed_predict log = false ->
   get_forecast_summary (self w) =
     Raise (ValueError "No forecast available. Run predict() first.") /\
   forall actual_df,
     calculate_accuracy (self w) actual_df = Raise (ValueError "No forecast available")).
Proof.
  intros log w. split.
  - intros Hlog periods freq.
    assert (Hu : untrained w) by (apply run_stays_untrained; [reflexivity|exact Hlog]).
    unfold predict, mbind, M_bind, get_self. cbn [fst snd].
    unfold untrained in Hu. rewrite Hu. reflexivity.
  - intros Hlog.
    assert (Hn : no_forecast w) by (apply run_stays_without_forecast; [reflexivity|exact Hlog]).
    unfold no_forecast in Hn.
    unfold get_forecast_summary, calculate_accuracy. rewrite Hn. split; reflexivity.
Qed.

(** *** [train] and the frame it is given *)

Lemma holidays_step (hol : string) (m : Prophet) (w : World) :
  (if negb (String.eqb hol "") then
     try_except (model_add_country_holidays hol) (λ _, mret ())
   else mret ()) (with_model m w)
  = (Ok (), with_model (if negb (String.eqb hol "") && holidays_known hol
                        then with_holidays hol m else m) w).
Proof.
  destruct (negb (String.eqb hol "")); [|reflexivity].
  unfold try_except, model_add_country_holidays, mbind, M_bind, get_model, get_self.
  cbn [with_model self model mret M_ret andb].
  destruct (holidays_known hol); reflexivity.
Qed.

(** The steps of [train] up to the frame never raise. *)
Lemma train_reaches_frame (df : loc) mode cps sps hol (w : World) (d : Frame)
    {B} (k : Frame -> M B) :
  holds df d w ->
  (_ ← set_model (new_prophet mode cps sps);
   _ ← (if negb (String.eqb hol "") then
          try_except (model_add_country_holidays hol) (λ _, mret ())
        else mret ());
   _ ← model_add_seasonality "monthly" 30.5 5;
   d ← load df;
   k d) w
  = k d (with_model (configured mode cps sps hol) w).
Proof.
  intros Hw.
  erewrite bind_ok by reflexivity.
  change (snd (set_model (new_prophet mode cps sps) w))
    with (with_model (new_prophet mode cps sps) w).
  erewrite bind_ok by apply holidays_step.
  erewrite bind_ok by reflexivity.
  erewrite bind_ok; [reflexivity|].
  unfold load. cbn [with_model store]. unfold holds in Hw. rewrite Hw. reflexivity.
Qed.

(** Whatever [train] does after it, the column [dow] it writes into the
    caller's frame stays there. *)
Lemma train_adds_dow (df : loc) mode cps sps hol (w : World) (d : Frame) t :
  holds df d w -> has_col "is_spike" d = true -> get_time d "ds" = Ok t ->
  holds df (setcol "dow" (dt_dayofweek t) d) (snd (train df mode cps sps hol w)).
Proof.
  intros Hw Hcol Ht. unfold train.
  rewrite (train_reaches_frame df mode cps sps hol w d _ Hw).
  rewrite Hcol.
  rewrite bind_assoc. erewrite bind_ok by reflexivity.
  rewrite bind_assoc. erewrite bind_ok;
    [|unfold load; cbn [snd store model_add_regressor]; unfold holds in Hw;
      cbn; rewrite Hw; reflexivity].
  rewrite Ht.
  rewrite bind_assoc. erewrite bind_ok by reflexivity.
  rewrite bind_assoc. erewrite bind_ok by reflexivity.
  match goal with
  | |- holds _ ?dn (snd (?rest ?w1)) =>
      assert (Hrest : inv (holds df dn) rest); [|apply Hrest]
  end.
  - repeat inv_step;
      try (intros ? ?; assumption); try apply alloc_keeps.
  - unfold holds in *. cbn [snd update store].
    apply list_lookup_insert_eq. eapply lookup_lt_Some, Hw.
Qed.

(** On a frame without spike flags [train] goes straight to the fit, and
    leaves the frame alone. *)
Lemma train_without_flags (df : loc) mode cps sps hol (w : World) (d : Frame) :
  holds df d w -> has_col "is_spike" d = false ->
  let cfg := configured mode cps sps hol in
  train df mode cps sps hol w =
    match prophet_fit cfg d with
    | Ok _ =>
        (Ok (),
         {| self := {| model := Some (with_history d cfg);
                       forecast_df := forecast_df (self w);
                       trained := true;
                       spike_patterns := spike_patterns (self w) |};
            store := store w; calls := calls w ++ [EvFit cfg d] |})
    | Raise e =>
        (Raise e,
         {| self := self (with_model cfg w); store := store w;
            calls := calls w ++ [EvFit cfg d] |})
    end.
Proof.
  intros Hw Hcol cfg. unfold train.
  rewrite (train_reaches_frame df mode cps sps hol w d _ Hw).
  rewrite Hcol.
  erewrite bind_ok by reflexivity.
  erewrite bind_ok;
    [|unfold load; cbn [with_model store]; unfold holds in Hw; rewrite Hw; reflexivity].
  unfold model_fit.
  rewrite bind_assoc. erewrite bind_ok by reflexivity.
  rewrite bind_assoc. erewrite bind_ok by reflexivity.
  rewrite bind_assoc.
  fold cfg.
  destruct (prophet_fit cfg d) as [[]|e] eqn:Hfit; reflexivity.
Qed.

End ForecasterFacts.


(** ** The orchestrators *)

Section OrchestratorFacts.
Context `{Pandas} `{ProphetLib} `{Database}.

Lemma query_step (q : Query) (rows : list (list Obj)) (w : World) :
  fetchall q = Ok rows -> query q w = (Ok rows, asked q w).
Proof.
  intros Hq. unfold query. erewrite bind_ok by reflexivity.
  unfold lift. rewrite Hq. reflexivity.
Qed.

(** Fewer than 30 rows: the sentinel, and nothing but the query was done. *)
Lemma slice_forecast_short (q : Query) (value_col : string) (periods : Z) (freq : string)
    (rows : list (list Obj)) (w : World) :
  fetchall q = Ok rows -> length rows < 30 ->
  slice_forecast q value_col periods freq w = (Ok insufficient, asked q w).
Proof.
  intros Hq Hlen. unfold slice_forecast.
  erewrite bind_ok by (apply query_step, Hq).
  unfold raw_len. cbn [data].
  apply Nat.ltb_lt in Hlen. rewrite Hlen. reflexivity.
Qed.

(** However many rows the query returns, the revenue orchestrator fits the
    model on the frame [prepare_data] makes of them. *)
Lemma revenue_forecast_fits (periods : Z) (freq : string) (include_history : bool)
    (seasonality_mode : string) (use_ensemble : bool)
    (rows : list (list Obj)) (p : Frame) (w : World) :
  fetchall (QDailyRevenue None None) = Ok rows ->
  prepare_data {| columns := ["date"; "revenue"]; data := rows |}
    "date" "revenue" false false = Ok p ->
  calls_from
    (calls w ++ [EvQuery (QDailyRevenue None None);
                 EvFit (configured "additive" 0.18 12.0 "UK") p])
    (snd (get_revenue_forecast periods freq include_history seasonality_mode
            use_ensemble w)).
Proof.
  intros Hq Hp. unfold get_revenue_forecast, get_daily_revenue.
  rewrite bind_assoc. erewrite bind_ok by (apply query_step, Hq).
  erewrite bind_ok by reflexivity.
  replace (negb (if use_ensemble then false else use_ensemble)) with true
    by (destruct use_ensemble; reflexivity).
  erewrite bind_ok by reflexivity.
  erewrite bind_ok by (unfold lift; rewrite Hp; reflexivity).
  erewrite bind_ok by reflexivity.
  match goal with
  | |- calls_from _ (snd ((train ?l _ _ _ _ ≫= ?k) ?w1)) =>
      assert (Hh : holds l p w1)
        by (unfold holds; cbn [store]; apply list_lookup_middle; reflexivity);
      unfold mbind at 1; unfold M_bind at 1;
      rewrite (train_without_flags l "additive" 0.18 12.0 "UK" w1 p Hh
                 (prepare_data_plain _ _ _ _ Hp))
  end.
  cbn [with_model self store calls asked].
  destruct (prophet_fit (configured "additive" 0.18 12.0 "UK") p) as [[]|e].
  - match goal with
    | |- calls_from ?pre (snd (?k ?w2)) =>
        assert (Hk : inv (calls_from pre) k); [|apply Hk]
    end.
    + repeat first
        [ apply predict_steps_inv; [apply emit_extends|intros ? ? ?; assumption]
        | inv_step ].
    + exists []. cbn [calls]. rewrite <- app_assoc, app_nil_r. reflexivity.
  - exists []. cbn [snd calls]. rewrite <- app_assoc, app_nil_r. reflexivity.
Qed.

(** C1 (amended).  On a slice of fewer than 30 dates the product and the
    country orchestrators return the "insufficient data" result, having done
    nothing but the query; the revenue orchestrator does not refuse the
    slice: once [prepare_data] has made a frame of it, its next call is the
    fit of the tuned model on that frame. *)
Theorem short_slices_by_orchestrator (rows : list (list Obj)) (periods : Z)
    (freq : string) (w : World) :
  length rows < 30 ->
  (forall product_code,
     fetchall (QProduct product_code) = Ok rows ->
     get_product_forecast product_code periods freq w =
       (Ok insufficient, asked (QProduct product_code) w)) /\
  (forall country,
     fetchall (QCountry country) = Ok rows ->
     get_country_forecast country periods freq w =
       (Ok insufficient, asked (QCountry country) w)) /\
  (forall include_history seasonality_mode use_ensemble p,
     fetchall (QDailyRevenue None None) = Ok rows ->
     prepare_data {| columns := ["date"; "revenue"]; data := rows |}
       "date" "revenue" false false = Ok p ->
     exists rest,
       calls (snd (get_revenue_forecast periods freq include_history seasonality_mode
                     use_ensemble w)) =
         (calls w ++ [EvQuery (QDailyRevenue None None);
                      EvFit (configured "additive" 0.18 12.0 "UK") p]) ++ rest).
Proof.
  intros Hlen. split; [|split].
  - intros product_code Hq. apply (slice_forecast_short _ _ _ _ rows); assumption.
  - intros country Hq. apply (slice_forecast_short _ _ _ _ rows); assumption.
  - intros include_history seasonality_mode use_ensemble p Hq Hp.
    apply (revenue_forecast_fits _ _ _ _ _ rows p w Hq Hp).
Qed.

(** C9.  [use_ensemble] has no influence: with the flag set or not, in the
    same world, [get_revenue_forecast] and [get_forecast_comparison] return
    the same value and leave the same world. *)
Theorem use_ensemble_has_no_influence (periods : Z) (freq : string)
    (include_history : bool) (seasonality_mode : string) (w : World) :
  get_revenue_forecast periods freq include_history seasonality_mode true w =
  get_revenue_forecast periods freq include_history seasonality_mode false w
  /\ get_forecast_comparison true w = get_forecast_comparison false w.
Proof.
  split.
  - unfold get_revenue_forecast. reflexivity.
  - unfold get_forecast_comparison. reflexivity.
Qed.

End OrchestratorFacts.


(** * Further properties of the code *)

(** ** [prepare_data]: order, rows, errors *)

Section SortFacts.
Context {A : Type} (leb : A -> A -> bool).
Hypothesis leb_total : forall a b, leb a b = false -> leb b a = true.
Hypothesis leb_trans : forall a b c, leb a b = true -> leb b c = true -> leb a c = true.

Lemma insert_key_ascends (x : A * nat) (l : list (A * nat)) :
  keys_ascend leb l -> keys_ascend leb (insert_key leb x l).
Proof.
  unfold keys_ascend. induction 1 as [|y l Hs IH Hall]; simpl.
  - repeat constructor.
  - destruct (leb (fst x) (fst y)) eqn:Hxy.
    + constructor; [constructor; assumption|].
      constructor; [exact Hxy|].
      eapply List.Forall_impl; [|exact Hall].
      intros z Hz. simpl in *. eapply leb_trans; eassumption.
    + constructor; [exact IH|].
      apply List.Forall_forall. intros z Hz.
      apply (Permutation_in _ (insert_key_perm leb x l)) in Hz.
      destruct Hz as [<-|Hz].
      * apply leb_total, Hxy.
      * rewrite List.Forall_forall in Hall. apply Hall, Hz.
Qed.

Lemma sort_keys_ascends (l : list (A * nat)) : keys_ascend leb (sort_keys leb l).
Proof.
  induction l as [|x l IH]; simpl; [constructor|].
  apply insert_key_ascends, IH.
Qed.
End SortFacts.

Section SortFacts2.
Context {A : Type}.

Lemma In_combine_seq (keys : list A) (a : nat) (k : A) (i : nat) :
  In (k, i) (combine keys (seq a (length keys))) ->
  a <= i /\ nth_error keys (i - a) = Some k.
Proof.
  revert a. induction keys as [|x keys IH]; intros a; simpl; [tauto|].
  intros [[= <- <-]|Hin].
  - split; [lia|]. rewrite Nat.sub_diag. reflexivity.
  - destruct (IH (S a) Hin) as [Hle Hn]. split; [lia|].
    replace (i - a) with (S (i - S a)) by lia. exact Hn.
Qed.

Lemma take_rows_positions (keys : list A) (l : list (A * nat)) :
  Forall (λ p, nth_error keys (snd p) = Some (fst p)) l ->
  take_rows (map snd l) keys = map fst l.
Proof.
  unfold take_rows. induction 1 as [|[k i] l Hp _ IH]; [reflexivity|].
  cbn [map flat_map fst snd] in *. rewrite Hp, IH. reflexivity.
Qed.

(** The keys taken in the order of [argsort] are the sorted keys. *)
Lemma take_rows_argsort (leb : A -> A -> bool) (keys : list A) :
  take_rows (argsort leb keys) keys =
    map fst (sort_keys leb (combine keys (seq 0 (length keys)))).
Proof.
  unfold argsort. apply take_rows_positions.
  apply List.Forall_forall. intros [k i] Hin.
  apply (Permutation_in _ (sort_keys_perm leb _)) in Hin.
  destruct (In_combine_seq keys 0 k i Hin) as [_ Hn].
  rewrite Nat.sub_0_r in Hn. exact Hn.
Qed.
End SortFacts2.

Lemma time_leb_total (a b : option Z) : time_leb a b = false -> time_leb b a = true.
Proof.
  destruct a as [x|], b as [y|]; simpl; try congruence.
  intros H. apply Z.leb_gt in H. apply Z.leb_le. lia.
Qed.

Lemma time_leb_trans (a b c : option Z) :
  time_leb a b = true -> time_leb b c = true -> time_leb a c = true.
Proof.
  destruct a as [x|], b as [y|], c as [z|]; simpl; try congruence.
  rewrite !Z.leb_le. lia.
Qed.

(** A date column taken in the order of [argsort] ascends. *)
Lemma sorted_dates_ascend (t : list (option Z)) :
  dates_ascend (take_rows (argsort time_leb t) t).
Proof.
  rewrite take_rows_argsort. unfold dates_ascend.
  pose proof (sort_keys_ascends time_leb time_leb_total time_leb_trans
                (combine t (seq 0 (length t)))) as Hs.
  unfold keys_ascend in Hs. induction Hs as [|x l Hs IH Hall]; [constructor|].
  cbn [map]. constructor; [exact IH|].
  apply List.Forall_forall. intros d Hd. apply in_map_iff in Hd as (p & <- & Hp).
  rewrite List.Forall_forall in Hall. apply Hall, Hp.
Qed.

Section BuilderExtras.
Context `{Pandas}.

Lemma filter_map_snd {A B} (f : B -> bool) (l : list (A * B)) :
  mask_select (map f (map snd l)) l = List.filter (λ r, f (snd r)) l.
Proof.
  induction l as [|[a b] l IH]; [reflexivity|]. simpl. rewrite IH. reflexivity.
Qed.

Lemma mask_select_map {A B} (g : A -> B) (mask : list bool) (l : list A) :
  mask_select mask (map g l) = map g (mask_select mask l).
Proof.
  revert l. induction mask as [|b mask IH]; intros [|x l]; simpl; try reflexivity.
  destruct b; simpl; rewrite IH; reflexivity.
Qed.

(** The frame [prepare_data] returns, as rows: the surviving rows in the
    order of [argsort] on their dates. *)
Lemma prepare_data_rows (df : RawFrame) (dc vc : string) (ro dsp : bool)
    (dates values : list Obj) (t0 : list (option Z)) :
  raw_getcol df dc = Ok dates -> to_datetime dates = Ok t0 ->
  raw_getcol df vc = Ok values ->
  let rows := surviving_rows ro (kept_rows t0 values) in
  let idx := argsort time_leb (map fst rows) in
  exists out,
    prepare_data df dc vc ro dsp = Ok out /\
    get_time out "ds" = Ok (take_rows idx (map fst rows)) /\
    get_float out "y" = Ok (take_rows idx (map snd rows)) /\
    has_col "is_spike" out = dsp && (30 <? length (kept_rows t0 values)).
Proof.
  intros Hd Ht Hv rows idx.
  pose proof (cleaned_rows df dc vc dates t0 values Hd Ht Hv) as Hc.
  set (kept := kept_rows t0 values) in *.
  set (t := map fst kept) in *.
  set (y := map snd kept) in *.
  assert (Hty : length t = length y) by (unfold t, y; rewrite !length_map; reflexivity).
  assert (Hlt : length t = length kept) by (unfold t; apply length_map).
  assert (Hrows : map fst rows = (if ro && (30 <? length kept)
                                  then mask_select (map (within_bounds y) y) t else t) /\
                  map snd rows = (if ro && (30 <? length kept)
                                  then mask_select (map (within_bounds y) y) y else y)).
  { unfold rows, surviving_rows. fold kept. fold y.
    destruct (ro && (30 <? length kept)); [|split; reflexivity].
    rewrite <- filter_map_snd. fold y.
    rewrite <- !mask_select_map. split; reflexivity. }
  destruct Hrows as [Hrt Hry]. unfold idx. rewrite Hrt, Hry.
  rewrite prepare_data_stages, Hc. cbn [mbind result_bind].
  change (len (series t y)) with (length t). rewrite Hlt.
  remember (30 <? length kept) as big eqn:Hbig.
  destruct dsp, ro, big; cbn [andb mbind result_bind];
    rewrite ?detect_spike_flags_series; cbn [mbind result_bind];
    change (len (flagged t y (spike_flags y))) with (length t);
    change (len (series t y)) with (length t); rewrite ?Hlt, <- ?Hbig;
    (eexists; split; [reflexivity|]; repeat split; reflexivity).
Qed.

Lemma surviving_rows_In (ro : bool) (rows : list (option Z * float)) r :
  In r (surviving_rows ro rows) -> In r rows.
Proof.
  unfold surviving_rows. destruct (ro && (30 <? length rows)); [|tauto].
  intros Hr. apply filter_In in Hr. tauto.
Qed.

(** X1.  Whatever the two options, the frame [prepare_data] returns is
    sorted by date, and none of its rows misses its date or holds a NaN
    value. *)
Theorem prepare_data_sorts_by_date (df : RawFrame) (dc vc : string) (ro dsp : bool)
    (dates values : list Obj) (t0 : list (option Z)) :
  raw_getcol df dc = Ok dates -> to_datetime dates = Ok t0 ->
  raw_getcol df vc = Ok values ->
  exists out out_t out_y,
    prepare_data df dc vc ro dsp = Ok out /\
    get_time out "ds" = Ok out_t /\ get_float out "y" = Ok out_y /\
    dates_ascend out_t /\
    Forall (λ d, is_some d = true) out_t /\
    Forall not_nan out_y.
Proof.
  intros Hd Ht Hv.
  destruct (prepare_data_rows df dc vc ro dsp dates values t0 Hd Ht Hv)
    as (out & Hout & Hot & Hoy & _).
  eexists _, _, _. split; [exact Hout|]. split; [exact Hot|]. split; [exact Hoy|].
  assert (Hvalid : forall r, In r (surviving_rows ro (kept_rows t0 values)) ->
                             valid_row r = true).
  { intros r Hr. apply surviving_rows_In in Hr. unfold kept_rows in Hr.
    apply filter_In in Hr. tauto. }
  split; [apply sorted_dates_ascend|]. split.
  - apply List.Forall_forall. intros d Hd'. apply take_rows_In in Hd'.
    apply in_map_iff in Hd' as (r & <- & Hr). specialize (Hvalid r Hr).
    unfold valid_row in Hvalid. apply andb_prop in Hvalid. tauto.
  - apply List.Forall_forall. intros v Hv'. apply take_rows_In in Hv'.
    apply in_map_iff in Hv' as (r & <- & Hr). specialize (Hvalid r Hr).
    unfold valid_row in Hvalid. apply andb_prop in Hvalid as [_ Hn].
    apply negb_true_iff in Hn. exact Hn.
Qed.

(** X2.  The rows of the frame [prepare_data] returns are the input rows
    with a date and a numeric value, each once (those within the 3 x IQR
    bounds when outliers are removed from more than 30 of them); there are
    no more of them than input rows. *)
Theorem prepare_data_returns_the_valid_rows (df : RawFrame) (dc vc : string) (ro dsp : bool)
    (dates values : list Obj) (t0 : list (option Z)) :
  raw_getcol df dc = Ok dates -> to_datetime dates = Ok t0 ->
  raw_getcol df vc = Ok values ->
  exists out out_t out_y,
    prepare_data df dc vc ro dsp = Ok out /\
    get_time out "ds" = Ok out_t /\ get_float out "y" = Ok out_y /\
    Permutation (combine out_t out_y)
      (if ro && (30 <? length (kept_rows t0 values))
       then List.filter (λ r, within_bounds (map snd (kept_rows t0 values)) (snd r))
              (kept_rows t0 values)
       else kept_rows t0 values) /\
    length out_t <= raw_len df.
Proof.
  intros Hd Ht Hv.
  destruct (prepare_data_rows df dc vc ro dsp dates values t0 Hd Ht Hv)
    as (out & Hout & Hot & Hoy & _).
  eexists _, _, _. split; [exact Hout|]. split; [exact Hot|]. split; [exact Hoy|].
  fold (surviving_rows ro (kept_rows t0 values)).
  set (rows := surviving_rows ro (kept_rows t0 values)).
  assert (Hperm : Permutation
            (combine (take_rows (argsort time_leb (map fst rows)) (map fst rows))
                     (take_rows (argsort time_leb (map fst rows)) (map snd rows))) rows).
  { rewrite take_rows_combine by (rewrite !length_map; reflexivity).
    rewrite combine_fst_snd. apply take_rows_perm.
    rewrite <- (length_map fst rows). apply argsort_perm. }
  split; [exact Hperm|].
  apply Permutation_length in Hperm. rewrite length_combine in Hperm.
  rewrite <- (take_rows_length _ (map fst rows) (map snd rows)) in Hperm
    by (rewrite !length_map; reflexivity).
  rewrite Nat.min_id in Hperm. rewrite Hperm.
  assert (Hle : length rows <= length (kept_rows t0 values)).
  { unfold rows, surviving_rows.
    destruct (ro && _); [apply filter_length_le|lia]. }
  pose proof (filter_length_le valid_row (combine t0 (to_numeric values))) as Hk.
  fold (kept_rows t0 values) in Hk.
  rewrite length_combine in Hk.
  rewrite (to_datetime_length _ _ Ht), (raw_getcol_length _ _ _ Hd) in Hk.
  unfold raw_len. lia.
Qed.

(** X3.  On an input with at most 30 rows that have a date and a numeric
    value, [remove_outliers] and [detect_spikes] change nothing:
    [prepare_data] returns what it returns with both switched off. *)
Theorem prepare_data_options_need_31_rows (df : RawFrame) (dc vc : string) (ro dsp : bool)
    (dates values : list Obj) (t0 : list (option Z)) :
  raw_getcol df dc = Ok dates -> to_datetime dates = Ok t0 ->
  raw_getcol df vc = Ok values ->
  length (kept_rows t0 values) <= 30 ->
  prepare_data df dc vc ro dsp = prepare_data df dc vc false false.
Proof.
  intros Hd Ht Hv Hlen.
  rewrite !prepare_data_stages, (cleaned_rows df dc vc dates t0 values Hd Ht Hv).
  cbn [mbind result_bind].
  change (len (series ?t ?y)) with (length t).
  rewrite length_map.
  replace (30 <? length (kept_rows t0 values)) with false
    by (symmetry; apply Nat.ltb_ge; exact Hlen).
  rewrite !andb_false_r. cbn [mbind result_bind].
  change (len (series ?t ?y)) with (length t). rewrite length_map.
  replace (30 <? length (kept_rows t0 values)) with false
    by (symmetry; apply Nat.ltb_ge; exact Hlen).
  rewrite !andb_false_r. reflexivity.
Qed.

(** X4.  The exceptions of [prepare_data]: a [KeyError] for a missing date
    or value column, the error of [to_datetime] as it is, so on every
    column with a string that [to_datetime] raises on; whether it raises
    does not depend on the two options. *)
Theorem prepare_data_raises_on_columns_and_dates (df : RawFrame) (dc vc : string)
    (ro dsp : bool) :
  (index_of dc (columns df) = None ->
   prepare_data df dc vc ro dsp = Raise (KeyError dc)) /\
  (forall dates e,
     raw_getcol df dc = Ok dates -> to_datetime dates = Raise e ->
     prepare_data df dc vc ro dsp = Raise e) /\
  (forall dates t0,
     raw_getcol df dc = Ok dates -> to_datetime dates = Ok t0 ->
     index_of vc (columns df) = None ->
     prepare_data df dc vc ro dsp = Raise (KeyError vc)) /\
  (forall dates s e,
     raw_getcol df dc = Ok dates -> In (OStr s) dates -> parse_date s = Raise e ->
     is_ok (prepare_data df dc vc ro dsp) = false) /\
  (is_ok (prepare_data df dc vc ro dsp) = is_ok (prepare_data df dc vc false false)).
Proof.
  assert (Hbad : forall dates s e, In (OStr s) dates -> parse_date s = Raise e ->
                                   is_ok (to_datetime dates) = false).
  { induction dates as [|o dates IH]; intros s e Hin Hs; [destruct Hin|].
    destruct Hin as [->|Hin]; simpl.
    - rewrite Hs. reflexivity.
    - destruct (datetime_of_obj o); [|reflexivity]. cbn [mbind result_bind].
      specialize (IH s e Hin Hs). destruct (to_datetime dates); [discriminate|reflexivity]. }
  split; [|split; [|split; [|split]]].
  - intros Hi. unfold prepare_data, raw_getcol. rewrite Hi. reflexivity.
  - intros dates e Hd Ht. unfold prepare_data. rewrite Hd. cbn [mbind result_bind].
    rewrite Ht. reflexivity.
  - intros dates t0 Hd Ht Hi. unfold prepare_data. rewrite Hd. cbn [mbind result_bind].
    rewrite Ht. cbn [mbind result_bind]. unfold raw_getcol. rewrite Hi. reflexivity.
  - intros dates s e Hd Hin Hs. unfold prepare_data. rewrite Hd. cbn [mbind result_bind].
    specialize (Hbad dates s e Hin Hs). destruct (to_datetime dates); [discriminate|reflexivity].
  - destruct (raw_getcol df dc) as [dates|e] eqn:Hd;
      [|unfold prepare_data; rewrite Hd; reflexivity].
    destruct (to_datetime dates) as [t0|e] eqn:Ht;
      [|unfold prepare_data; rewrite Hd; cbn [mbind result_bind]; rewrite Ht; reflexivity].
    destruct (raw_getcol df vc) as [values|e] eqn:Hv;
      [|unfold prepare_data; rewrite Hd; cbn [mbind result_bind]; rewrite Ht;
        cbn [mbind result_bind]; rewrite Hv; reflexivity].
    destruct (prepare_data_rows df dc vc ro dsp dates values t0 Hd Ht Hv) as (o1 & -> & _).
    destruct (prepare_data_rows df dc vc false false dates values t0 Hd Ht Hv) as (o2 & -> & _).
    reflexivity.
Qed.
End BuilderExtras.

Section ColumnFacts.
Context `{Pandas}.

Lemma spike_flags_binary (y : list float) (f : Z) :
  In f (spike_flags y) -> f = 0%Z \/ f = 1%Z.
Proof.
  unfold spike_flags. intros Hin. apply in_map_iff in Hin as ([] & <- & _); auto.
Qed.

Lemma mask_select_subset {A} (mask : list bool) (l : list A) (x : A) :
  In x (mask_select mask l) -> In x l.
Proof.
  intros Hin. apply mask_select_In in Hin as (i & _ & Hx). eapply nth_error_In, Hx.
Qed.

(** X23.  The frame [prepare_data] returns has the columns [ds] and [y],
    and [is_spike] exactly when spikes are looked for among more than 30
    valid rows; the rolling statistics never stay in it.  The flags are 0
    or 1. *)
Theorem prepare_data_columns (df : RawFrame) (dc vc : string) (ro dsp : bool)
    (dates values : list Obj) (t0 : list (option Z)) (out : Frame) :
  raw_getcol df dc = Ok dates -> to_datetime dates = Ok t0 ->
  raw_getcol df vc = Ok values ->
  prepare_data df dc vc ro dsp = Ok out ->
  let spikes := dsp && (30 <? length (kept_rows t0 values)) in
  map fst out = (if spikes then ["ds"; "y"; "is_spike"] else ["ds"; "y"]) /\
  (spikes = true ->
   exists flags, getcol out "is_spike" = Ok (IntCol flags) /\
                 Forall (λ f, f = 0%Z \/ f = 1%Z) flags).
Proof.
  intros Hd Ht Hv Hout spikes. unfold spikes. clear spikes.
  pose proof (cleaned_rows df dc vc dates t0 values Hd Ht Hv) as Hc.
  set (kept := kept_rows t0 values) in *.
  set (t := map fst kept) in *.
  set (y := map snd kept) in *.
  assert (Hlt : length t = length kept) by (unfold t; apply length_map).
  rewrite prepare_data_stages, Hc in Hout. cbn [mbind result_bind] in Hout.
  change (len (series t y)) with (length t) in Hout. rewrite Hlt in Hout.
  remember (30 <? length kept) as big eqn:Hbig.
  destruct dsp, ro, big; cbn [andb mbind result_bind] in Hout;
    rewrite ?detect_spike_flags_series in Hout; cbn [mbind result_bind] in Hout;
    change (len (flagged t y (spike_flags y))) with (length t) in Hout;
    change (len (series t y)) with (length t) in Hout;
    rewrite ?Hlt, <- ?Hbig in Hout; cbn [andb mbind result_bind] in Hout;
    injection Hout as <-; cbn [andb];
    (split; [reflexivity|]); try (intros Hx; discriminate Hx); intros _;
    (eexists; split; [reflexivity|]);
    apply List.Forall_forall; intros f Hf; apply take_rows_In in Hf;
    try apply mask_select_subset in Hf; apply (spike_flags_binary y f Hf).
Qed.

End ColumnFacts.


(** ** [train] *)

(** What a sequence that returned has done. *)
Lemma bind_inv {A B} (m : M A) (k : A -> M B) (w w' : World) (b : B) :
  (m ≫= k) w = (Ok b, w') -> exists a w1, m w = (Ok a, w1) /\ k a w1 = (Ok b, w').
Proof.
  unfold mbind, M_bind. destruct (m w) as [[a|e] w1]; [|intros Hx; discriminate Hx].
  intros Hk. exists a, w1. split; [reflexivity|exact Hk].
Qed.

Lemma lift_inv {A} (r : Result A) (w w' : World) (a : A) :
  lift r w = (Ok a, w') -> r = Ok a /\ w' = w.
Proof. unfold lift. intros [= -> ->]. split; reflexivity. Qed.

Lemma assoc_setcol_same (n : string) (c : Column) (d : Frame) :
  assoc n (setcol n c d) = Some c.
Proof.
  induction d as [|[m c'] d IH]; simpl.
  - rewrite String.eqb_refl. reflexivity.
  - destruct (String.eqb n m) eqn:E; simpl; rewrite E; [reflexivity|exact IH].
Qed.

Lemma assoc_setcol_other (n m : string) (c : Column) (d : Frame) :
  String.eqb m n = false -> assoc m (setcol n c d) = assoc m d.
Proof.
  intros Hmn. induction d as [|[k c'] d IH]; simpl.
  - rewrite Hmn. reflexivity.
  - destruct (String.eqb n k) eqn:E; simpl.
    + apply String.eqb_eq in E. subst k. rewrite Hmn. reflexivity.
    + destruct (String.eqb m k); [reflexivity|exact IH].
Qed.

Lemma get_time_setcol_other (n m : string) (c : Column) (d : Frame) :
  String.eqb m n = false -> get_time (setcol n c d) m = get_time d m.
Proof.
  intros Hmn. unfold get_time, getcol. rewrite assoc_setcol_other by exact Hmn.
  reflexivity.
Qed.



Lemma dow_keys_of_dates (t : list (option Z)) :
  forallb is_some t = true ->
  dow_keys (dt_dayofweek t) = map (fmap dayofweek) t.
Proof.
  intros Hall. unfold dt_dayofweek. rewrite Hall. cbn [dow_keys].
  rewrite map_map. apply map_ext_in. intros [d|] Hin; [reflexivity|].
  rewrite forallb_forall in Hall. specialize (Hall None Hin). discriminate Hall.
Qed.


Section PatternFacts.
Context `{Pandas}.

End PatternFacts.

Section TrainExtras.
Context `{Pandas} `{ProphetLib}.

(** X5.  A holiday calendar that Prophet does not know is as good as none:
    [train] swallows the error, and does what it does without holidays. *)
Theorem train_absorbs_unknown_holidays (df : loc) (mode : string) (cps sps : float)
    (hol : string) (w : World) :
  holidays_known hol = false ->
  train df mode cps sps hol w = train df mode cps sps "" w.
Proof.
  intros Hh. unfold train.
  erewrite (bind_ok (set_model _) _ w) by reflexivity.
  erewrite (bind_ok (set_model _) _ w) by reflexivity.
  change (snd (set_model (new_prophet mode cps sps) w))
    with (with_model (new_prophet mode cps sps) w).
  erewrite (bind_ok (if negb (String.eqb hol "") then _ else _)) by apply holidays_step.
  erewrite (bind_ok (if negb (String.eqb "" "") then _ else _)) by apply holidays_step.
  rewrite Hh, andb_false_r. reflexivity.
Qed.


(** X8.  [train] never touches the forecast of an earlier [predict];
    [trained] is set when it returns and is what it was when it raises. *)
Theorem train_keeps_the_previous_forecast (df : loc) (mode : string) (cps sps : float)
    (hol : string) (w : World) :
  let r := train df mode cps sps hol w in
  forecast_df (self (snd r)) = forecast_df (self w) /\
  trained (self (snd r)) = (if is_ok (fst r) then true else trained (self w)).
Proof.
  intros r. unfold r. split.
  - assert (Hk : inv (λ w', forecast_df (self w') = forecast_df (self w))
                   (train df mode cps sps hol)).
    { apply train_steps_inv; intros; intros ? ?; assumption. }
    apply Hk. reflexivity.
  - destruct (train df mode cps sps hol w) as [[[]|e] w'] eqn:Hrun; cbn [fst snd is_ok].
    + unfold train in Hrun.
      do 7 (apply bind_inv in Hrun as (? & ? & _ & Hrun)).
      unfold set_trained in Hrun.
      apply bind_inv in Hrun as (s & ? & Hs & Hrun). injection Hs as <- <-.
      injection Hrun as <-. reflexivity.
    + assert (Hk : inv_fail (λ w', trained (self w') = trained (self w))
                     (train df mode cps sps hol)).
      { apply train_steps_keep; intros; intros ? ?; assumption. }
      specialize (Hk w eq_refl). rewrite Hrun in Hk. apply Hk. reflexivity.
Qed.

End TrainExtras.


(** ** [predict] *)

Lemma has_col_setcol_same (n : string) (c : Column) (d : Frame) :
  has_col n (setcol n c d) = true.
Proof. unfold has_col. rewrite assoc_setcol_same. reflexivity. Qed.

Lemma assoc_del_col_same (n : string) (d : Frame) : assoc n (del_col n d) = None.
Proof.
  unfold del_col. induction d as [|[m c] d IH]; simpl; [reflexivity|].
  destruct (String.eqb n m) eqn:E; simpl; [exact IH|]. rewrite E. exact IH.
Qed.

Lemma assoc_del_col_other (n m : string) (d : Frame) :
  String.eqb m n = false -> assoc m (del_col n d) = assoc m d.
Proof.
  intros Hmn. unfold del_col. induction d as [|[k c] d IH]; simpl; [reflexivity|].
  destruct (String.eqb n k) eqn:E; simpl.
  - apply String.eqb_eq in E. subst k. rewrite Hmn. exact IH.
  - destruct (String.eqb m k); [reflexivity|exact IH].
Qed.

Section PredictExtras.
Context `{Pandas} `{ProphetLib}.

(** The frame [predict] makes of the future frame when the model has the
    regressor: it has the regressor's column and no [dow]. *)
Lemma future_with_regressor (sp : option (gmap Z float)) (f0 fut : Frame) (w w' : World) :
  ((future ←
      (match sp with
       | Some pats =>
           t ← lift (get_time f0 "ds");
           let future := setcol "dow" (dt_dayofweek t) f0 in
           dow ← lift (getcol future "dow");
           mret (setcol "is_spike" (FloatCol (map_patterns pats (dow_keys dow))) future)
       | None =>
           mret (setcol "is_spike" (IntCol (repeat 0%Z (len f0))) f0)
       end);
    mret (del_col "dow" future)) : M Frame) w = (Ok fut, w') ->
  w' = w /\ has_col "is_spike" fut = true /\ has_col "dow" fut = false.
Proof.
  assert (Hshape : forall c f,
    has_col "is_spike" (del_col "dow" (setcol "is_spike" c f)) = true /\
    has_col "dow" (del_col "dow" (setcol "is_spike" c f)) = false).
  { intros c f. unfold has_col.
    rewrite assoc_del_col_other by reflexivity.
    rewrite assoc_setcol_same, assoc_del_col_same. split; reflexivity. }
  intros Hb. apply bind_inv in Hb as (fu & w1 & Hfu & Hret).
  injection Hret as <- <-.
  destruct sp as [pats|].
  - apply bind_inv in Hfu as (t & w2 & Ht & Hfu). apply lift_inv in Ht as [_ ->].
    apply bind_inv in Hfu as (dow & w3 & Hd & Hfu). apply lift_inv in Hd as [_ ->].
    injection Hfu as <- <-. split; [reflexivity|apply Hshape].
  - injection Hfu as <- <-. split; [reflexivity|apply Hshape].
Qed.

(** What a [predict] that returned has done. *)
Lemma predict_inv (periods : Z) (freq : string) (w w' : World) (fc : list FRow) :
  predict periods freq w = (Ok fc, w') ->
  exists m f0 future,
    trained (self w) = true /\ model (self w) = Some m /\
    make_future_dataframe m periods freq = Ok f0 /\
    (has_regressor "is_spike" m = false -> future = f0) /\
    (has_regressor "is_spike" m = true ->
       has_col "is_spike" future = true /\ has_col "dow" future = false) /\
    prophet_predict m future = Ok fc /\
    w' = {| self := {| model := Some m; forecast_df := Some fc; trained := true;
                       spike_patterns := spike_patterns (self w) |};
            store := store w;
            calls := calls w ++ [EvFuture periods freq; EvPredict future] |}.
Proof.
  unfold predict. intros Hp.
  apply bind_inv in Hp as (s & w1 & Hs & Hp). injection Hs as <- <-.
  destruct (trained (self w)) eqn:Htr; cbn [negb] in Hp; [|discriminate Hp].
  apply bind_inv in Hp as (mm & w1 & Hm & Hp).
  unfold get_model in Hm. apply bind_inv in Hm as (s & w2 & Hs & Hm).
  injection Hs as <- <-.
  destruct (model (self w)) as [m|] eqn:Hmodel; [|discriminate Hm].
  injection Hm as <- <-.
  apply bind_inv in Hp as ([] & w1 & He & Hp). injection He as Hw1.
  apply bind_inv in Hp as (f0 & w2 & Hf & Hp). apply lift_inv in Hf as [Hf ->].
  apply bind_inv in Hp as (fut & w2 & Hfut & Hp).
  assert (Hblock : w2 = w1 /\
                   (has_regressor "is_spike" m = false -> fut = f0) /\
                   (has_regressor "is_spike" m = true ->
                      has_col "is_spike" fut = true /\ has_col "dow" fut = false)).
  { destruct (has_regressor "is_spike" m).
    - apply future_with_regressor in Hfut as (-> & Hshape).
      split; [reflexivity|]. split; [intros Hx; discriminate Hx|intros _; exact Hshape].
    - injection Hfut as <- <-.
      split; [reflexivity|]. split; [reflexivity|intros Hx; discriminate Hx]. }
  destruct Hblock as (-> & Hno & Hyes).
  apply bind_inv in Hp as ([] & w2 & He & Hp). injection He as Hw2.
  apply bind_inv in Hp as (fc' & w3 & Hpred & Hp). apply lift_inv in Hpred as [Hpred ->].
  apply bind_inv in Hp as ([] & w3 & Hset & Hp). injection Hp as -> <-.
  unfold set_forecast_df in Hset.
  apply bind_inv in Hset as (s & w4 & Hs & Hset). injection Hs as <- <-.
  injection Hset as <-. subst w2 w1.
  exists m, f0, fut. cbn [self store calls model trained forecast_df spike_patterns].
  rewrite ?Htr, ?Hmodel, <- ?app_assoc.
  repeat split; try assumption; try reflexivity; apply Hyes; assumption.
Qed.

(** X9.  A [predict] that returns has stored the table it returns as the
    forecast, left model, [trained], spike patterns and frames as they
    were, and called Prophet twice: for the future frame, and to predict
    on it.  Without the regressor that frame is the future frame as
    Prophet made it; with it the frame has an [is_spike] column and no
    [dow]. *)
Theorem predict_stores_what_it_returns (periods : Z) (freq : string) (w : World) :
  is_ok (fst (predict periods freq w)) = true ->
  let w' := snd (predict periods freq w) in
  exists fc m future,
    fst (predict periods freq w) = Ok fc /\
    forecast_df (self w') = Some fc /\
    get_forecast_dataframe (self w') false = Ok (map out_row fc) /\
    model (self w) = Some m /\ trained (self w) = true /\
    model (self w') = Some m /\ trained (self w') = true /\
    spike_patterns (self w') = spike_patterns (self w) /\
    store w' = store w /\
    calls w' = calls w ++ [EvFuture periods freq; EvPredict future] /\
    prophet_predict m future = Ok fc /\
    (has_regressor "is_spike" m = false ->
       make_future_dataframe m periods freq = Ok future) /\
    (has_regressor "is_spike" m = true ->
       has_col "is_spike" future = true /\ has_col "dow" future = false).
Proof.
  intros Hok w'. unfold w'.
  destruct (predict periods freq w) as [[fc|e] w1] eqn:Hp; [|discriminate Hok].
  destruct (predict_inv _ _ _ _ _ Hp)
    as (m & f0 & future & Htr & Hm & Hf & Hno & Hyes & Hpred & ->).
  exists fc, m, future. cbn [fst snd self store calls model trained forecast_df spike_patterns].
  repeat split; try assumption; try reflexivity.
  - intros Hreg. rewrite (Hno Hreg). exact Hf.
  - apply Hyes; assumption.
  - apply Hyes; assumption.
Qed.

(** X10.  A [predict] that raises has changed neither the forecaster (an
    earlier forecast stays) nor the frames. *)
Theorem failed_predict_keeps_the_forecaster (periods : Z) (freq : string) (w : World) :
  is_ok (fst (predict periods freq w)) = false ->
  self (snd (predict periods freq w)) = self w /\
  store (snd (predict periods freq w)) = store w.
Proof.
  intros Hf.
  assert (Hk : inv_fail (λ w0, self w0 = self w /\ store w0 = store w)
                 (predict periods freq)).
  { apply predict_steps_keep. intros e w0 Hw0. exact Hw0. }
  destruct (Hk w (conj eq_refl eq_refl) Hf) as [Hs Hst].
  split; [exact Hs|exact Hst].
Qed.

End PredictExtras.

Lemma del_col_setcol_same (n : string) (c : Column) (d : Frame) :
  del_col n (setcol n c d) = del_col n d.
Proof.
  unfold del_col. induction d as [|[m c'] d IH]; simpl.
  - rewrite String.eqb_refl. reflexivity.
  - destruct (String.eqb n m) eqn:E; simpl; rewrite E; simpl; [reflexivity|].
    rewrite IH. reflexivity.
Qed.

Lemma del_col_setcol_other (n m : string) (c : Column) (d : Frame) :
  String.eqb n m = false -> del_col n (setcol m c d) = setcol m c (del_col n d).
Proof.
  intros Hnm. unfold del_col. induction d as [|[k c'] d IH]; simpl.
  - rewrite Hnm. reflexivity.
  - destruct (String.eqb m k) eqn:E; simpl.
    + apply String.eqb_eq in E. subst k. rewrite Hnm. simpl.
      rewrite String.eqb_refl. reflexivity.
    + destruct (String.eqb n k) eqn:E'; simpl; [exact IH|].
      rewrite E, IH. reflexivity.
Qed.

Section PredictRegressor.
Context `{Pandas} `{ProphetLib}.

Lemma map_patterns_outlook (pats : gmap Z float) (t : list (option Z)) :
  forallb is_some t = true ->
  map_patterns pats (dow_keys (dt_dayofweek t)) = map (spike_outlook pats) t.
Proof.
  intros Hall. rewrite (dow_keys_of_dates t Hall).
  unfold map_patterns, fillna. rewrite !map_map. apply map_ext_in.
  intros [d|] Hin; unfold spike_outlook; cbn.
  - destruct (pats !! dayofweek d); reflexivity.
  - reflexivity.
Qed.

(** X24.  With the regressor and the patterns of [train], [predict] hands
    Prophet the future frame with one more column, [is_spike]: on each
    date the pattern of its weekday, and 0 on a weekday without one. *)
Theorem predict_fills_the_spike_regressor (periods : Z) (freq : string) (w : World)
    (m : Prophet) (pats : gmap Z float) (f0 : Frame) (t : list (option Z)) :
  trained (self w) = true -> model (self w) = Some m ->
  has_regressor "is_spike" m = true -> spike_patterns (self w) = Some pats ->
  make_future_dataframe m periods freq = Ok f0 ->
  get_time f0 "ds" = Ok t -> forallb is_some t = true ->
  let future :=
    setcol "is_spike" (FloatCol (map (spike_outlook pats) t)) (del_col "dow" f0) in
  calls (snd (predict periods freq w)) =
    calls w ++ [EvFuture periods freq; EvPredict future] /\
  fst (predict periods freq w) = prophet_predict m future /\
  get_time future "ds" = Ok t /\
  get_float future "is_spike" = Ok (map (spike_outlook pats) t).
Proof.
  intros Htr Hm Hreg Hsp Hf Ht Hall future.
  assert (Hrun : predict periods freq w =
            match prophet_predict m future with
            | Ok fc =>
                (Ok fc,
                 {| self := {| model := Some m; forecast_df := Some fc; trained := true;
                               spike_patterns := Some pats |};
                    store := store w;
                    calls := calls w ++ [EvFuture periods freq; EvPredict future] |})
            | Raise e =>
                (Raise e,
                 {| self := self w; store := store w;
                    calls := calls w ++ [EvFuture periods freq; EvPredict future] |})
            end).
  { unfold predict.
    erewrite bind_ok by reflexivity. rewrite Htr. cbn [negb].
    erewrite bind_ok by (unfold get_model; erewrite bind_ok by reflexivity;
                         rewrite Hm; reflexivity).
    erewrite bind_ok by reflexivity.
    erewrite bind_ok by (unfold lift; rewrite Hf; reflexivity).
    rewrite Hreg, Hsp.
    erewrite bind_ok with (a := future).
    2:{ erewrite bind_ok with (a := setcol "is_spike" (FloatCol (map (spike_outlook pats) t))
                                      (setcol "dow" (dt_dayofweek t) f0)).
        - cbn [mret M_ret]. f_equal. f_equal. unfold future.
          rewrite del_col_setcol_other by reflexivity.
          rewrite del_col_setcol_same. reflexivity.
        - erewrite bind_ok by (unfold lift; rewrite Ht; reflexivity).
          erewrite bind_ok by (unfold lift, getcol; rewrite assoc_setcol_same; reflexivity).
          rewrite (map_patterns_outlook pats t Hall). reflexivity. }
    erewrite bind_ok by reflexivity.
    cbn [snd emit self store calls].
    unfold mbind at 1, M_bind at 1, lift at 1.
    destruct (prophet_predict m future) as [fc|e];
      [|cbn [calls]; rewrite <- app_assoc; reflexivity].
    erewrite bind_ok by reflexivity.
    unfold set_forecast_df, mbind, M_bind, get_self, put_self.
    cbn [mret M_ret snd self store calls model trained spike_patterns].
    rewrite Hm, Htr, Hsp, <- app_assoc. reflexivity. }
  rewrite Hrun.
  split; [destruct (prophet_predict m future); reflexivity|].
  split; [destruct (prophet_predict m future); reflexivity|].
  unfold future. split.
  - rewrite get_time_setcol_other by reflexivity.
    unfold get_time, getcol in *. rewrite assoc_del_col_other by reflexivity. exact Ht.
  - unfold get_float, getcol. rewrite assoc_setcol_same. reflexivity.
Qed.

End PredictRegressor.


(** ** Summary, forecast table, accuracy, [quick_forecast] *)

(** ** Floats *)

Lemma SFltb_irrefl (x : SpecFloat.spec_float) : SpecFloat.SFltb x x = false.
Proof.
  unfold SpecFloat.SFltb, SpecFloat.SFcompare.
  destruct x as [[]| []| |[] m e]; try reflexivity;
    rewrite Z.compare_refl, ?Pos.compare_refl; reflexivity.
Qed.

Lemma ltb_irrefl (x : float) : PrimFloat.ltb x x = false.
Proof. rewrite FloatAxioms.ltb_spec. apply SFltb_irrefl. Qed.

(** ** Lists *)

Lemma filter_drops {A} (f : A -> bool) (l : list A) (x : A) :
  In x l -> f x = false -> length (List.filter f l) < length l.
Proof.
  induction l as [|a l IH]; [intros []|].
  intros [->|Hin] Hx; simpl.
  - rewrite Hx. pose proof (List.filter_length_le f l). lia.
  - specialize (IH Hin Hx). destruct (f a); simpl; lia.
Qed.

Lemma filter_sublist {A B} (f : A -> bool) (g : A -> B) (l : list A) :
  sublist (map g (List.filter f l)) (map g l).
Proof.
  induction l as [|a l IH]; simpl; [constructor|].
  destruct (f a); [apply sublist_skip|apply sublist_cons]; exact IH.
Qed.

Section EvaluatorExtras.
Context `{Pandas}.

(** X11.  [get_forecast_summary] raises its [ValueError] without a
    forecast, an [IndexError] on a forecast table without rows, and
    returns on every table that has a row. *)
Theorem summary_needs_a_forecast_row (s : SalesForecaster) :
  (forecast_df s = None ->
   get_forecast_summary s = Raise (ValueError "No forecast available. Run predict() first."))
  /\ (forecast_df s = Some [] ->
      get_forecast_summary s =
        Raise (IndexError "single positional indexer is out-of-bounds"))
  /\ (is_ok (get_forecast_summary s) = true <->
      exists fc, forecast_df s = Some fc /\ 0 < length fc).
Proof.
  split; [|split].
  - intros Hn. unfold get_forecast_summary. rewrite Hn. reflexivity.
  - intros Hn. unfold get_forecast_summary. rewrite Hn. reflexivity.
  - unfold get_forecast_summary. destruct (forecast_df s) as [fc|].
    + destruct (last fc) as [l|] eqn:Hl.
      * rewrite (summary_window_last fc l Hl). cbn [mbind result_bind].
        assert (Hlw : last (List.filter (λ r, (ds l - 30 <? ds r)%Z) fc) = Some l).
        { apply last_filter_keeps; [exact Hl|]. apply Z.ltb_lt. lia. }
        unfold iloc_last, iloc_first. rewrite last_map, Hlw.
        destruct (List.filter _ fc) as [|first rest]; [discriminate|].
        cbn. split; [intros _|reflexivity].
        exists fc. split; [reflexivity|]. destruct fc; [discriminate|simpl; lia].
      * apply last_None in Hl. subst fc. cbn. split; [discriminate|].
        intros (fc & [= <-] & Hlen). simpl in Hlen. lia.
    + cbn. split; [discriminate|]. intros (fc & Hx & _). discriminate Hx.
Qed.

(** X12.  A forecast whose trend is the same in all rows is reported as
    [decreasing]. *)
Theorem level_trend_is_reported_decreasing (s : SalesForecaster) (fc : list FRow)
    (summary : Summary) :
  forecast_df s = Some fc ->
  (forall a b, In a fc -> In b fc -> trend a = trend b) ->
  get_forecast_summary s = Ok summary ->
  summary !! "trend_direction" = Some (SStr "decreasing").
Proof.
  intros Hfc Hlevel Hs.
  destruct (get_forecast_summary_inv s summary Hs)
    as (fc' & window & first & final & Hfc' & Hw & Hh & Hl & Hdir).
  rewrite Hfc in Hfc'. injection Hfc' as <-.
  unfold summary_window in Hw. destruct (iloc_last fc) as [l|]; [|discriminate].
  injection Hw as <-.
  assert (Hfirst : In first fc).
  { destruct (List.filter _ fc) as [|x rest] eqn:Hf; [discriminate|].
    injection Hh as ->.
    assert (Hin : In first (first :: rest)) by (left; reflexivity).
    rewrite <- Hf in Hin. apply filter_In in Hin as [Hin _]. exact Hin. }
  assert (Hfinal : In final fc).
  { apply last_Some in Hl as [l' Hl].
    assert (Hin : In final (List.filter (λ r, (ds l - 30 <? ds r)%Z) fc))
      by (rewrite Hl; apply in_or_app; right; left; reflexivity).
    apply filter_In in Hin as [Hin _]. exact Hin. }
  rewrite Hdir, (Hlevel first final Hfirst Hfinal), ltb_irrefl. reflexivity.
Qed.

(** X13.  The future-only table is made of rows of the whole table, in
    their order, and always lacks at least one of them: the row whose date
    it cuts at. *)
Theorem future_only_drops_the_cut_row (s : SalesForecaster) (out : list OutRow) :
  get_forecast_dataframe s true = Ok out ->
  exists fc,
    forecast_df s = Some fc /\
    get_forecast_dataframe s false = Ok (map out_row fc) /\
    sublist out (map out_row fc) /\
    length out < length fc.
Proof.
  unfold get_forecast_dataframe.
  destruct (forecast_df s) as [fc|]; [|discriminate].
  intros Hout. exists fc. split; [reflexivity|]. split; [reflexivity|].
  assert (Hcut : exists x, In x fc /\
            out = map out_row (List.filter (λ r, (ds x <? ds r)%Z) fc)).
  { destruct (30 <? length fc).
    - rewrite nth_error_map in Hout.
      destruct (nth_error fc (length fc - 31)) as [x|] eqn:Hx; [|discriminate].
      cbn in Hout. injection Hout as <-.
      exists x. split; [eapply nth_error_In, Hx|reflexivity].
    - destruct fc as [|x fc']; [discriminate|].
      cbn [map iloc_first mbind result_bind] in Hout. injection Hout as <-.
      exists x. split; [left; reflexivity|reflexivity]. }
  destruct Hcut as (x & Hin & ->). split.
  - apply filter_sublist.
  - rewrite length_map. apply (filter_drops _ fc x Hin). apply Z.ltb_irrefl.
Qed.

End EvaluatorExtras.

(** ** Joins *)

Section JoinFacts.
Context {A B C : Type}.

Lemma take_rows_map (f : A -> B) (idx : list nat) (l : list A) :
  take_rows idx (map f l) = map f (take_rows idx l).
Proof.
  unfold take_rows. induction idx as [|i idx IH]; [reflexivity|].
  simpl. rewrite map_app, IH, nth_error_map.
  destruct (nth_error l i); reflexivity.
Qed.

Lemma take_rows_app (i1 i2 : list nat) (l : list A) :
  take_rows (i1 ++ i2) l = take_rows i1 l ++ take_rows i2 l.
Proof. unfold take_rows. apply flat_map_app. Qed.


End JoinFacts.

(** A join on positions, read through the positions, is the join on the
    values at these positions. *)
Lemma merge_inner_positions (ys : list float) (fc : list FRow)
    (tl : list (option Z * nat * float)) :
  (forall k i y, In (k, i, y) tl -> nth_error ys i = Some y) ->
  let on_pos := merge_inner fst ds (map (λ t, (fst (fst t), snd (fst t))) tl) fc in
  let on_val := merge_inner fst ds (map (λ t, (fst (fst t), snd t)) tl) fc in
  take_rows (map (λ p, snd (fst p)) on_pos) ys = map (λ p, snd (fst p)) on_val /\
  map snd on_pos = map snd on_val.
Proof.
  intros Hnth. cbn zeta. unfold merge_inner.
  induction tl as [|[[k i] y] tl IH]; [split; reflexivity|].
  cbn [map flat_map fst snd].
  destruct IH as [IH1 IH2].
  { intros k' i' y' Hin. apply (Hnth k' i' y'). right. exact Hin. }
  rewrite !map_app, take_rows_app, IH1, IH2.
  assert (Hy : nth_error ys i = Some y) by (apply (Hnth k i y); left; reflexivity).
  destruct k as [k|]; [|split; reflexivity].
  split; f_equal.
  - induction (List.filter (λ b, (ds b =? k)%Z) fc) as [|b l IHl]; [reflexivity|].
    cbn [map fst snd]. unfold take_rows in *. cbn [flat_map].
    rewrite Hy, IHl. reflexivity.
  - rewrite !map_map. reflexivity.
Qed.

Lemma combine3_positions {A} (ks : list A) (ys : list float) (off : nat)
    (k : A) (i : nat) (y : float) :
  In (k, i, y) (combine (combine ks (seq off (length ks))) ys) ->
  off <= i /\ nth_error ys (i - off) = Some y.
Proof.
  revert ys off. induction ks as [|x ks IH]; intros ys off; [intros []|].
  destruct ys as [|y0 ys]; [intros []|].
  cbn [length seq combine]. intros [[= <- <- <-]|Hin].
  - split; [lia|]. rewrite Nat.sub_diag. reflexivity.
  - destruct (IH ys (S off) Hin) as [Hle Hn]. split; [lia|].
    replace (i - off) with (S (i - S off)) by lia. exact Hn.
Qed.

Lemma combine3_left {A B C} (a : list A) (b : list B) (c : list C) :
  length a = length b -> length a = length c ->
  map (λ t, (fst (fst t), snd (fst t))) (combine (combine a b) c) = combine a b /\
  map (λ t, (fst (fst t), snd t)) (combine (combine a b) c) = combine a c.
Proof.
  revert b c. induction a as [|x a IH]; intros [|y b] [|z c]; try discriminate;
    [split; reflexivity|].
  intros [= Hb] [= Hc]. cbn [combine map fst snd].
  destruct (IH b c Hb Hc) as [-> ->]. split; reflexivity.
Qed.

Lemma zip_with_float_map {A} (f : float -> float -> float) (g h : A -> float)
    (l : list A) :
  zip_with_float f (map g l) (map h l) = map (λ x, f (g x) (h x)) l.
Proof. induction l as [|x l IH]; [reflexivity|]. simpl. rewrite IH. reflexivity. Qed.

Lemma assoc_filter_rows_idx (idx : list nat) (n : string) (d : Frame) :
  assoc n (filter_rows_idx idx d) = col_take idx <$> assoc n d.
Proof.
  unfold filter_rows_idx. induction d as [|[m c] d IH]; [reflexivity|].
  simpl. destruct (String.eqb n m); [reflexivity|exact IH].
Qed.

Lemma get_float_filter_rows_idx (idx : list nat) (n : string) (d : Frame) (l : list float) :
  get_float d n = Ok l -> get_float (filter_rows_idx idx d) n = Ok (take_rows idx l).
Proof.
  unfold get_float, getcol. rewrite assoc_filter_rows_idx.
  destruct (assoc n d) as [[t|x|z]|]; cbn; try discriminate.
  - intros [= <-]. reflexivity.
  - intros [= <-]. rewrite take_rows_map. reflexivity.
Qed.

Lemma merge_inner_In {A} (key : A -> option Z) (left : list A) (fc : list FRow)
    (a : A) (f : FRow) :
  In (a, f) (merge_inner key ds left fc) <->
  In a left /\ In f fc /\ key a = Some (ds f).
Proof.
  unfold merge_inner. rewrite in_flat_map. split.
  - intros (a' & Ha & Hin). destruct (key a') as [k|] eqn:Hk; [|destruct Hin].
    apply in_map_iff in Hin as (f' & [= <- <-] & Hf).
    apply filter_In in Hf as [Hf Heq]. apply Z.eqb_eq in Heq.
    repeat split; [exact Ha|exact Hf|]. rewrite Hk, Heq. reflexivity.
  - intros (Ha & Hf & Hk). exists a. split; [exact Ha|]. rewrite Hk.
    apply in_map, filter_In. split; [exact Hf|apply Z.eqb_refl].
Qed.

Section AccuracyExtras.
Context `{Pandas}.

(** X14.  The accuracy metrics are taken over the pairs of an actual row
    and a forecast row of the same date: MAE, RMSE and MAPE of their
    differences, and 100 minus the MAPE. *)
Theorem accuracy_over_rows_of_equal_date (s : SalesForecaster) (actual_df : Frame)
    (fc : list FRow) (k : list (option Z)) (y : list float) :
  forecast_df s = Some fc ->
  get_time actual_df "ds" = Ok k -> get_float actual_df "y" = Ok y ->
  length k = length y ->
  let pairs := merge_inner fst ds (combine k y) fc in
  let err := map (λ p, PrimFloat.sub (snd (fst p)) (yhat (snd p))) pairs in
  let mape :=
    PrimFloat.mul
      (mean (map (λ p, PrimFloat.abs
                         (PrimFloat.div (PrimFloat.sub (snd (fst p)) (yhat (snd p)))
                            (snd (fst p)))) pairs)) 100 in
  (forall a f, In (a, f) pairs <-> In a (combine k y) /\ In f fc /\ fst a = Some (ds f)) /\
  exists accuracy,
    calculate_accuracy s actual_df = Ok accuracy /\
    accuracy !! "mae" = Some (mean (map PrimFloat.abs err)) /\
    accuracy !! "rmse" = Some (PrimFloat.sqrt (mean (map (λ e, PrimFloat.mul e e) err))) /\
    accuracy !! "mape" = Some mape /\
    accuracy !! "accuracy_percent" = Some (PrimFloat.sub 100 mape).
Proof.
  intros Hfc Hk Hy Hlen pairs err mape. split.
  { intros a f. apply merge_inner_In. }
  unfold calculate_accuracy. rewrite Hfc, Hk. cbn [mbind result_bind].
  rewrite (get_float_filter_rows_idx _ _ _ _ Hy). cbn [mbind result_bind].
  set (tl := combine (combine k (seq 0 (length k))) y).
  destruct (combine3_left k (seq 0 (length k)) y) as [Hpos Hval];
    [rewrite length_seq; reflexivity|exact Hlen|].
  fold tl in Hpos, Hval.
  destruct (merge_inner_positions y fc tl) as [Hys Hfs].
  { intros k0 i y0 Hin. apply combine3_positions in Hin as [_ Hn].
    rewrite Nat.sub_0_r in Hn. exact Hn. }
  cbn zeta in Hys, Hfs. rewrite Hpos, Hval in Hys, Hfs. fold pairs in Hys, Hfs.
  rewrite Hys.
  replace (map (λ p : option Z * nat * FRow, yhat (snd p))
             (merge_inner fst ds (combine k (seq 0 (length k))) fc))
    with (map (λ p : option Z * float * FRow, yhat (snd p)) pairs).
  2:{ transitivity (map yhat (map snd pairs)); [symmetry; apply List.map_map|].
      rewrite <- Hfs. apply List.map_map. }
  rewrite zip_with_float_map. fold err.
  replace (zip_with_float PrimFloat.div err (map (λ p, snd (fst p)) pairs))
    with (map (λ p : option Z * float * FRow,
                 PrimFloat.div (PrimFloat.sub (snd (fst p)) (yhat (snd p))) (snd (fst p)))
              pairs).
  2:{ unfold err. rewrite zip_with_float_map. reflexivity. }
  rewrite map_map. fold mape.
  eexists. split; [reflexivity|].
  repeat split; simplify_map_eq; reflexivity.
Qed.

End AccuracyExtras.

Section QuickExtras.
Context `{Pandas} `{ProphetLib}.

(** The future-only cut of a table of ascending dates. *)
Lemma future_only_on_ascending_dates (s : SalesForecaster) (fc : list FRow)
    (out : list OutRow) :
  forecast_df s = Some fc -> dates_increasing fc = true ->
  get_forecast_dataframe s true = Ok out ->
  out = map out_row (if 30 <? length fc then skipn (length fc - 30) fc else skipn 1 fc).
Proof.
  intros Hfc Hinc. apply dates_increasing_sorted in Hinc.
  unfold get_forecast_dataframe. rewrite Hfc.
  destruct (30 <? length fc) eqn:Hlen.
  - rewrite nth_error_map.
    destruct (nth_error fc (length fc - 31)) as [x|] eqn:Hx; [|intros Hx'; discriminate Hx'].
    cbn [option_map mbind result_bind].
    rewrite (filter_after_position fc _ x Hinc Hx).
    apply Nat.ltb_lt in Hlen.
    replace (S (length fc - 31)) with (length fc - 30) by lia.
    intros [= <-]. reflexivity.
  - destruct fc as [|x fc']; [intros Hx'; discriminate Hx'|].
    cbn [map iloc_first mbind result_bind].
    rewrite (filter_after_position (x :: fc') 0 x Hinc eq_refl).
    intros [= <-]. reflexivity.
Qed.

(** X15.  A [quick_forecast] that returns gives the summary of the
    forecast it has stored and the future-only table of that forecast; on
    a forecast of ascending dates these are, whatever horizon was asked
    for, its last 30 rows (all rows but the first of a forecast of up to
    30), each with its date, prediction, bounds and trend. *)
Theorem quick_forecast_returns_30_rows (df : RawFrame) (date_col value_col : string)
    (periods : Z) (w : World) :
  is_ok (fst (quick_forecast df date_col value_col periods w)) = true ->
  let w' := snd (quick_forecast df date_col value_col periods w) in
  exists p fc out summary,
    prepare_data df date_col value_col true true = Ok p /\
    fst (quick_forecast df date_col value_col periods w) = Ok (out, summary) /\
    forecast_df (self w') = Some fc /\
    get_forecast_summary (self w') = Ok summary /\
    get_forecast_dataframe (self w') true = Ok out /\
    (dates_increasing fc = true ->
       out = map (λ r, {| date := ds r; predicted := yhat r;
                          lower_bound := yhat_lower r; upper_bound := yhat_upper r;
                          out_trend := trend r |})
               (if 30 <? length fc then skipn (length fc - 30) fc else skipn 1 fc)) /\
    (dates_increasing fc = true -> 30 < length fc -> length out = 30).
Proof.
  intros Hok w'. unfold w'. clear w'.
  destruct (quick_forecast df date_col value_col periods w) as [[[out summary]|e] w1] eqn:Hrun;
    [|discriminate Hok].
  unfold quick_forecast in Hrun.
  erewrite bind_ok in Hrun by reflexivity.
  apply bind_inv in Hrun as (p & w2 & Hp & Hrun). apply lift_inv in Hp as [Hp ->].
  erewrite bind_ok in Hrun by reflexivity.
  apply bind_inv in Hrun as ([] & w2 & Htrain & Hrun).
  apply bind_inv in Hrun as (fc & w3 & Hpred & Hrun).
  apply predict_inv in Hpred as (m & f0 & future & _ & _ & _ & _ & _ & _ & Hw3).
  apply bind_inv in Hrun as (s & w4 & Hs & Hrun). injection Hs as <- <-.
  apply bind_inv in Hrun as (o & w4 & Hout & Hrun). apply lift_inv in Hout as [Hout ->].
  apply bind_inv in Hrun as (s & w4 & Hs & Hrun). injection Hs as <- <-.
  apply bind_inv in Hrun as (sm & w4 & Hsum & Hrun). apply lift_inv in Hsum as [Hsum ->].
  injection Hrun as <- <- <-.
  assert (Hfc : forecast_df (self w3) = Some fc) by (rewrite Hw3; reflexivity).
  exists p, fc, o, sm. cbn [fst snd].
  split; [exact Hp|]. split; [reflexivity|]. split; [exact Hfc|]. split; [exact Hsum|].
  split; [exact Hout|]. split.
  - intros Hinc. apply (future_only_on_ascending_dates (self w3)); assumption.
  - intros Hinc Hlen.
    rewrite (future_only_on_ascending_dates (self w3) fc o Hfc Hinc Hout).
    apply Nat.ltb_lt in Hlen as Hb. rewrite Hb, length_map, length_skipn. lia.
Qed.

End QuickExtras.


(** ** The orchestrators: errors, held-out days, cuts *)

Section OrchestratorExtras.
Context `{Pandas} `{ProphetLib} `{Database}.

Lemma query_fails (q : Query) (e : Exn) (w : World) :
  fetchall q = Raise e -> query q w = (Raise e, asked q w).
Proof.
  intros Hq. unfold query. erewrite bind_ok by reflexivity.
  unfold lift. rewrite Hq. reflexivity.
Qed.

Lemma bind_raise {A B} (m : M A) (k : A -> M B) (w w1 : World) (e : Exn) :
  m w = (Raise e, w1) -> (m ≫= k) w = (Raise e, w1).
Proof. intros Hm. unfold mbind, M_bind. rewrite Hm. reflexivity. Qed.

(** X16.  An error of the database comes out of every orchestrator as it
    is, after the query and nothing else: no forecaster is made, nothing is
    fitted. *)
Theorem database_errors_propagate (q : Query) (e : Exn) (w : World) :
  fetchall q = Raise e ->
  (forall value_col periods freq,
     slice_forecast q value_col periods freq w = (Raise e, asked q w)) /\
  (forall product_code periods freq, q = QProduct product_code ->
     get_product_forecast product_code periods freq w = (Raise e, asked q w)) /\
  (forall country periods freq, q = QCountry country ->
     get_country_forecast country periods freq w = (Raise e, asked q w)) /\
  (forall start_date end_date, q = QDailyRevenue start_date end_date ->
     get_daily_revenue start_date end_date w = (Raise e, asked q w)) /\
  (q = QDailyRevenue None None ->
   (forall periods freq include_history seasonality_mode use_ensemble,
      get_revenue_forecast periods freq include_history seasonality_mode use_ensemble w =
        (Raise e, asked q w)) /\
   (forall use_ensemble, get_forecast_comparison use_ensemble w = (Raise e, asked q w))).
Proof.
  intros Hq.
  assert (Hslice : forall value_col periods freq,
            slice_forecast q value_col periods freq w = (Raise e, asked q w)).
  { intros. unfold slice_forecast. apply bind_raise, query_fails, Hq. }
  assert (Hdaily : forall start_date end_date, q = QDailyRevenue start_date end_date ->
            get_daily_revenue start_date end_date w = (Raise e, asked q w)).
  { intros sd ed ->. unfold get_daily_revenue. apply bind_raise, query_fails, Hq. }
  split; [exact Hslice|].
  split; [intros ? ? ? ->; apply Hslice|].
  split; [intros ? ? ? ->; apply Hslice|].
  split; [exact Hdaily|].
  intros Hd. split.
  - intros. unfold get_revenue_forecast. apply bind_raise, Hdaily, Hd.
  - intros. unfold get_forecast_comparison. apply bind_raise, Hdaily, Hd.
Qed.

(** X17.  On fewer than 60 days of revenue the comparison is empty, and
    only the query was done. *)
Theorem comparison_needs_60_days (use_ensemble : bool) (rows : list (list Obj)) (w : World) :
  fetchall (QDailyRevenue None None) = Ok rows -> length rows < 60 ->
  get_forecast_comparison use_ensemble w = (Ok [], asked (QDailyRevenue None None) w).
Proof.
  intros Hq Hlen. unfold get_forecast_comparison, get_daily_revenue.
  rewrite bind_assoc. erewrite bind_ok by (apply query_step, Hq).
  erewrite bind_ok by reflexivity.
  unfold raw_len. cbn [data].
  apply Nat.ltb_lt in Hlen. rewrite Hlen. reflexivity.
Qed.

(** X18.  From 60 days on, the first call of the comparison after the
    query is the fit of its tuned model on the frame made of all days but
    the last 30. *)
Theorem comparison_holds_out_the_last_30_days (use_ensemble : bool)
    (rows : list (list Obj)) (p : Frame) (w : World) :
  fetchall (QDailyRevenue None None) = Ok rows -> 60 <= length rows ->
  prepare_data {| columns := ["date"; "revenue"];
                  data := firstn (length rows - 30) rows |}
    "date" "revenue" false false = Ok p ->
  exists rest,
    calls (snd (get_forecast_comparison use_ensemble w)) =
      (calls w ++ [EvQuery (QDailyRevenue None None);
                   EvFit (configured "multiplicative" 0.30 5.0 "UK") p]) ++ rest.
Proof.
  intros Hq Hlen Hp.
  unfold get_forecast_comparison, get_daily_revenue.
  rewrite bind_assoc. erewrite bind_ok by (apply query_step, Hq).
  erewrite bind_ok by reflexivity.
  unfold raw_len. cbn [data].
  replace (length rows <? 60) with false by (symmetry; apply Nat.ltb_ge; lia).
  replace (negb (if use_ensemble then false else use_ensemble)) with true
    by (destruct use_ensemble; reflexivity).
  rewrite bind_assoc. erewrite bind_ok by reflexivity.
  unfold raw_iloc_to at 1. cbn [columns data].
  rewrite bind_assoc. erewrite bind_ok by (unfold lift; rewrite Hp; reflexivity).
  rewrite bind_assoc. erewrite bind_ok by reflexivity.
  rewrite bind_assoc.
  match goal with
  | |- exists rest, calls (snd ((train ?l _ _ _ _ ≫= ?k) ?w1)) = _ =>
      assert (Hh : holds l p w1)
        by (unfold holds; cbn [store]; apply list_lookup_middle; reflexivity);
      unfold mbind at 1; unfold M_bind at 1;
      rewrite (train_without_flags l "multiplicative" 0.30 5.0 "UK" w1 p Hh
                 (prepare_data_plain _ _ _ _ Hp))
  end.
  cbn [with_model self store calls asked].
  destruct (prophet_fit (configured "multiplicative" 0.30 5.0 "UK") p) as [[]|e].
  - match goal with
    | |- exists rest, calls (snd (?k ?w2)) = ?pre ++ rest =>
        assert (Hk : inv (calls_from pre) k); [|apply Hk]
    end.
    + repeat first
        [ apply predict_steps_inv; [apply emit_extends|intros ? ? ?; assumption]
        | inv_step ].
    + exists []. cbn [calls]. rewrite <- app_assoc, app_nil_r. reflexivity.
  - exists []. cbn [snd calls]. rewrite <- app_assoc, app_nil_r. reflexivity.
Qed.

End OrchestratorExtras.

Lemma time_max_upper (t : list (option Z)) (m d : Z) :
  time_max t = Some m -> In (Some d) t -> (d <= m)%Z.
Proof.
  revert m. induction t as [|x t IH]; intros m Hm Hin; [destruct Hin|].
  simpl in Hm. destruct Hin as [->|Hin].
  - destruct (time_max t) as [b|]; injection Hm as <-; lia.
  - destruct x as [a|].
    + destruct (time_max t) as [b|] eqn:Hb.
      * injection Hm as <-. specialize (IH b eq_refl Hin). lia.
      * exfalso. clear -Hb Hin. induction t as [|y t IH]; [destruct Hin|].
        simpl in Hb. destruct Hin as [->|Hin].
        -- destruct (time_max t); discriminate.
        -- destruct y; [destruct (time_max t); discriminate|]. apply IH; assumption.
    + apply IH; assumption.
Qed.

Lemma after_In (last_date : option Z) (fc : list FRow) (r : FRow) :
  In r (after last_date fc) <->
  In r fc /\ exists m, last_date = Some m /\ (m < ds r)%Z.
Proof.
  unfold after. rewrite filter_In. split.
  - intros [Hin Hm]. split; [exact Hin|].
    destruct last_date as [m|]; [|discriminate].
    exists m. split; [reflexivity|]. apply Z.ltb_lt, Hm.
  - intros [Hin (m & -> & Hm)]. split; [exact Hin|]. apply Z.ltb_lt, Hm.
Qed.

Section HistoryFacts.
Context `{Pandas} `{ProphetLib}.

(** Whatever [train] does to the frame it is given, the dates stay. *)
Lemma train_keeps_dates (df : loc) mode cps sps hol (w : World) (d : Frame)
    (t : list (option Z)) :
  holds df d w -> get_time d "ds" = Ok t ->
  exists d', holds df d' (snd (train df mode cps sps hol w)) /\ get_time d' "ds" = Ok t.
Proof.
  intros Hw Ht. destruct (has_col "is_spike" d) eqn:Hcol.
  - exists (setcol "dow" (dt_dayofweek t) d). split.
    + apply train_adds_dow; assumption.
    + rewrite get_time_setcol_other by reflexivity. exact Ht.
  - exists d. split; [|exact Ht].
    rewrite (train_without_flags df mode cps sps hol w d Hw Hcol).
    destruct (prophet_fit _ d) as [[]|e]; exact Hw.
Qed.

Lemma predict_keeps_frames (l : loc) (d : Frame) periods freq :
  inv (holds l d) (predict periods freq).
Proof. apply predict_steps_inv; intros ? ? ?; assumption. Qed.

Lemma last_date_of_frame (l : loc) (d : Frame) (t : list (option Z)) (w : World) :
  holds l d w -> get_time d "ds" = Ok t ->
  last_date_of l w = (Ok (time_max t), w).
Proof.
  intros Hw Ht. unfold last_date_of.
  erewrite bind_ok by (unfold load; unfold holds in Hw; rewrite Hw; reflexivity).
  erewrite bind_ok by (unfold lift; rewrite Ht; reflexivity).
  reflexivity.
Qed.

End HistoryFacts.

Section SliceExtras.
Context `{Pandas} `{ProphetLib} `{Database}.

(** X20.  From 30 rows on, a product or country forecast that returns gives
    the summary of the whole forecast and the rows of the forecast dated
    after every date of the frame it was trained on. *)
Theorem slice_forecast_rows_follow_the_history (q : Query) (value_col : string)
    (periods : Z) (freq : string) (w : World) (rows : list (list Obj)) (p : Frame)
    (t : list (option Z)) :
  fetchall q = Ok rows -> 30 <= length rows ->
  prepare_data {| columns := ["date"; value_col]; data := rows |}
    "date" value_col true true = Ok p ->
  get_time p "ds" = Ok t ->
  is_ok (fst (slice_forecast q value_col periods freq w)) = true ->
  exists fc summary all,
    fst (slice_forecast q value_col periods freq w) = Ok (fc, summary) /\
    forecast_df (self (snd (slice_forecast q value_col periods freq w))) = Some all /\
    get_forecast_summary (self (snd (slice_forecast q value_col periods freq w)))
      = Ok summary /\
    fc = after (time_max t) all /\
    (forall r d, In r fc -> In (Some d) t -> (d < ds r)%Z).
Proof.
  intros Hq Hlen Hp Ht.
  destruct (slice_forecast q value_col periods freq w) as [[[fc summary]|e] w'] eqn:Hrun;
    [intros _|intros Hx; discriminate Hx].
  unfold slice_forecast in Hrun.
  erewrite bind_ok in Hrun by (apply query_step, Hq).
  unfold raw_len in Hrun. cbn [data] in Hrun.
  replace (length rows <? 30) with false in Hrun by (symmetry; apply Nat.ltb_ge; lia).
  erewrite bind_ok in Hrun by reflexivity.
  erewrite bind_ok in Hrun by (unfold lift; rewrite Hp; reflexivity).
  erewrite bind_ok in Hrun by reflexivity.
  apply bind_inv in Hrun as ([] & w1 & Htrain & Hrun).
  match type of Htrain with
  | train ?l _ _ _ _ ?w0 = _ =>
      assert (Hh : holds l p w0)
        by (unfold holds; cbn [store]; apply list_lookup_middle; reflexivity);
      destruct (train_keeps_dates l "multiplicative" 0.08 8.0 "UK" w0 p t Hh Ht)
        as (p' & Hh' & Ht')
  end.
  rewrite Htrain in Hh'. cbn [snd] in Hh'.
  apply bind_inv in Hrun as (all & w2 & Hpred & Hrun).
  pose proof (predict_keeps_frames _ p' periods freq w1 Hh') as Hh''.
  rewrite Hpred in Hh''. cbn [snd] in Hh''.
  apply predict_inv in Hpred as (m & f0 & future & _ & _ & _ & _ & _ & _ & Hw2).
  apply bind_inv in Hrun as (s & w3 & Hs & Hrun). injection Hs as <- <-.
  apply bind_inv in Hrun as (sm & w3 & Hsum & Hrun). apply lift_inv in Hsum as [Hsum ->].
  erewrite bind_ok in Hrun by (apply (last_date_of_frame _ p' t); assumption).
  injection Hrun as <- <- <-.
  exists (after (time_max t) all), sm, all.
  cbn [fst snd]. split; [reflexivity|].
  split; [rewrite Hw2; reflexivity|]. split; [exact Hsum|]. split; [reflexivity|].
  intros r d Hr Hd. apply after_In in Hr as [_ (mx & Hmx & Hlt)].
  pose proof (time_max_upper t mx d Hmx Hd). lia.
Qed.

End SliceExtras.

Section RevenueExtras.
Context `{Pandas} `{ProphetLib} `{Database}.

(** What a revenue forecast that returned has done. *)
Lemma revenue_forecast_inv (periods : Z) (freq : string) (include_history : bool)
    (seasonality_mode : string) (use_ensemble : bool) (w w' : World)
    (rows : list (list Obj)) (p : Frame) (t : list (option Z))
    (v : option (list FRow * Summary)) :
  fetchall (QDailyRevenue None None) = Ok rows ->
  prepare_data {| columns := ["date"; "revenue"]; data := rows |}
    "date" "revenue" false false = Ok p ->
  get_time p "ds" = Ok t ->
  get_revenue_forecast periods freq include_history seasonality_mode use_ensemble w
    = (Ok v, w') ->
  exists w1 fc summary accuracy,
    train (length (store w)) "additive" 0.18 12.0 "UK"
      {| self := init; store := store w ++ [p];
         calls := calls w ++ [EvQuery (QDailyRevenue None None)] |} = (Ok (), w1) /\
    predict periods freq w1 = (Ok fc, w') /\
    get_forecast_summary (self w') = Ok summary /\
    calculate_accuracy (self w') p = Ok accuracy /\
    v = Some (if include_history then fc else after (time_max t) fc,
              <["accuracy_metrics" := SDict accuracy]> summary).
Proof.
  intros Hq Hp Ht Hrun.
  unfold get_revenue_forecast, get_daily_revenue in Hrun.
  rewrite bind_assoc in Hrun. erewrite bind_ok in Hrun by (apply query_step, Hq).
  erewrite bind_ok in Hrun by reflexivity.
  replace (negb (if use_ensemble then false else use_ensemble)) with true in Hrun
    by (destruct use_ensemble; reflexivity).
  erewrite bind_ok in Hrun by reflexivity.
  erewrite bind_ok in Hrun by (unfold lift; rewrite Hp; reflexivity).
  erewrite bind_ok in Hrun by reflexivity.
  cbn [snd fst new_forecaster put_self alloc asked self store calls] in Hrun.
  apply bind_inv in Hrun as ([] & w1 & Htrain & Hrun).
  assert (Hh : holds (length (store w)) p (snd (train (length (store w)) "additive" 0.18 12.0 "UK"
      {| self := init; store := store w ++ [p];
         calls := calls w ++ [EvQuery (QDailyRevenue None None)] |}))).
  { erewrite train_without_flags;
      [|unfold holds; cbn [store]; apply list_lookup_middle; reflexivity
       |apply (prepare_data_plain _ _ _ _ Hp)].
    destruct (prophet_fit _ p) as [[]|e]; unfold holds; cbn [snd store];
      apply list_lookup_middle; reflexivity. }
  rewrite Htrain in Hh. cbn [snd] in Hh.
  apply bind_inv in Hrun as (fc & w2 & Hpred & Hrun).
  pose proof (predict_keeps_frames _ p periods freq w1 Hh) as Hh2.
  rewrite Hpred in Hh2. cbn [snd] in Hh2.
  apply bind_inv in Hrun as (s & w3 & Hs & Hrun). injection Hs as <- <-.
  apply bind_inv in Hrun as (sm & w3 & Hsum & Hrun). apply lift_inv in Hsum as [Hsum ->].
  erewrite bind_ok in Hrun by (unfold load; unfold holds in Hh2; rewrite Hh2; reflexivity).
  apply bind_inv in Hrun as (s & w3 & Hs & Hrun). injection Hs as <- <-.
  apply bind_inv in Hrun as (acc & w3 & Hacc & Hrun). apply lift_inv in Hacc as [Hacc ->].
  exists w1, fc, sm, acc.
  destruct include_history; cbn [negb] in Hrun.
  - injection Hrun as <- <-. repeat split; assumption.
  - rewrite bind_assoc in Hrun.
    erewrite bind_ok in Hrun by (apply (last_date_of_frame _ p t); assumption).
    injection Hrun as <- <-. repeat split; assumption.
Qed.

(** The converse: the steps that make a revenue forecast return. *)
Lemma revenue_forecast_run (periods : Z) (freq : string) (include_history : bool)
    (seasonality_mode : string) (use_ensemble : bool) (w w1 w' : World)
    (rows : list (list Obj)) (p : Frame) (t : list (option Z))
    (fc : list FRow) (summary : Summary) (accuracy : gmap string float) :
  fetchall (QDailyRevenue None None) = Ok rows ->
  prepare_data {| columns := ["date"; "revenue"]; data := rows |}
    "date" "revenue" false false = Ok p ->
  get_time p "ds" = Ok t ->
  train (length (store w)) "additive" 0.18 12.0 "UK"
    {| self := init; store := store w ++ [p];
       calls := calls w ++ [EvQuery (QDailyRevenue None None)] |} = (Ok (), w1) ->
  predict periods freq w1 = (Ok fc, w') ->
  get_forecast_summary (self w') = Ok summary ->
  calculate_accuracy (self w') p = Ok accuracy ->
  get_revenue_forecast periods freq include_history seasonality_mode use_ensemble w
    = (Ok (Some (if include_history then fc else after (time_max t) fc,
                 <["accuracy_metrics" := SDict accuracy]> summary)), w').
Proof.
  intros Hq Hp Ht Htrain Hpred Hsum Hacc.
  unfold get_revenue_forecast, get_daily_revenue.
  rewrite bind_assoc. erewrite bind_ok by (apply query_step, Hq).
  erewrite bind_ok by reflexivity.
  replace (negb (if use_ensemble then false else use_ensemble)) with true
    by (destruct use_ensemble; reflexivity).
  erewrite bind_ok by reflexivity.
  erewrite bind_ok by (unfold lift; rewrite Hp; reflexivity).
  erewrite bind_ok by reflexivity.
  cbn [snd fst new_forecaster put_self alloc asked self store calls].
  assert (Hh : holds (length (store w)) p (snd (train (length (store w)) "additive" 0.18 12.0 "UK"
      {| self := init; store := store w ++ [p];
         calls := calls w ++ [EvQuery (QDailyRevenue None None)] |}))).
  { erewrite train_without_flags;
      [|unfold holds; cbn [store]; apply list_lookup_middle; reflexivity
       |apply (prepare_data_plain _ _ _ _ Hp)].
    destruct (prophet_fit _ p) as [[]|e]; unfold holds; cbn [snd store];
      apply list_lookup_middle; reflexivity. }
  rewrite Htrain in Hh. cbn [snd] in Hh.
  pose proof (predict_keeps_frames _ p periods freq w1 Hh) as Hh2.
  rewrite Hpred in Hh2. cbn [snd] in Hh2.
  erewrite bind_ok by exact Htrain.
  erewrite bind_ok by exact Hpred.
  erewrite bind_ok by reflexivity.
  erewrite bind_ok by (unfold lift; rewrite Hsum; reflexivity).
  erewrite bind_ok by (unfold load; unfold holds in Hh2; rewrite Hh2; reflexivity).
  erewrite bind_ok by reflexivity.
  erewrite bind_ok by (unfold lift; rewrite Hacc; reflexivity).
  destruct include_history; cbn [negb].
  - reflexivity.
  - rewrite bind_assoc.
    erewrite bind_ok by (apply (last_date_of_frame _ p t); assumption).
    reflexivity.
Qed.

(** X21.  Without the history, the revenue forecast is the forecast with
    the history, cut after the last date of the frame trained on; the
    summary and the world left behind are the same. *)
Theorem revenue_future_only_cuts_the_full_forecast (periods : Z) (freq : string)
    (seasonality_mode : string) (use_ensemble : bool) (w : World)
    (rows : list (list Obj)) (p : Frame) (t : list (option Z)) :
  fetchall (QDailyRevenue None None) = Ok rows ->
  prepare_data {| columns := ["date"; "revenue"]; data := rows |}
    "date" "revenue" false false = Ok p ->
  get_time p "ds" = Ok t ->
  let full := get_revenue_forecast periods freq true seasonality_mode use_ensemble w in
  let future := get_revenue_forecast periods freq false seasonality_mode use_ensemble w in
  is_ok (fst full) = true ->
  exists fc summary,
    fst full = Ok (Some (fc, summary)) /\
    fst future = Ok (Some (after (time_max t) fc, summary)) /\
    snd future = snd full /\
    forecast_df (self (snd full)) = Some fc /\
    (forall r d, In r (after (time_max t) fc) -> In (Some d) t -> (d < ds r)%Z).
Proof.
  intros Hq Hp Ht full future. unfold full, future.
  destruct (get_revenue_forecast periods freq true seasonality_mode use_ensemble w)
    as [[v|e] w'] eqn:Hrun; [intros _|intros Hx; discriminate Hx].
  destruct (revenue_forecast_inv _ _ _ _ _ _ _ rows p t v Hq Hp Ht Hrun)
    as (w1 & fc & summary & accuracy & Htrain & Hpred & Hsum & Hacc & ->).
  rewrite (revenue_forecast_run periods freq false seasonality_mode use_ensemble
             w w1 w' rows p t fc summary accuracy Hq Hp Ht Htrain Hpred Hsum Hacc).
  eexists _, _. cbn [fst snd]. split; [reflexivity|]. split; [reflexivity|].
  split; [reflexivity|]. split.
  - apply predict_inv in Hpred as (m & f0 & fut & _ & _ & _ & _ & _ & _ & ->). reflexivity.
  - intros r d Hr Hd. apply after_In in Hr as [_ (mx & Hmx & Hlt)].
    pose proof (time_max_upper t mx d Hmx Hd). lia.
Qed.

(** X22.  The accuracy metrics in the summary of a revenue forecast are
    those of the forecast against the frame the model was trained on. *)
Theorem revenue_accuracy_is_in_sample (periods : Z) (freq : string)
    (include_history : bool) (seasonality_mode : string) (use_ensemble : bool)
    (w : World) (rows : list (list Obj)) (p : Frame) (t : list (option Z)) :
  fetchall (QDailyRevenue None None) = Ok rows ->
  prepare_data {| columns := ["date"; "revenue"]; data := rows |}
    "date" "revenue" false false = Ok p ->
  get_time p "ds" = Ok t ->
  let r := get_revenue_forecast periods freq include_history seasonality_mode
             use_ensemble w in
  is_ok (fst r) = true ->
  exists fc summary accuracy,
    fst r = Ok (Some (fc, <["accuracy_metrics" := SDict accuracy]> summary)) /\
    get_forecast_summary (self (snd r)) = Ok summary /\
    calculate_accuracy (self (snd r)) p = Ok accuracy /\
    In (EvFit (configured "additive" 0.18 12.0 "UK") p) (calls (snd r)) /\
    store (snd r) = store w ++ [p].
Proof.
  intros Hq Hp Ht r. unfold r.
  destruct (get_revenue_forecast periods freq include_history seasonality_mode
              use_ensemble w) as [[v|e] w'] eqn:Hrun; [intros _|intros Hx; discriminate Hx].
  destruct (revenue_forecast_inv _ _ _ _ _ _ _ rows p t v Hq Hp Ht Hrun)
    as (w1 & fc & summary & accuracy & Htrain & Hpred & Hsum & Hacc & ->).
  eexists _, summary, accuracy. cbn [fst snd].
  split; [reflexivity|]. split; [exact Hsum|]. split; [exact Hacc|].
  apply predict_inv in Hpred as (m & f0 & fut & _ & _ & _ & _ & _ & _ & ->).
  cbn [store calls].
  erewrite train_without_flags in Htrain;
    [|unfold holds; cbn [store]; apply list_lookup_middle; reflexivity
     |apply (prepare_data_plain _ _ _ _ Hp)].
  destruct (prophet_fit _ p) as [[]|e]; [|discriminate Htrain].
  injection Htrain as <-. cbn [store calls]. split; [|reflexivity].
  apply in_or_app. left. apply in_or_app. right. left. reflexivity.
Qed.

End RevenueExtras.

Section ConversionFacts.
Context `{Pandas}.

Lemma to_datetime_each (l : list Obj) (ts : list (option Z)) :
  to_datetime l = Ok ts -> Forall2 (λ o t, datetime_of_obj o = Ok t) l ts.
Proof.
  revert ts. induction l as [|o l IH]; intros ts; simpl.
  - intros [= <-]. constructor.
  - destruct (datetime_of_obj o) as [t|] eqn:Ho; [|intros Hx; discriminate Hx].
    cbn [mbind result_bind].
    destruct (to_datetime l) as [ts'|]; [|intros Hx; discriminate Hx].
    cbn [mbind result_bind]. intros [= <-]. constructor; [exact Ho|apply IH; reflexivity].
Qed.

Lemma astype_float_each (l : list Obj) (xs : list float) :
  astype_float l = Ok xs -> Forall2 (λ o x, float_of_obj o = Ok x) l xs.
Proof.
  revert xs. induction l as [|o l IH]; intros xs; simpl.
  - intros [= <-]. constructor.
  - destruct (float_of_obj o) as [x|] eqn:Ho; [|intros Hx; discriminate Hx].
    cbn [mbind result_bind].
    destruct (astype_float l) as [xs'|]; [|intros Hx; discriminate Hx].
    cbn [mbind result_bind]. intros [= <-]. constructor; [exact Ho|apply IH; reflexivity].
Qed.

End ConversionFacts.

(** A row of two columns zipped, the first through a conversion. *)
Lemma In_combine_converted {A B C D} (R : B -> C -> Prop) (f : A -> B) (g : A -> D)
    (l : list A) (cs : list C) (c : C) (d : D) :
  Forall2 R (map f l) cs -> In (c, d) (combine cs (map g l)) ->
  exists a, In a l /\ R (f a) c /\ d = g a.
Proof.
  revert cs. induction l as [|a l IH]; intros cs Hall Hin.
  - destruct cs; destruct Hin.
  - inversion Hall as [|? c0 ? cs' Hr Hrest]; subst. simpl in Hin.
    destruct Hin as [[= <- <-]|Hin].
    + exists a. split; [left; reflexivity|]. split; [exact Hr|reflexivity].
    + destruct (IH cs' Hrest Hin) as (a' & Ha & Hra & Hd).
      exists a'. split; [right; exact Ha|]. split; assumption.
Qed.

(** A row of three columns zipped, the middle one through a conversion. *)
Lemma In_combine3_converted {A B C D E} (R : B -> C -> Prop) (f : A -> D) (h : A -> B)
    (g : A -> E) (l : list A) (cs : list C) (d : D) (c : C) (e : E) :
  Forall2 R (map h l) cs ->
  In (d, c, e) (combine (combine (map f l) cs) (map g l)) ->
  exists a, In a l /\ d = f a /\ R (h a) c /\ e = g a.
Proof.
  revert cs. induction l as [|a l IH]; intros cs Hall Hin.
  - destruct Hin.
  - inversion Hall as [|? c0 ? cs' Hr Hrest]; subst. simpl in Hin.
    destruct Hin as [[= <- <- <-]|Hin].
    + exists a. split; [left; reflexivity|]. repeat split. exact Hr.
    + destruct (IH cs' Hrest Hin) as (a' & Ha & Hd & Hra & He).
      exists a'. split; [right; exact Ha|]. repeat split; assumption.
Qed.

Section ComparisonExtras.
Context `{Pandas} `{ProphetLib} `{Database}.

(** X19.  Each row of the comparison pairs one of the last 30 days of
    revenue with the forecast row of the same date, a date after all dates
    trained on; its difference is actual minus predicted, its percentage
    the difference over the actual value, times 100. *)
Theorem comparison_pairs_held_out_days_with_forecasts (use_ensemble : bool) (w : World)
    (rows : list (list Obj)) (p : Frame) (t : list (option Z)) :
  fetchall (QDailyRevenue None None) = Ok rows -> 60 <= length rows ->
  prepare_data {| columns := ["date"; "revenue"];
                  data := firstn (length rows - 30) rows |}
    "date" "revenue" false false = Ok p ->
  get_time p "ds" = Ok t ->
  is_ok (fst (get_forecast_comparison use_ensemble w)) = true ->
  exists out fc,
    fst (get_forecast_comparison use_ensemble w) = Ok out /\
    forecast_df (self (snd (get_forecast_comparison use_ensemble w))) = Some fc /\
    forall r, In r out ->
      exists row f,
        In row (skipn (length rows - 30) rows) /\ In f fc /\
        datetime_of_obj (nth 0 row ONone) = Ok (Some (ds f)) /\
        float_of_obj (nth 1 row ONone) = Ok (actual_revenue r) /\
        cmp_date r = ds f /\ predicted_revenue r = yhat f /\
        (forall d, In (Some d) t -> (d < ds f)%Z) /\
        difference r = PrimFloat.sub (actual_revenue r) (predicted_revenue r) /\
        difference_pct r =
          PrimFloat.mul (PrimFloat.div (difference r) (actual_revenue r)) 100.
Proof.
  intros Hq Hlen Hp Ht.
  destruct (get_forecast_comparison use_ensemble w) as [[out|e] w'] eqn:Hrun;
    [intros _|intros Hx; discriminate Hx].
  unfold get_forecast_comparison, get_daily_revenue in Hrun.
  rewrite bind_assoc in Hrun. erewrite bind_ok in Hrun by (apply query_step, Hq).
  erewrite bind_ok in Hrun by reflexivity.
  unfold raw_len in Hrun. cbn [data] in Hrun.
  replace (length rows <? 60) with false in Hrun by (symmetry; apply Nat.ltb_ge; lia).
  replace (negb (if use_ensemble then false else use_ensemble)) with true in Hrun
    by (destruct use_ensemble; reflexivity).
  rewrite bind_assoc in Hrun. erewrite bind_ok in Hrun by reflexivity.
  unfold raw_iloc_to in Hrun at 1. cbn [columns data] in Hrun.
  rewrite bind_assoc in Hrun.
  erewrite bind_ok in Hrun by (unfold lift; rewrite Hp; reflexivity).
  rewrite bind_assoc in Hrun. erewrite bind_ok in Hrun by reflexivity.
  rewrite bind_assoc in Hrun.
  apply bind_inv in Hrun as ([] & w1 & Htrain & Hrun).
  match type of Htrain with
  | train ?l _ _ _ _ ?w0 = _ =>
      assert (Hh : holds l p w0)
        by (unfold holds; cbn [store]; apply list_lookup_middle; reflexivity);
      destruct (train_keeps_dates l "multiplicative" 0.30 5.0 "UK" w0 p t Hh Ht)
        as (p' & Hh' & Ht')
  end.
  rewrite Htrain in Hh'. cbn [snd] in Hh'.
  rewrite bind_assoc in Hrun.
  apply bind_inv in Hrun as (fc & w2 & Hpred & Hrun).
  pose proof (predict_keeps_frames _ p' 30%Z "D" w1 Hh') as Hh''.
  rewrite Hpred in Hh''. cbn [snd] in Hh''.
  apply predict_inv in Hpred as (m & f0 & future & _ & _ & _ & _ & _ & _ & Hw2).
  rewrite bind_assoc in Hrun.
  erewrite bind_ok in Hrun by (apply (last_date_of_frame _ p' t); assumption).
  erewrite bind_ok in Hrun by reflexivity.
  unfold raw_iloc_from in Hrun. cbn [raw_getcol columns data index_of] in Hrun.
  change (String.eqb "date" "date") with true in Hrun.
  change (String.eqb "revenue" "date") with false in Hrun.
  change (String.eqb "revenue" "revenue") with true in Hrun.
  cbn [fmap option_fmap option_map] in Hrun.
  erewrite bind_ok in Hrun by reflexivity.
  apply bind_inv in Hrun as (test_dates & w3 & Hdates & Hrun).
  apply lift_inv in Hdates as [Hdates ->].
  erewrite bind_ok in Hrun by reflexivity.
  apply bind_inv in Hrun as (revenue & w3 & Hrev & Hrun).
  apply lift_inv in Hrev as [Hrev ->].
  injection Hrun as <- <-. cbn [data] in Hdates, Hrev.
  eexists _, fc. split; [reflexivity|]. split; [rewrite Hw2; reflexivity|].
  intros r Hr. apply in_map_iff in Hr as ([[d rev] f] & <- & Hin).
  apply astype_float_each in Hrev.
  apply (In_combine3_converted (λ o x, float_of_obj o = Ok x)
           (λ c, fst (fst c)) (λ c, snd (fst c)) snd) in Hin; [|exact Hrev].
  destruct Hin as ([[td tr] f'] & Hjoin & -> & Hfloat & ->).
  cbn [fst snd] in *.
  apply merge_inner_In in Hjoin as (Hleft & Hfut & Hkey). cbn [fst] in Hkey. subst td.
  apply to_datetime_each in Hdates.
  apply (In_combine_converted (λ o t, datetime_of_obj o = Ok t)
           (λ row, nth 0 row ONone) (λ row, nth 1 row ONone)) in Hleft; [|exact Hdates].
  destruct Hleft as (row & Hrow & Hdate & ->).
  apply after_In in Hfut as [Hfc (mx & Hmx & Hlt)].
  exists row, f'. cbn [cmp_date actual_revenue predicted_revenue difference difference_pct
                        default].
  repeat split; try assumption; try reflexivity.
  intros d0 Hd0. pose proof (time_max_upper t mx d0 Hmx Hd0). lia.
Qed.

End ComparisonExtras.

Section ModeExtras.
Context `{Pandas} `{ProphetLib} `{Database}.

End ModeExtras.


(** ** The claims on sample tables *)

Section Samples.
#[local] Existing Instance Naive.pandas.
#[local] Existing Instance Naive.prophet.

(** C1, as stated, fails for the revenue orchestrator: on 29 days of history
    it raises nothing, and Prophet is asked to fit. *)
Lemma revenue_forecast_fits_29_days :
  let db := Naive.database (Naive.daily_rows 29) in
  let r := @get_revenue_forecast _ _ db 3 "D" false "multiplicative" true Naive.world0 in
  length (Naive.daily_rows 29) = 29 /\
  is_ok (fst r) = true /\
  existsb is_fit (calls (snd r)) = true.
Proof. vm_compute. repeat split; reflexivity. Qed.

(** The three orchestrators on the same 29 days. *)
Lemma short_slices_by_orchestrator_witness :
  let db := Naive.database (Naive.daily_rows 29) in
  @get_product_forecast _ _ db "85123A" 3 "D" Naive.world0 =
    (Ok insufficient, asked (QProduct "85123A") Naive.world0) /\
  @get_country_forecast _ _ db "France" 3 "D" Naive.world0 =
    (Ok insufficient, asked (QCountry "France") Naive.world0) /\
  exists rest,
    calls (snd (@get_revenue_forecast _ _ db 3 "D" false "multiplicative" true
                  Naive.world0)) =
      (calls Naive.world0 ++
       [EvQuery (QDailyRevenue None None);
        EvFit (configured "additive" 0.18 12.0 "UK") Sample.prepared_29]) ++ rest.
Proof.
  intros db.
  assert (Hlen : length (Naive.daily_rows 29) < 30) by (vm_compute; lia).
  destruct (@short_slices_by_orchestrator _ _ db (Naive.daily_rows 29) 3 "D"
              Naive.world0 Hlen) as (Hp & Hc & Hr).
  split; [apply Hp; reflexivity|].
  split; [apply Hc; reflexivity|].
  apply Hr; [reflexivity|vm_compute; reflexivity].
Defined.

(** C2, as stated, fails: the row whose value is the text [abc] raises
    nothing and is missing from the frame returned. *)
Lemma non_numeric_row_raises_nothing :
  nth_error (data Sample.mixed_table) 1 = Some [ODate 1; OStr "abc"] /\
  parse_float "abc" = None /\
  prepare_data Sample.mixed_table "date" "revenue" true true =
    Ok (series [Some 0; Some 2; Some 3]%Z [12; 7; 5]%float).
Proof. vm_compute. repeat split; reflexivity. Qed.

(** The rows of the frame made of the mixed table stem from numeric rows. *)
Lemma non_numeric_rows_are_dropped_witness :
  exists out out_t out_y,
    prepare_data Sample.mixed_table "date" "revenue" true true = Ok out /\
    get_time out "ds" = Ok out_t /\ get_float out "y" = Ok out_y /\
    length out_t = length out_y /\
    forall p, In p (combine out_t out_y) ->
      stems_from [Some 3; Some 1; Some 2; None; Some 0]%Z
        [ONum 5; OStr "abc"; ONum 7; ONum 1; OStr "12"] p.
Proof.
  apply (non_numeric_rows_are_dropped Sample.mixed_table "date" "revenue" true true
           [ODate 3; ODate 1; ODate 2; ONone; ODate 0]); reflexivity.
Defined.

(** C3 fails on the code: a prepared frame of 31 days, trained on, is not
    the frame it was; it has gained the column [dow]. *)
Theorem train_leaves_dow_on_caller_frame :
  match fst (prepare_then_train Sample.thirty_one_days "revenue" Naive.world0) with
  | Ok (before_train, after_train) =>
      has_col "is_spike" before_train = true /\
      has_col "dow" before_train = false /\
      has_col "dow" after_train = true /\
      del_col "dow" after_train = before_train
  | Raise _ => False
  end.
Proof. vm_compute. repeat split; reflexivity. Qed.

(** The summary of 40 fitted days and 5 future ones. *)
Lemma summary_over_trailing_30_days_witness :
  let window :=
    List.filter (λ r, (ds Sample.last_of_45 - 30 <? ds r)%Z) (Sample.forecast_days 45) in
  (forall r, In r window <->
             In r (Sample.forecast_days 45) /\ (ds r > ds Sample.last_of_45 - 30)%Z) /\
  exists summary,
    get_forecast_summary Sample.forty_plus_five = Ok summary /\
    summary !! "avg_predicted_value" = Some (SFloat (mean (map yhat window))) /\
    summary !! "total_predicted_value" = Some (SFloat (total (map yhat window))) /\
    summary !! "min_predicted_value" = Some (SFloat (minimum (map yhat window))) /\
    summary !! "max_predicted_value" = Some (SFloat (maximum (map yhat window))) /\
    summary !! "avg_uncertainty" =
      Some (SFloat (mean (map (λ r, PrimFloat.sub (yhat_upper r) (yhat_lower r)) window))).
Proof.
  apply (summary_over_trailing_30_days Sample.forty_plus_five (Sample.forecast_days 45)
           Sample.last_of_45); reflexivity.
Defined.

(** With 40 fitted days and a horizon of 5, the window of the summary is
    the last 30 rows: 25 of them are fitted history. *)
Lemma summary_window_reaches_into_history :
  summary_window (Sample.forecast_days 45) = Ok (skipn 15 (Sample.forecast_days 45)) /\
  length (List.filter (λ r, (ds r <? 40)%Z) (skipn 15 (Sample.forecast_days 45))) = 25.
Proof. vm_compute. split; reflexivity. Qed.

(** C5, as stated, fails at exactly 30 points: the last value is above its
    threshold and no flag is set; the frame has no [is_spike] column. *)
Lemma no_spike_flags_at_30_points :
  cleaned Sample.thirty_days "date" "revenue" =
    Ok (series Sample.thirty_dates Sample.thirty_values) /\
  length Sample.thirty_values = 30 /\
  nth_error Sample.thirty_values 29 = Some 100000%float /\
  PrimFloat.ltb (spike_threshold Sample.thirty_values 29) 100000 = true /\
  prepare_data Sample.thirty_days "date" "revenue" false true =
    Ok (series Sample.thirty_dates Sample.thirty_values).
Proof. vm_compute. repeat split; reflexivity. Qed.

(** Spike detection on 31 days, the last one far out: with outlier removal
    that day is flagged and then removed. *)
Lemma spikes_flagged_above_30_points_witness :
  let y := Sample.thirty_one_values in
  let t := Sample.thirty_one_dates in
  let flags := spike_flags y in
  (nth_error y 30 = Some 1000%float /\ nth_error flags 30 = Some 1%Z /\
   within_bounds y 1000 = false) /\
  length flags = length y /\
  (forall i v, nth_error y i = Some v ->
     (nth_error flags i = Some 1%Z <-> PrimFloat.ltb (spike_threshold y i) v = true) /\
     (nth_error flags i = Some 0%Z <-> PrimFloat.ltb (spike_threshold y i) v = false)) /\
  (forall i, i < 3 \/ length y <= i + 3 ->
     spike_threshold y i = PrimFloat.add (mean y) (PrimFloat.mul 2 (std y))) /\
  (forall i, 3 <= i -> i + 3 < length y ->
     PrimFloat.is_nan (rolling_mean 7 y i) = false ->
     PrimFloat.is_nan (rolling_std 7 y i) = false ->
     spike_threshold y i =
       PrimFloat.add (rolling_mean 7 y i) (PrimFloat.mul 2 (rolling_std 7 y i))) /\
  forall ro : bool,
    let stage := if ro then filter_rows (map (within_bounds y) y) (flagged t y flags)
                 else flagged t y flags in
    exists idx,
      Permutation idx (seq 0 (len stage)) /\
      prepare_data Sample.thirty_one_days "date" "revenue" ro true =
        Ok (filter_rows_idx idx stage).
Proof.
  intros y t flags. split; [vm_compute; repeat split; reflexivity|].
  apply (spikes_flagged_above_30_points Sample.thirty_one_days "date" "revenue"
           Sample.thirty_one_dates Sample.thirty_one_values);
    [vm_compute; reflexivity|vm_compute; lia].
Defined.

(** C6, as stated, fails at exactly 30 points: the last value is outside
    the interval and is still in the frame returned. *)
Lemma outlier_kept_at_30_points :
  cleaned Sample.thirty_days "date" "revenue" =
    Ok (series Sample.thirty_dates Sample.thirty_values) /\
  length Sample.thirty_values = 30 /\
  nth_error Sample.thirty_values 29 = Some 100000%float /\
  within_bounds Sample.thirty_values 100000 = false /\
  prepare_data Sample.thirty_days "date" "revenue" true false =
    Ok (series Sample.thirty_dates Sample.thirty_values).
Proof. vm_compute. repeat split; reflexivity. Qed.

(** Outlier removal on 31 days. *)
Lemma outliers_removed_above_30_points_witness :
  let y := Sample.thirty_one_values in
  let Q1 := quantile y 0.25 in
  let Q3 := quantile y 0.75 in
  let IQR := PrimFloat.sub Q3 Q1 in
  let keep := λ v, PrimFloat.leb (PrimFloat.sub Q1 (PrimFloat.mul 3 IQR)) v
                   && PrimFloat.leb v (PrimFloat.add Q3 (PrimFloat.mul 3 IQR)) in
  exists stage idx out out_y,
    stage = series Sample.thirty_one_dates y /\
    prepare_data Sample.thirty_one_days "date" "revenue" true false = Ok out /\
    out = filter_rows_idx idx (filter_rows (map keep y) stage) /\
    Permutation idx (seq 0 (length (List.filter keep y))) /\
    get_float out "y" = Ok out_y /\
    Permutation out_y (List.filter keep y).
Proof.
  apply (outliers_removed_above_30_points Sample.thirty_one_days "date" "revenue" false
           Sample.thirty_one_dates Sample.thirty_one_values);
    [vm_compute; reflexivity|vm_compute; lia].
Defined.

(** A forecaster whose only [train] failed (its frame was never made) and
    whose only [predict] therefore raised: all three errors. *)
Lemma invalid_state_errors_witness :
  let cs := [CallTrain 0 "multiplicative" 0.08 8.0 "UK"; CallPredict 7 "D"; CallSummary] in
  let w := snd (run cs (fresh [] [])) in
  fst (run cs (fresh [] [])) = map (λ c, (c, false)) cs /\
  predict 30 "D" w =
    (Raise (ValueError "Model must be trained before making predictions"), w) /\
  get_forecast_summary (self w) =
    Raise (ValueError "No forecast available. Run predict() first.") /\
  calculate_accuracy (self w) Sample.prepared_29 = Raise (ValueError "No forecast available").
Proof.
  intros cs w.
  destruct (invalid_state_errors [] [] cs) as [Htrain Hpredict].
  split; [vm_compute; reflexivity|].
  split; [apply Htrain; vm_compute; reflexivity|].
  destruct Hpredict as [Hsummary Haccuracy]; [vm_compute; reflexivity|].
  split; [exact Hsummary|apply Haccuracy].
Defined.

(** The trend direction of the summary of 45 days: the row of day 44
    against the row of day 15, the first one after day 14. *)
Lemma trend_direction_two_valued_witness :
  exists fc l first,
    (ds l = 44%Z /\ ds first = 15%Z) /\
    forecast_df Sample.forty_plus_five = Some fc /\ last fc = Some l /\
    head (List.filter (λ r, (ds l - 30 <? ds r)%Z) fc) = Some first /\
    last (List.filter (λ r, (ds l - 30 <? ds r)%Z) fc) = Some l /\
    (Sample.summary_of_45 !! "trend_direction" = Some (SStr "increasing") <->
       PrimFloat.ltb (trend first) (trend l) = true) /\
    (Sample.summary_of_45 !! "trend_direction" = Some (SStr "decreasing") <->
       PrimFloat.ltb (trend first) (trend l) = false) /\
    (Sample.summary_of_45 !! "trend_direction" = Some (SStr "increasing") \/
     Sample.summary_of_45 !! "trend_direction" = Some (SStr "decreasing")).
Proof.
  destruct (trend_direction_two_valued Sample.forty_plus_five Sample.summary_of_45)
    as (fc & l & first & Hfc & Hl & Hh & Hw & Hrest); [vm_compute; reflexivity|].
  exists fc, l, first.
  split; [|repeat (split; [assumption|]); exact Hrest].
  injection Hfc as <-.
  assert (Hl' : last (Sample.forecast_days 45) = Some Sample.last_of_45)
    by (vm_compute; reflexivity).
  rewrite Hl' in Hl. injection Hl as <-.
  split; [reflexivity|].
  assert (Hh' : option_map ds
            (head (List.filter (λ r, (ds Sample.last_of_45 - 30 <? ds r)%Z)
                     (Sample.forecast_days 45))) = Some 15%Z)
    by (vm_compute; reflexivity).
  rewrite Hh in Hh'. injection Hh' as Hh'. exact Hh'.
Defined.



End Samples.


(** ** The further properties on sample tables *)

Section MoreSamples.
#[local] Existing Instance Naive.pandas.
#[local] Existing Instance Naive.prophet.

(** The mixed table, prepared: sorted, no missing date, no NaN. *)
Lemma prepare_data_sorts_by_date_witness :
  exists out out_t out_y,
    prepare_data Sample.mixed_table "date" "revenue" true true = Ok out /\
    get_time out "ds" = Ok out_t /\ get_float out "y" = Ok out_y /\
    dates_ascend out_t /\
    Forall (λ d, is_some d = true) out_t /\
    Forall not_nan out_y.
Proof.
  apply (prepare_data_sorts_by_date Sample.mixed_table "date" "revenue" true true
           [ODate 3; ODate 1; ODate 2; ONone; ODate 0]
           [ONum 5; OStr "abc"; ONum 7; ONum 1; OStr "12"]
           [Some 3; Some 1; Some 2; None; Some 0]%Z); reflexivity.
Defined.

(** The mixed table, prepared: its three valid rows, out of five. *)
Lemma prepare_data_returns_the_valid_rows_witness :
  let t0 := [Some 3; Some 1; Some 2; None; Some 0]%Z in
  let values := [ONum 5; OStr "abc"; ONum 7; ONum 1; OStr "12"] in
  kept_rows t0 values = [(Some 3%Z, 5%float); (Some 2%Z, 7%float); (Some 0%Z, 12%float)] /\
  exists out out_t out_y,
    prepare_data Sample.mixed_table "date" "revenue" true true = Ok out /\
    get_time out "ds" = Ok out_t /\ get_float out "y" = Ok out_y /\
    Permutation (combine out_t out_y)
      (if true && (30 <? length (kept_rows t0 values))
       then List.filter (λ r, within_bounds (map snd (kept_rows t0 values)) (snd r))
              (kept_rows t0 values)
       else kept_rows t0 values) /\
    length out_t <= raw_len Sample.mixed_table.
Proof.
  intros t0 values. split; [vm_compute; reflexivity|].
  apply (prepare_data_returns_the_valid_rows Sample.mixed_table "date" "revenue" true true
           [ODate 3; ODate 1; ODate 2; ONone; ODate 0] values t0); reflexivity.
Defined.

(** Thirty days, one of them far out: the options change nothing. *)
Lemma prepare_data_options_need_31_rows_witness :
  prepare_data Sample.thirty_days "date" "revenue" true true =
  prepare_data Sample.thirty_days "date" "revenue" false false.
Proof.
  apply (prepare_data_options_need_31_rows Sample.thirty_days "date" "revenue" true true
           (map (λ row, nth 0 row ONone) (data Sample.thirty_days))
           (map (λ row, nth 1 row ONone) (data Sample.thirty_days))
           Sample.thirty_dates);
    [reflexivity|vm_compute; reflexivity|reflexivity|vm_compute; lia].
Defined.

(** A table without the column asked for, one with a string that
    [to_datetime] raises on, and one with a string it reads as NaT. *)
Lemma prepare_data_raises_on_columns_and_dates_witness :
  let undated := {| columns := ["date"; "revenue"]; data := [[OStr "soon"; ONum 1]] |} in
  let missing := {| columns := ["date"; "revenue"];
                    data := [[OStr "NaT"; ONum 1]; [ODate 1; ONum 2]] |} in
  prepare_data Sample.mixed_table "day" "revenue" true true = Raise (KeyError "day") /\
  prepare_data Sample.mixed_table "date" "amount" true true = Raise (KeyError "amount") /\
  is_ok (prepare_data undated "date" "revenue" true true) = false /\
  prepare_data undated "date" "revenue" true true = to_datetime [OStr "soon"] ≫= (λ _, Ok []) /\
  prepare_data missing "date" "revenue" true true = Ok (series [Some 1%Z] [2%float]).
Proof.
  intros undated missing.
  destruct (prepare_data_raises_on_columns_and_dates Sample.mixed_table "day" "revenue"
              true true) as (Hday & _).
  destruct (prepare_data_raises_on_columns_and_dates Sample.mixed_table "date" "amount"
              true true) as (_ & _ & Hamount & _).
  destruct (prepare_data_raises_on_columns_and_dates undated "date" "revenue" true true)
    as (_ & Hdate & _ & Hstr & _).
  split; [apply Hday; reflexivity|].
  split; [apply (Hamount [ODate 3; ODate 1; ODate 2; ONone; ODate 0]
                   [Some 3; Some 1; Some 2; None; Some 0]%Z); reflexivity|].
  split; [apply (Hstr [OStr "soon"] "soon" (LibraryError "DateParseError"));
          [reflexivity|left; reflexivity|reflexivity]|].
  split; [apply (Hdate [OStr "soon"]); reflexivity|].
  vm_compute. reflexivity.
Defined.

(** Thirty-one days with spike detection: three columns, flags 0 or 1. *)
Lemma prepare_data_columns_witness :
  map fst Setup.prepared_31 = ["ds"; "y"; "is_spike"] /\
  exists flags, getcol Setup.prepared_31 "is_spike" = Ok (IntCol flags) /\
                Forall (λ f, f = 0%Z \/ f = 1%Z) flags.
Proof.
  assert (Hd : raw_getcol Sample.thirty_one_days "date" =
               Ok (map (λ row, nth 0 row ONone) (data Sample.thirty_one_days)))
    by reflexivity.
  assert (Ht : to_datetime (map (λ row, nth 0 row ONone) (data Sample.thirty_one_days)) =
               Ok Sample.thirty_one_dates) by (vm_compute; reflexivity).
  assert (Hv : raw_getcol Sample.thirty_one_days "revenue" =
               Ok (map (λ row, nth 1 row ONone) (data Sample.thirty_one_days)))
    by reflexivity.
  assert (Hp : prepare_data Sample.thirty_one_days "date" "revenue" false true =
               Ok Setup.prepared_31) by (vm_compute; reflexivity).
  assert (Hs : true && (30 <? length (kept_rows Sample.thirty_one_dates
                 (map (λ row, nth 1 row ONone) (data Sample.thirty_one_days)))) = true)
    by (vm_compute; reflexivity).
  pose proof (prepare_data_columns Sample.thirty_one_days "date" "revenue" false true
                _ _ _ _ Hd Ht Hv Hp) as Hcols.
  cbv zeta in Hcols. rewrite Hs in Hcols.
  destruct Hcols as [Hnames Hflags]. split; [exact Hnames|apply Hflags; reflexivity].
Defined.

(** A calendar the stand-in for Prophet does not know. *)
Lemma train_absorbs_unknown_holidays_witness :
  train 0 "additive" 0.18 12.0 "Atlantis" (Setup.world_with (Setup.prepared 29)) =
  train 0 "additive" 0.18 12.0 "" (Setup.world_with (Setup.prepared 29)).
Proof. apply train_absorbs_unknown_holidays. reflexivity. Defined.



(** Predicting a week on a forecaster trained on 29 days. *)
Lemma predict_stores_what_it_returns_witness :
  let w := Setup.trained_world in
  let w' := snd (predict 7 "D" w) in
  exists fc m future,
    fst (predict 7 "D" w) = Ok fc /\
    forecast_df (self w') = Some fc /\
    get_forecast_dataframe (self w') false = Ok (map out_row fc) /\
    model (self w) = Some m /\ trained (self w) = true /\
    model (self w') = Some m /\ trained (self w') = true /\
    spike_patterns (self w') = spike_patterns (self w) /\
    store w' = store w /\
    calls w' = calls w ++ [EvFuture 7 "D"; EvPredict future] /\
    prophet_predict m future = Ok fc /\
    (has_regressor "is_spike" m = false ->
       make_future_dataframe m 7 "D" = Ok future) /\
    (has_regressor "is_spike" m = true ->
       has_col "is_spike" future = true /\ has_col "dow" future = false).
Proof.
  apply (predict_stores_what_it_returns 7 "D" Setup.trained_world).
  vm_compute. reflexivity.
Defined.

(** A week ahead of 40 days trained on with their spike flags. *)
Lemma predict_fills_the_spike_regressor_witness :
  let t := Setup.days 47 in
  let future :=
    setcol "is_spike" (FloatCol (map (spike_outlook Setup.flag_patterns) t))
      (del_col "dow" Setup.flag_future) in
  calls (snd (predict 7 "D" Setup.flag_world)) =
    calls Setup.flag_world ++ [EvFuture 7 "D"; EvPredict future] /\
  fst (predict 7 "D" Setup.flag_world) = prophet_predict Setup.flag_model future /\
  get_time future "ds" = Ok t /\
  get_float future "is_spike" = Ok (map (spike_outlook Setup.flag_patterns) t).
Proof.
  apply (predict_fills_the_spike_regressor 7 "D" Setup.flag_world Setup.flag_model
           Setup.flag_patterns Setup.flag_future (Setup.days 47));
    vm_compute; reflexivity.
Defined.

(** Predicting on a forecaster whose model was never fitted. *)
Lemma failed_predict_keeps_the_forecaster_witness :
  let w := {| self := {| model := Some (new_prophet "additive" 0.18 12.0);
                         forecast_df := Some (Sample.forecast_days 3);
                         trained := true; spike_patterns := None |};
              store := [Setup.prepared 29]; calls := [] |} in
  is_ok (fst (predict 7 "D" w)) = false /\
  self (snd (predict 7 "D" w)) = self w /\
  store (snd (predict 7 "D" w)) = store w.
Proof.
  intros w. split; [vm_compute; reflexivity|].
  apply (failed_predict_keeps_the_forecaster 7 "D" w). vm_compute. reflexivity.
Defined.

(** No forecast, a forecast without rows, a forecast of 45 days. *)
Lemma summary_needs_a_forecast_row_witness :
  get_forecast_summary init =
    Raise (ValueError "No forecast available. Run predict() first.") /\
  get_forecast_summary (Sample.forecaster_with []) =
    Raise (IndexError "single positional indexer is out-of-bounds") /\
  is_ok (get_forecast_summary Sample.forty_plus_five) = true.
Proof.
  destruct (summary_needs_a_forecast_row init) as (Hnone & _).
  destruct (summary_needs_a_forecast_row (Sample.forecaster_with [])) as (_ & Hempty & _).
  destruct (summary_needs_a_forecast_row Sample.forty_plus_five) as (_ & _ & Hrows).
  split; [apply Hnone; reflexivity|]. split; [apply Hempty; reflexivity|].
  apply Hrows. exists (Sample.forecast_days 45). split; [reflexivity|vm_compute; lia].
Defined.

(** Two rows of trend 5. *)
Lemma level_trend_is_reported_decreasing_witness :
  Setup.level_summary !! "trend_direction" = Some (SStr "decreasing").
Proof.
  apply (level_trend_is_reported_decreasing (Sample.forecaster_with Setup.level_forecast)
           Setup.level_forecast Setup.level_summary).
  - reflexivity.
  - intros a b Ha Hb. simpl in Ha, Hb.
    destruct Ha as [<-|[<-|[]]], Hb as [<-|[<-|[]]]; reflexivity.
  - vm_compute. reflexivity.
Defined.

(** The future-only cut of 45 days has 30 of the 45 rows. *)
Lemma future_only_drops_the_cut_row_witness :
  let out := map out_row (skipn 15 (Sample.forecast_days 45)) in
  exists fc,
    forecast_df Sample.forty_plus_five = Some fc /\
    get_forecast_dataframe Sample.forty_plus_five false = Ok (map out_row fc) /\
    sublist out (map out_row fc) /\
    length out < length fc.
Proof.
  apply (future_only_drops_the_cut_row Sample.forty_plus_five). vm_compute. reflexivity.
Defined.

(** The forecast of 45 days against 29 actual days. *)
Lemma accuracy_over_rows_of_equal_date_witness :
  let k := Setup.days 29 in
  let y := map (λ i, Z_to_float (100 + 2 * Z.of_nat i)) (seq 0 29) in
  let fc := Sample.forecast_days 45 in
  let pairs := merge_inner fst ds (combine k y) fc in
  let err := map (λ p, PrimFloat.sub (snd (fst p)) (yhat (snd p))) pairs in
  let mape :=
    PrimFloat.mul
      (mean (map (λ p, PrimFloat.abs
                         (PrimFloat.div (PrimFloat.sub (snd (fst p)) (yhat (snd p)))
                            (snd (fst p)))) pairs)) 100 in
  length pairs = 29 /\
  (forall a f, In (a, f) pairs <-> In a (combine k y) /\ In f fc /\ fst a = Some (ds f)) /\
  exists accuracy,
    calculate_accuracy Sample.forty_plus_five (Setup.prepared 29) = Ok accuracy /\
    accuracy !! "mae" = Some (mean (map PrimFloat.abs err)) /\
    accuracy !! "rmse" = Some (PrimFloat.sqrt (mean (map (λ e, PrimFloat.mul e e) err))) /\
    accuracy !! "mape" = Some mape /\
    accuracy !! "accuracy_percent" = Some (PrimFloat.sub 100 mape).
Proof.
  intros k y fc pairs err mape. split; [vm_compute; reflexivity|].
  apply (accuracy_over_rows_of_equal_date Sample.forty_plus_five (Setup.prepared 29)
           fc k y); reflexivity.
Defined.

(** A horizon of 7 days on 31 days of history, one of them an outlier: 30
    rows come back, of the 37 predicted; the first is the row of day 7. *)
Lemma quick_forecast_returns_30_rows_witness :
  let r := quick_forecast Sample.thirty_one_days "date" "revenue" 7 Naive.world0 in
  exists p fc out summary,
    prepare_data Sample.thirty_one_days "date" "revenue" true true = Ok p /\
    fst r = Ok (out, summary) /\
    forecast_df (self (snd r)) = Some fc /\
    get_forecast_summary (self (snd r)) = Ok summary /\
    get_forecast_dataframe (self (snd r)) true = Ok out /\
    out = map (λ r, {| date := ds r; predicted := yhat r;
                       lower_bound := yhat_lower r; upper_bound := yhat_upper r;
                       out_trend := trend r |}) (skipn 7 fc) /\
    length fc = 37 /\ length out = 30 /\ map date out = map Z.of_nat (seq 7 30).
Proof.
  intros r.
  destruct (quick_forecast_returns_30_rows Sample.thirty_one_days "date" "revenue" 7
              Naive.world0)
    as (p & fc & out & summary & Hp & Hr & Hfc & Hs & Hout & Hcut & Hlen);
    [vm_compute; reflexivity|].
  exists p, fc, out, summary.
  assert (Hfc' : forecast_df (self (snd r)) = Some fc) by exact Hfc.
  assert (H37 : length fc = 37).
  { assert (Hl : option_map (@length FRow) (forecast_df (self (snd r))) = Some 37)
      by (vm_compute; reflexivity).
    rewrite Hfc' in Hl. injection Hl as Hl. exact Hl. }
  assert (Hinc : dates_increasing fc = true).
  { assert (Hl : option_map dates_increasing (forecast_df (self (snd r))) = Some true)
      by (vm_compute; reflexivity).
    rewrite Hfc' in Hl. injection Hl as Hl. exact Hl. }
  assert (Hdates : match fst r with
                   | Ok o => map date (fst o) = map Z.of_nat (seq 7 30)
                   | Raise _ => False
                   end) by (vm_compute; reflexivity).
  fold r in Hr. rewrite Hr in Hdates. cbn [fst] in Hdates.
  specialize (Hcut Hinc). rewrite H37 in Hcut. cbn in Hcut.
  repeat split; try assumption.
  apply Hlen; [exact Hinc|lia].
Defined.

(** The database cannot be reached. *)
Lemma database_errors_propagate_witness :
  let q := QDailyRevenue None None in
  let e := LibraryError "connection refused" in
  let w := Naive.world0 in
  (forall value_col periods freq,
     @slice_forecast _ _ Setup.unreachable q value_col periods freq w =
       (Raise e, asked q w)) /\
  (forall product_code periods freq, q = QProduct product_code ->
     @get_product_forecast _ _ Setup.unreachable product_code periods freq w =
       (Raise e, asked q w)) /\
  (forall country periods freq, q = QCountry country ->
     @get_country_forecast _ _ Setup.unreachable country periods freq w =
       (Raise e, asked q w)) /\
  (forall start_date end_date, q = QDailyRevenue start_date end_date ->
     @get_daily_revenue Setup.unreachable start_date end_date w = (Raise e, asked q w)) /\
  (q = QDailyRevenue None None ->
   (forall periods freq include_history seasonality_mode use_ensemble,
      @get_revenue_forecast _ _ Setup.unreachable periods freq include_history
        seasonality_mode use_ensemble w = (Raise e, asked q w)) /\
   (forall use_ensemble,
      @get_forecast_comparison _ _ Setup.unreachable use_ensemble w =
        (Raise e, asked q w))).
Proof.
  apply (@database_errors_propagate _ _ Setup.unreachable). reflexivity.
Defined.

(** 59 days of revenue. *)
Lemma comparison_needs_60_days_witness :
  @get_forecast_comparison _ _ (Naive.database (Naive.daily_rows 59)) true Naive.world0 =
    (Ok [], asked (QDailyRevenue None None) Naive.world0).
Proof.
  apply (@comparison_needs_60_days _ _ (Naive.database (Naive.daily_rows 59)) true
           (Naive.daily_rows 59)); [reflexivity|vm_compute; lia].
Defined.

(** 60 days of revenue: the model is fitted on the first 30. *)
Lemma comparison_holds_out_the_last_30_days_witness :
  exists rest,
    calls (snd (@get_forecast_comparison _ _ (Naive.database (Naive.daily_rows 60))
                  true Naive.world0)) =
      (calls Naive.world0 ++
       [EvQuery (QDailyRevenue None None);
        EvFit (configured "multiplicative" 0.30 5.0 "UK") (Setup.prepared 30)]) ++ rest.
Proof.
  apply (@comparison_holds_out_the_last_30_days _ _ (Naive.database (Naive.daily_rows 60))
           true (Naive.daily_rows 60));
    [reflexivity|vm_compute; lia|vm_compute; reflexivity].
Defined.

(** 60 days of revenue: 30 rows of comparison, each as described. *)
Lemma comparison_pairs_held_out_days_with_forecasts_witness :
  let db := Naive.database (Naive.daily_rows 60) in
  let rows := Naive.daily_rows 60 in
  let r := @get_forecast_comparison _ _ db true Naive.world0 in
  exists out fc,
    length out = 30 /\
    fst r = Ok out /\
    forecast_df (self (snd r)) = Some fc /\
    forall c, In c out ->
      exists row f,
        In row (skipn (length rows - 30) rows) /\ In f fc /\
        datetime_of_obj (nth 0 row ONone) = Ok (Some (ds f)) /\
        float_of_obj (nth 1 row ONone) = Ok (actual_revenue c) /\
        cmp_date c = ds f /\ predicted_revenue c = yhat f /\
        (forall d, In (Some d) (Setup.days 30) -> (d < ds f)%Z) /\
        difference c = PrimFloat.sub (actual_revenue c) (predicted_revenue c) /\
        difference_pct c =
          PrimFloat.mul (PrimFloat.div (difference c) (actual_revenue c)) 100.
Proof.
  intros db rows r.
  destruct (@comparison_pairs_held_out_days_with_forecasts _ _ db true Naive.world0
              rows (Setup.prepared 30) (Setup.days 30))
    as (out & fc & Hout & Hfc & Hrows);
    [reflexivity|vm_compute; lia|vm_compute; reflexivity|reflexivity
    |vm_compute; reflexivity|].
  exists out, fc. split; [|split; [exact Hout|split; [exact Hfc|exact Hrows]]].
  assert (Hl : match fst r with Ok o => length o | Raise _ => 0 end = 30)
    by (vm_compute; reflexivity).
  fold r in Hout. rewrite Hout in Hl. exact Hl.
Defined.

(** A product sold on 40 days, a horizon of 7: the 7 days after day 39. *)
Lemma slice_forecast_rows_follow_the_history_witness :
  let db := Naive.database (Naive.daily_rows 40) in
  let r := @slice_forecast _ _ db (QProduct "85123A") "quantity" 7 "D" Naive.world0 in
  exists fc summary all,
    length fc = 7 /\
    fst r = Ok (fc, summary) /\
    forecast_df (self (snd r)) = Some all /\
    get_forecast_summary (self (snd r)) = Ok summary /\
    fc = after (time_max (Setup.days 40)) all /\
    (forall c d, In c fc -> In (Some d) (Setup.days 40) -> (d < ds c)%Z).
Proof.
  intros db r.
  destruct (@slice_forecast_rows_follow_the_history _ _ db (QProduct "85123A") "quantity"
              7 "D" Naive.world0 (Naive.daily_rows 40) Setup.prepared_40 (Setup.days 40))
    as (fc & summary & all & Hr & Hall & Hsum & Hcut & Hafter);
    [reflexivity|vm_compute; lia|vm_compute; reflexivity|vm_compute; reflexivity
    |vm_compute; reflexivity|].
  exists fc, summary, all.
  split; [|repeat split; assumption].
  assert (Hl : match fst r with Ok o => length (fst o) | Raise _ => 0 end = 7)
    by (vm_compute; reflexivity).
  fold r in Hr. rewrite Hr in Hl. exact Hl.
Defined.

(** 40 days of revenue, a horizon of 7, with and without the history. *)
Lemma revenue_future_only_cuts_the_full_forecast_witness :
  let db := Naive.database (Naive.daily_rows 40) in
  let full := @get_revenue_forecast _ _ db 7 "D" true "multiplicative" true Naive.world0 in
  let future := @get_revenue_forecast _ _ db 7 "D" false "multiplicative" true Naive.world0 in
  exists fc summary,
    fst full = Ok (Some (fc, summary)) /\
    fst future = Ok (Some (after (time_max (Setup.days 40)) fc, summary)) /\
    snd future = snd full /\
    forecast_df (self (snd full)) = Some fc /\
    (forall c d, In c (after (time_max (Setup.days 40)) fc) ->
                 In (Some d) (Setup.days 40) -> (d < ds c)%Z).
Proof.
  intros db.
  apply (@revenue_future_only_cuts_the_full_forecast _ _ db 7 "D" "multiplicative" true
           Naive.world0 (Naive.daily_rows 40) (Setup.prepared 40) (Setup.days 40));
    [reflexivity|vm_compute; reflexivity|reflexivity|vm_compute; reflexivity].
Defined.

(** 40 days of revenue: the accuracy is that on the 40 days trained on. *)
Lemma revenue_accuracy_is_in_sample_witness :
  let db := Naive.database (Naive.daily_rows 40) in
  let r := @get_revenue_forecast _ _ db 7 "D" false "multiplicative" true Naive.world0 in
  exists fc summary accuracy,
    fst r = Ok (Some (fc, <["accuracy_metrics" := SDict accuracy]> summary)) /\
    get_forecast_summary (self (snd r)) = Ok summary /\
    calculate_accuracy (self (snd r)) (Setup.prepared 40) = Ok accuracy /\
    In (EvFit (configured "additive" 0.18 12.0 "UK") (Setup.prepared 40)) (calls (snd r)) /\
    store (snd r) = store Naive.world0 ++ [Setup.prepared 40].
Proof.
  intros db.
  apply (@revenue_accuracy_is_in_sample _ _ db 7 "D" false "multiplicative" true
           Naive.world0 (Naive.daily_rows 40) (Setup.prepared 40) (Setup.days 40));
    [reflexivity|vm_compute; reflexivity|reflexivity|vm_compute; reflexivity].
Defined.

End MoreSamples.
